(** * Cylink URL shortener: the redirect-and-attribution pipeline

    A shallow embedding of [src/middlewares/redirectMiddleware.ts] (the
    redirect middleware and [autoTrackConversion]) and of the ownership
    check of [controllers/urlController] ([getUrlDetails], [deleteUrl],
    [getUrlAnalytics]), with the properties the specification states
    about them.

    The handlers are asynchronous JavaScript functions that call
    collaborators (services, models, the Express response object) and can
    throw.  They are embedded in a small monad that records the observable
    events of a run, in order, and carries an exception; [try]/[catch]
    blocks of the source are [try_catch] here.  Collaborators whose code is
    outside the embedded files are fields of a record of behaviours. *)

From Stdlib Require Import String Ascii List ZArith Bool Lia.
Import ListNotations.
Local Open Scope string_scope.
Local Open Scope list_scope.
Local Open Scope Z_scope.

(** ** JavaScript strings and values *)

Module Js.

(** [s.substring(n)]: the string without its first [n] characters. *)
Fixpoint substring_from (n : nat) (s : string) : string :=
  match n, s with
  | O, _ => s
  | S _, EmptyString => EmptyString
  | S k, String _ rest => substring_from k rest
  end.

(** [s.startsWith(p)]. *)
Definition startsWith (p s : string) : bool := String.prefix p s.

(** [s.includes(p)]: [p] occurs in [s] at some position. *)
Fixpoint includes (p s : string) : bool :=
  String.prefix p s ||
  match s with
  | EmptyString => false
  | String _ rest => includes p rest
  end.

(** Truthiness of a string: only the empty string is falsy. *)
Definition nonempty (s : string) : bool :=
  match s with EmptyString => false | _ => true end.

(** What a thrown value is, as far as the handlers tell them apart:
    [error instanceof TypeError], [error instanceof Error] with its
    message, or a value that is not an [Error]. *)
Inductive exn : Type :=
| TypeError (message : string)
| Error (message : string)
| NonError (value : string).

(** The result of a call that can throw (or of an awaited promise that
    can reject). *)
Inductive result (A : Type) : Type :=
| Returns (a : A)
| Throws (e : exn).
Arguments Returns {A} a.
Arguments Throws {A} e.

(** A header or socket field: [string | string[] | undefined], and
    [null] where the source writes [|| null]. *)
Inductive hval : Type :=
| HUndefined
| HNull
| HStr (s : string)
| HArr (l : list string).

Definition truthy (v : hval) : bool :=
  match v with
  | HUndefined | HNull => false
  | HStr s => nonempty s
  | HArr _ => true
  end.

(** [a || b]. *)
Definition or_else (a b : hval) : hval := if truthy a then a else b.

(** [typeof v === 'string']. *)
Definition is_string (v : hval) : bool :=
  match v with HStr _ => true | _ => false end.

(** A value produced by [JSON.parse], and [undefined] for a property
    that is not there.  Numbers are the integer ones: the handlers only
    copy them into log lines and test them for zero. *)
#[warnings="-register-all"] Inductive json : Type :=
| JUndefined
| JNull
| JBool (b : bool)
| JNum (n : Z)
| JStr (s : string)
| JArr (items : list json)
| JObj (fields : list (string * json)).

Fixpoint assoc (k : string) (fields : list (string * json)) : json :=
  match fields with
  | [] => JUndefined
  | (k', v) :: rest => if String.eqb k k' then v else assoc k rest
  end.

(** [v.k]: a [TypeError] on [null] and [undefined], the field of an
    object, [undefined] on anything else. *)
Definition get (v : json) (k : string) : result json :=
  match v with
  | JUndefined => Throws (TypeError "Cannot read properties of undefined")
  | JNull => Throws (TypeError "Cannot read properties of null")
  | JObj fields => Returns (assoc k fields)
  | _ => Returns JUndefined
  end.

Definition json_truthy (v : json) : bool :=
  match v with
  | JUndefined | JNull => false
  | JBool b => b
  | JNum n => negb (n =? 0)
  | JStr s => nonempty s
  | JArr _ | JObj _ => true
  end.

End Js.
Import Js.

(** ** Runs: a trace of events and a value or an exception *)

(** The row of [urlController]'s [UrlEntity] interface.  Timestamps are
    milliseconds since the epoch. *)
Record UrlEntity : Type := {
  id : Z;
  user_id : option Z;
  original_url : string;
  short_code : string;
  title : option string;
  expiry_date : option Z;
  is_active : bool;
  has_password : bool;
  password_hash : option string;
  redirect_type : string;
  created_at : Z;
  updated_at : option Z;
  deleted_at : option Z
}.

(** [ExtendedRequest.clickInfo]. *)
Record ClickInfo : Type := {
  ipAddress : hval;
  userAgent : hval;
  referrer : hval;
  country : hval;
  deviceType : string;
  browser : string;
  clickId : option Z;
  trackingId : option string
}.

(** What [urlService.recordClickAndGetOriginalUrl] resolves to when the
    link is found. *)
Record ClickResult : Type := {
  originalUrl : string;
  res_clickId : Z;
  urlId : Z
}.

(** A row of [conversionGoalModel.getGoalsByUrlId]; the middleware reads
    its [id]. *)
Record ConversionGoal : Type := { goal_id : Z }.

(** The object passed to [impressionModel.recordImpression]. *)
Record ImpressionData : Type := {
  url_id : Z;
  ip_address : hval;
  user_agent : hval;
  imp_referrer : string;
  is_unique : bool;
  source : string
}.

(** The options and body of the request [autoTrackConversion] sends.
    [port] is [process.env.PORT] (a string) or the number 5000; [postData]
    is the object before [JSON.stringify].  The [Content-Length] header,
    the byte length of that text, is left out. *)
Record HttpRequest : Type := {
  hostname : string;
  port : string + Z;
  http_path : string;
  method : string;
  content_type : string;
  postData : json
}.

Inductive level : Type := Info | Err.

(** The lines written to [logger], one constructor per call site, with
    the values interpolated into the line. *)
Inductive LogMsg : Type :=
| ConversionTracked (conversion_id : json) (tracking_id : string)
| ErrorTrackingConversion (message : json)
| ErrorParsingConversionResponse (e : exn)
| ErrorSendingConversionRequest (e : exn)
| Redirecting (shortCode originalUrl : string) (redirectType : Z)
| RecordedImpression (urlId : Z)
| FailedToRecordImpression (urlId : Z) (e : exn)
| ErrorTrackingImpression (e : exn)
| FoundConversionGoal (goalId urlId : Z)
| ErrorGettingGoals (e : exn)
| ErrorInAutoTracking (e : exn)
| UrlNotFound (shortCode : string)
| RedirectError (e : exn)
| RetrievedUrlDetails (isId : bool) (identifier : string)
| DeletedUrl (urlId : Z)
| RetrievedAnalytics (urlId : Z)
| UrlError (what : string) (e : exn).

(** What a run does that can be seen from outside, in order: [next()],
    [res.redirect(status, location)], [res.status(status).json({status,
    message})], a log line, the calls to the collaborators with their
    arguments, [setTimeout] with the call of [autoTrackConversion] it
    delays, [http.request] with the request it is given; and for the
    controller [urlModel.deleteUrl(urlId)] and [sendResponse(res, status,
    message, data)]. *)
Inductive Event : Type :=
| Next
| Redirect (status : Z) (location : string)
| Json (status : Z) (body_status : Z) (body_message : string)
| Log (lvl : level) (msg : LogMsg)
| RecordClick (shortCode : string) (info : ClickInfo)
| SetClickId (clickId urlId : Z)
| GetUrlByShortCode (shortCode : string)
| HasRecentImpression (urlId : Z) (ip : hval)
| RecordImpression (data : ImpressionData)
| GetGoalsByUrlId (urlId : Z)
| SetTimeout (ms : Z) (trackingId : string) (goalId : Z)
| HttpSend (request : HttpRequest)
| SoftDelete (urlId : Z)
| Send (status : Z) (message : string) (data : option json).

Module Run.

Definition M (A : Type) : Type := list Event * result A.

Definition ret {A} (a : A) : M A := ([], Returns a).

Definition bind {A B} (m : M A) (k : A -> M B) : M B :=
  match snd m with
  | Returns a => (fst m ++ fst (k a), snd (k a))
  | Throws e => (fst m, Throws e)
  end.

Definition emit (ev : Event) : M unit := ([ev], Returns tt).

Definition throw {A} (e : exn) : M A := ([], Throws e).

(** An awaited call: its outcome is the outcome of the run. *)
Definition await {A} (r : result A) : M A := ([], r).

(** [try { body } catch (e) { handler e }]. *)
Definition try_catch {A} (body : M A) (handler : exn -> M A) : M A :=
  match snd body with
  | Returns a => (fst body, Returns a)
  | Throws e => (fst body ++ fst (handler e), snd (handler e))
  end.

Definition trace {A} (m : M A) : list Event := fst m.

End Run.
Import Run.

Declare Scope run_scope.
Delimit Scope run_scope with run.
Notation "x <- m ;; k" := (bind m (fun x => k))
  (at level 61, m at next level, right associativity) : run_scope.
Notation "m ;; k" := (bind m (fun _ => k))
  (at level 61, right associativity) : run_scope.
Local Open Scope run_scope.

Definition log (lvl : level) (msg : LogMsg) : M unit := emit (Log lvl msg).

(** ** Collaborators

    The services and models the middleware requires ([urlService],
    [impressionModel], [conversionGoalModel]), the WHATWG [URL]
    constructor, Node's [http.request] and [process.env]: what each call
    answers.  A rejected promise that is awaited is [Throws].  The calls
    are taken not to write to the objects they are given: the one writer
    of [req.clickInfo] is the hook [setClickId]. *)

(** [impressionModel.recordImpression] is not awaited: it throws at the
    call, or hands back a promise that settles later. *)
Inductive write_outcome : Type :=
| WriteThrows (e : exn)
| WritePromise (settled : result unit).

(** What happens to the request of [autoTrackConversion]: [http.request],
    [write] or [end] throws inside the promise executor; the request emits
    ['error']; or the response ends with a status code and a body, of which
    [parsed] is what [JSON.parse] makes. *)
Inductive http_outcome : Type :=
| RequestThrows (e : exn)
| RequestError (e : exn)
| Response (statusCode : option Z) (parsed : result json).

Record ProcessEnv : Type := { HOST : option string; PORT : option string }.

Record Services : Type := {
  recordClickAndGetOriginalUrl : string -> ClickInfo -> result (option ClickResult);
  getUrlByShortCode : string -> result (option UrlEntity);
  hasRecentImpression : Z -> hval -> result bool;
  recordImpression : ImpressionData -> write_outcome;
  getGoalsByUrlId : Z -> result (list ConversionGoal);
  (** [new URL(s).hostname], [None] when the constructor throws. *)
  URL_hostname : string -> option string;
  http_request : HttpRequest -> http_outcome;
  process_env : ProcessEnv
}.

(** The parts of the Express request the middleware reads.  [setClickId]
    is the hook an upstream middleware may attach; it writes to
    [req.clickInfo], so it is a function on that field. *)
Record Request : Type := {
  path : string;
  h_x_forwarded_for : hval;
  h_user_agent : hval;
  h_referer : hval;
  h_referrer : hval;
  remoteAddress : hval;
  req_clickInfo : option ClickInfo;
  setClickId : option (Z -> Z -> option ClickInfo -> result (option ClickInfo))
}.

(** ** [autoTrackConversion] *)

(** [res.statusCode && res.statusCode >= 200 && res.statusCode < 300]. *)
Definition is_2xx (statusCode : option Z) : bool :=
  match statusCode with
  | Some n => negb (n =? 0) && (200 <=? n) && (n <? 300)
  | None => false
  end.

Definition env_or (v : option string) (default : string) : string :=
  match v with
  | Some s => if nonempty s then s else default
  | None => default
  end.

(** The request that is sent: [options] and the object that is
    stringified into the body. *)
Definition conversionRequest (env : ProcessEnv) (trackingId : string) (goalId : Z)
  : HttpRequest :=
  {| hostname := env_or (HOST env) "localhost";
     port := match PORT env with
             | Some p => if nonempty p then inl p else inr 5000
             | None => inr 5000
             end;
     http_path := "/api/v1/conversions";
     method := "POST";
     content_type := "application/json";
     postData := JObj [("tracking_id", JStr trackingId); ("goal_id", JNum goalId)] |}.

(** The run ends in [Returns tt] when the promise is resolved and in
    [Throws e] when it is rejected with [e].  The statements before
    [new Promise] do not throw on a string and a number, so the outer
    [catch] of the source has no run. *)
Definition autoTrackConversion (svc : Services) (trackingId : string) (goalId : Z)
  : M unit :=
  let request := conversionRequest (process_env svc) trackingId goalId in
  emit (HttpSend request) ;;
  match http_request svc request with
  | RequestThrows e => throw e
  | RequestError e =>
      log Err (ErrorSendingConversionRequest e) ;;
      throw e
  | Response statusCode parsed =>
      try_catch
        (result <- await parsed ;;
         (if is_2xx statusCode then
            data <- await (get result "data") ;;
            conversion_id <- await (get data "conversion_id") ;;
            log Info (ConversionTracked conversion_id trackingId)
          else
            message <- await (get result "message") ;;
            log Err (ErrorTrackingConversion
                       (if json_truthy message then message
                        else JStr "Unknown error"))) ;;
         ret tt)
        (fun e =>
           log Err (ErrorParsingConversionResponse e) ;;
           throw e)
  end.

(** The callback given to [setTimeout]: the call and its [.catch]. *)
Definition timerCallback (svc : Services) (trackingId : string) (goalId : Z)
  : M unit :=
  try_catch (autoTrackConversion svc trackingId goalId)
            (fun err => log Err (ErrorInAutoTracking err)).

(** ** The redirect middleware *)

Definition utm_parameters : string :=
  "utm_source=cylink&utm_medium=shortlink&utm_campaign=conversion&utm_content=".

(** [req.clickInfo?.trackingId] when it is truthy. *)
Definition established (info : option ClickInfo) : option string :=
  match info with
  | Some ci =>
      match trackingId ci with
      | Some t => if nonempty t then Some t else None
      | None => None
      end
  | None => None
  end.

(** [url?.redirect_type === '301' ? 301 : 302]. *)
Definition redirectTypeOf (url : option UrlEntity) : Z :=
  match url with
  | Some u => if String.eqb (redirect_type u) "301" then 301 else 302
  | None => 302
  end.

(** The traffic source of an impression, from the referrer headers. *)
Definition sourceOf (svc : Services) (referrer : hval) : string :=
  match referrer with
  | HStr r =>
      if nonempty r then
        match URL_hostname svc r with
        | Some host => host
        | None => r
        end
      else ""
  | _ => ""
  end.

(** The block that tracks the impression: anything it throws is logged
    and goes no further.  The write is started and not awaited; what its
    promise does later is in [settled]. *)
Definition trackImpression (svc : Services) (req : Request) (urlId : Z) : M unit :=
  try_catch
    (let ipAddress := or_else (h_x_forwarded_for req) (remoteAddress req) in
     let userAgent := or_else (h_user_agent req) (HStr "") in
     let referrer := or_else (or_else (h_referer req) (h_referrer req)) (HStr "") in
     let source := sourceOf svc referrer in
     emit (HasRecentImpression urlId ipAddress) ;;
     recent <- await (hasRecentImpression svc urlId ipAddress) ;;
     let isUnique := negb recent in
     let data :=
       {| url_id := urlId;
          ip_address := ipAddress;
          user_agent := userAgent;
          imp_referrer := match referrer with HStr r => r | _ => "" end;
          is_unique := isUnique;
          source := source |} in
     emit (RecordImpression data) ;;
     match recordImpression svc data with
     | WriteThrows e => throw e
     | WritePromise _ => ret tt
     end)
    (fun impressionError => log Err (ErrorTrackingImpression impressionError)).

(** The block that sets [goalId]: the id of the first goal, [null] when
    there is none or the lookup fails. *)
Definition findGoal (svc : Services) (urlId : Z) : M (option Z) :=
  try_catch
    (emit (GetGoalsByUrlId urlId) ;;
     goals <- await (getGoalsByUrlId svc urlId) ;;
     match goals with
     | first :: _ =>
         log Info (FoundConversionGoal (goal_id first) urlId) ;;
         ret (Some (goal_id first))
     | [] => ret None
     end)
    (fun error => log Err (ErrorGettingGoals error) ;; ret None).

(** [if (goalId)]: [null] and the number 0 are falsy. *)
Definition goal_truthy (goalId : option Z) : option Z :=
  match goalId with
  | Some g => if g =? 0 then None else Some g
  | None => None
  end.

(** [req.clickInfo || { ... }]. *)
Definition visitorInfo (req : Request) : ClickInfo :=
  match req_clickInfo req with
  | Some ci => ci
  | None =>
      {| ipAddress := or_else (h_x_forwarded_for req) (remoteAddress req);
         userAgent := h_user_agent req;
         referrer := or_else (or_else (h_referer req) (h_referrer req)) HNull;
         country := HNull;
         deviceType := "unknown";
         browser := "unknown";
         clickId := None;
         trackingId := None |}
  end.

(** The guard of the middleware: the path is not a candidate short code. *)
Definition skipped (shortCode : string) : bool :=
  negb (nonempty shortCode) || includes "/" shortCode || startsWith "api" shortCode.

(** The exported handler, up to its return. *)
Definition middleware (svc : Services) (req : Request) : M unit :=
  try_catch
    (let shortCode := substring_from 1 (path req) in
     if skipped shortCode then emit Next
     else
       let clickInfo := visitorInfo req in
       emit (RecordClick shortCode clickInfo) ;;
       result <- await (recordClickAndGetOriginalUrl svc shortCode clickInfo) ;;
       match result with
       | Some r =>
           info <- match setClickId req with
                   | Some hook =>
                       emit (SetClickId (res_clickId r) (urlId r)) ;;
                       await (hook (res_clickId r) (urlId r) (req_clickInfo req))
                   | None => ret (req_clickInfo req)
                   end ;;
           emit (GetUrlByShortCode shortCode) ;;
           url <- await (getUrlByShortCode svc shortCode) ;;
           let redirectType := redirectTypeOf url in
           log Info (Redirecting shortCode (originalUrl r) redirectType) ;;
           trackImpression svc req (urlId r) ;;
           goalId <- findGoal svc (urlId r) ;;
           redirectUrl <-
             match established info with
             | Some tid =>
                 let separator := if includes "?" (originalUrl r) then "&" else "?" in
                 match goal_truthy goalId with
                 | Some g => emit (SetTimeout 100 tid g)
                 | None => ret tt
                 end ;;
                 ret (originalUrl r ++ separator ++ utm_parameters ++ tid)%string
             | None => ret (originalUrl r)
             end ;;
           emit (Redirect redirectType redirectUrl)
       | None =>
           log Info (UrlNotFound shortCode) ;;
           emit (Json 404 404 "Short URL not found or has expired")
       end)
    (fun error =>
       log Err (RedirectError error) ;;
       emit (Json 500 500 "Internal Server Error")).

(** Its events. *)
Definition redirectMiddleware (svc : Services) (req : Request) : list Event :=
  trace (middleware svc req).

(** What runs after the middleware has returned: the handlers on the
    promise of each impression write, and each timer. *)
Definition settled (svc : Services) (ev : Event) : M unit :=
  match ev with
  | RecordImpression data =>
      match recordImpression svc data with
      | WriteThrows _ => ret tt
      | WritePromise (Returns _) => log Info (RecordedImpression (url_id data))
      | WritePromise (Throws e) => log Err (FailedToRecordImpression (url_id data) e)
      end
  | SetTimeout _ tid g => timerCallback svc tid g
  | _ => ret tt
  end.

Fixpoint detached (svc : Services) (t : list Event) : M unit :=
  match t with
  | [] => ret tt
  | ev :: rest => settled svc ev ;; detached svc rest
  end.

(** A whole request: the middleware, then what it left running. *)
Definition serve (svc : Services) (req : Request) : M unit :=
  middleware svc req ;; detached svc (redirectMiddleware svc req).

(** The responses in a trace: what the client or the next handler gets. *)
Definition is_response (ev : Event) : bool :=
  match ev with
  | Next | Redirect _ _ | Json _ _ _ => true
  | _ => false
  end.

Definition responses (t : list Event) : list Event := filter is_response t.

(** ** The impression store *)

Module impressionModel.

Definition hval_eq_dec (a b : hval) : {a = b} + {a <> b}.
Proof.
  decide equality; [apply string_dec | apply (list_eq_dec string_dec)].
Defined.

Definition hval_eqb (a b : hval) : bool :=
  if hval_eq_dec a b then true else false.

(** A stored impression: what was written, and when (milliseconds). *)
Record Impression : Type := { row : ImpressionData; recorded_at : Z }.

Definition window : Z := 30 * 60 * 1000.

Definition same_pair (urlId : Z) (ip : hval) (i : Impression) : bool :=
  (url_id (row i) =? urlId) && hval_eqb (ip_address (row i)) ip.

(** Modelled from the spec: [impressionModel.hasRecentImpression], which
    is not among the embedded files.  An impression of the (url, IP)
    pair exists whose age at [now] is less than the 30-minute window. *)
Definition hasRecentImpression (store : list Impression) (now : Z)
           (urlId : Z) (ip : hval) : bool :=
  existsb (fun i => same_pair urlId ip i && (now - recorded_at i <? window)) store.

(** Modelled from the spec: [impressionModel.recordImpression], which is
    not among the embedded files.  Impressions are append-only. *)
Definition recordImpression (store : list Impression) (now : Z)
           (data : ImpressionData) : list Impression :=
  store ++ [ {| row := data; recorded_at := now |} ].

End impressionModel.

(** The services with the impression model answering from a store, at
    time [now]; the write succeeds. *)
Definition withStore (base : Services) (store : list impressionModel.Impression)
           (now : Z) : Services :=
  {| recordClickAndGetOriginalUrl := recordClickAndGetOriginalUrl base;
     getUrlByShortCode := getUrlByShortCode base;
     hasRecentImpression :=
       fun u ip => Returns (impressionModel.hasRecentImpression store now u ip);
     recordImpression := fun _ => WritePromise (Returns tt);
     getGoalsByUrlId := getGoalsByUrlId base;
     URL_hostname := URL_hostname base;
     http_request := http_request base;
     process_env := process_env base |}.

(** The store after the writes a trace issued have completed. *)
Fixpoint persist (store : list impressionModel.Impression) (now : Z)
         (t : list Event) : list impressionModel.Impression :=
  match t with
  | [] => store
  | RecordImpression data :: rest =>
      persist (impressionModel.recordImpression store now data) now rest
  | _ :: rest => persist store now rest
  end.

(** One request against the store at time [now]: its events, and the
    store once its impression write has completed. *)
Definition request_at (base : Services) (store : list impressionModel.Impression)
           (now : Z) (req : Request) : list Event * list impressionModel.Impression :=
  let t := redirectMiddleware (withStore base store now) req in
  (t, persist store now t).

Definition impressions (t : list Event) : list ImpressionData :=
  flat_map (fun ev => match ev with RecordImpression d => [d] | _ => [] end) t.

(** ** The URL controller: details, soft delete, analytics *)

Module urlController.

Record RecentClick : Type := { clicked_at : Z; device_type : option string }.

Record Analytics : Type := { browserStats : json; deviceStats : json }.

Record AnalyticsOptions : Type := {
  startDate : option hval;
  endDate : option hval;
  groupBy : option hval
}.

(** [urlModel], [clickModel] and [urlService], as far as the three
    handlers call them. *)
Record Models : Type := {
  getUrlById : Z -> bool -> result (option UrlEntity);
  getUrlByShortCode : string -> result (option UrlEntity);
  deleteUrl_model : Z -> result bool;
  getClickCountByUrlId : Z -> result Z;
  getRecentClicksByUrlId : Z -> Z -> result (list RecentClick);
  getUrlAnalytics_service : Z -> result Analytics;
  getUrlAnalyticsWithFilters : Z -> AnalyticsOptions -> result json
}.

(** The language runtime and the environment: [Number(s)] and
    [parseInt(s)] ([None] is [NaN]), [new Date(ms).toISOString()] and
    [process.env.SHORT_URL_BASE]. *)
Record Runtime : Type := {
  Number : string -> option Z;
  parseInt : string -> option Z;
  toISOString : Z -> result string;
  SHORT_URL_BASE : option string
}.

(** [req.body.id] (set from the token), the route parameter and the
    query of the request. *)
Record ApiRequest : Type := {
  body_id : json;
  param : string;
  start_date : hval;
  end_date : hval;
  group_by : hval
}.

(** [url.user_id && url.user_id !== userId]. *)
Definition owned_by_other (url : UrlEntity) (userId : json) : bool :=
  match user_id url with
  | None => false
  | Some owner =>
      negb (owner =? 0) &&
      negb (match userId with JNum n => n =? owner | _ => false end)
  end.

Definition sendResponse (status : Z) (message : string) (data : option json) : M unit :=
  emit (Send status message data).

(** The [catch] of the handlers: a type error is the client's fault, any
    other failure the server's.  [doing] and [todo] name the operation
    in the log line. *)
Definition failed (doing todo : string) (error : exn) : M unit :=
  match error with
  | TypeError _ =>
      log Err (UrlError ("Type error while " ++ doing)%string error) ;;
      sendResponse 400 "Invalid request format" None
  | Error _ =>
      log Err (UrlError ("Failed to " ++ todo)%string error) ;;
      sendResponse 500 "Internal Server Error" None
  | NonError _ =>
      log Err (UrlError ("Unknown error while " ++ doing)%string error) ;;
      sendResponse 500 "Internal server error" None
  end.

Definition json_opt (v : option string) : json :=
  match v with Some s => JStr s | None => JNull end.

Fixpoint formatClicks (rt : Runtime) (clicks : list RecentClick) : M (list json) :=
  match clicks with
  | [] => ret []
  | click :: rest =>
      timestamp <- await (toISOString rt (clicked_at click)) ;;
      formatted <- formatClicks rt rest ;;
      ret (JObj [("timestamp", JStr timestamp);
                 ("device_type",
                  JStr (match device_type click with Some d => d | None => "unknown" end))]
             :: formatted)
  end.

Definition getUrlDetails (m : Models) (rt : Runtime) (req : ApiRequest) : M unit :=
  try_catch
    (let userId := body_id req in
     let identifier := param req in
     let isId := match Number rt identifier with Some _ => true | None => false end in
     url <- await (match Number rt identifier with
                   | Some n => getUrlById m n false
                   | None => getUrlByShortCode m identifier
                   end) ;;
     match url with
     | None => sendResponse 404 "URL not found" None
     | Some url =>
         if owned_by_other url userId then sendResponse 401 "Unauthorized" None
         else
           clickCount <- await (getClickCountByUrlId m (id url)) ;;
           analytics <- await (getUrlAnalytics_service m (id url)) ;;
           recentClicks <- await (getRecentClicksByUrlId m (id url) 10) ;;
           formattedRecentClicks <- formatClicks rt recentClicks ;;
           let baseUrl := match SHORT_URL_BASE rt with
                          | Some b => b
                          | None => "https://cylink.id/"
                          end in
           let shortUrl := (baseUrl ++ short_code url)%string in
           createdAt <- await (toISOString rt (created_at url)) ;;
           updatedAt <- match updated_at url with
                        | Some u => await (toISOString rt u)
                        | None => ret createdAt
                        end ;;
           expiryDate <- match expiry_date url with
                         | Some e => iso <- await (toISOString rt e) ;; ret (JStr iso)
                         | None => ret JNull
                         end ;;
           let response :=
             JObj [("id", JNum (id url));
                   ("original_url", JStr (original_url url));
                   ("short_code", JStr (short_code url));
                   ("short_url", JStr shortUrl);
                   ("title", json_opt (title url));
                   ("clicks", JNum clickCount);
                   ("created_at", JStr createdAt);
                   ("updated_at", JStr updatedAt);
                   ("expiry_date", expiryDate);
                   ("is_active", JBool (is_active url));
                   ("analytics",
                    JObj [("browser_stats", browserStats analytics);
                          ("device_stats", deviceStats analytics);
                          ("recent_clicks", JArr formattedRecentClicks)])] in
           log Info (RetrievedUrlDetails isId identifier) ;;
           sendResponse 200 "Successfully retrieved URL" (Some response)
     end)
    (failed "retrieving URL details" "retrieve URL details").

Definition deleteUrl (m : Models) (rt : Runtime) (req : ApiRequest) : M unit :=
  try_catch
    (let userId := body_id req in
     match parseInt rt (param req) with
     | None => sendResponse 400 "Invalid URL ID" None
     | Some urlId =>
         url <- await (getUrlById m urlId false) ;;
         match url with
         | None => sendResponse 404 "URL not found" None
         | Some url =>
             if owned_by_other url userId then sendResponse 401 "Unauthorized" None
             else
               emit (SoftDelete urlId) ;;
               isDeleted <- await (deleteUrl_model m urlId) ;;
               if negb isDeleted then sendResponse 500 "Failed to delete URL" None
               else
                 deletedUrl <- await (getUrlById m urlId true) ;;
                 match deletedUrl with
                 | None => throw (TypeError "Cannot read properties of null")
                 | Some deletedUrl =>
                     deletedAt <- await (toISOString rt
                                           (match deleted_at deletedUrl with
                                            | Some d => d
                                            | None => 0
                                            end)) ;;
                     let response :=
                       JObj [("id", JNum (id deletedUrl));
                             ("short_code", JStr (short_code deletedUrl));
                             ("deleted_at", JStr deletedAt)] in
                     log Info (DeletedUrl urlId) ;;
                     sendResponse 200 "Successfully deleted URL" (Some response)
                 end
         end
     end)
    (failed "deleting URL" "delete URL").

(** [group_by && ['day', 'week', 'month'].includes(group_by)]. *)
Definition known_grouping (v : hval) : bool :=
  match v with
  | HStr s => String.eqb s "day" || String.eqb s "week" || String.eqb s "month"
  | _ => false
  end.

(** The [options] object built from the query: a date is taken when it
    is truthy, the grouping when it is one of the three known. *)
Definition analyticsOptions (req : ApiRequest) : AnalyticsOptions :=
  {| startDate := if truthy (start_date req) then Some (start_date req) else None;
     endDate := if truthy (end_date req) then Some (end_date req) else None;
     groupBy := if known_grouping (group_by req) then Some (group_by req) else None |}.

Definition getUrlAnalytics (m : Models) (rt : Runtime) (req : ApiRequest) : M unit :=
  try_catch
    (let userId := body_id req in
     match parseInt rt (param req) with
     | None => sendResponse 400 "Invalid URL ID" None
     | Some urlId =>
         url <- await (getUrlById m urlId false) ;;
         match url with
         | None => sendResponse 404 "URL not found" None
         | Some url =>
             if owned_by_other url userId then sendResponse 401 "Unauthorized" None
             else
               let options := analyticsOptions req in
               analytics <- await (getUrlAnalyticsWithFilters m urlId options) ;;
               log Info (RetrievedAnalytics urlId) ;;
               sendResponse 200 "Successfully retrieved URL analytics" (Some analytics)
         end
     end)
    (fun error =>
       match error with
       | TypeError msg | Error msg =>
           if String.eqb msg "URL not found" then sendResponse 404 "URL not found" None
           else failed "retrieving analytics" "retrieve URL analytics" error
       | NonError _ => failed "retrieving analytics" "retrieve URL analytics" error
       end).

(** A reply with status 401 somewhere in a trace. *)
Definition unauthorized (t : list Event) : bool :=
  existsb (fun ev => match ev with Send status _ _ => status =? 401 | _ => false end) t.

(** A run that sends no 401. *)
Definition authorized {A} (m : M A) : Prop := unauthorized (fst m) = false.

(** The same request with another user id in the token. *)
Definition as_user (userId : json) (req : ApiRequest) : ApiRequest :=
  {| body_id := userId;
     param := param req;
     start_date := start_date req;
     end_date := end_date req;
     group_by := group_by req |}.

(** The record [getUrlDetails] looks up: by id when the identifier is a
    number, by short code otherwise. *)
Definition lookup (m : Models) (rt : Runtime) (req : ApiRequest)
  : result (option UrlEntity) :=
  match Number rt (param req) with
  | Some n => getUrlById m n false
  | None => getUrlByShortCode m (param req)
  end.

End urlController.

(** ** Sample data

    A small world to run the handlers in: three links, one visitor hook,
    services that answer from the table. *)

Module Sample.

Definition entity (n : Z) (code dest kind : string) : UrlEntity :=
  {| id := n; user_id := None; original_url := dest; short_code := code;
     title := None; expiry_date := None; is_active := true;
     has_password := false; password_hash := None; redirect_type := kind;
     created_at := 1700000000000; updated_at := None; deleted_at := None |}.

Definition table : list UrlEntity :=
  [ entity 42 "abc123" "https://example.com/page?x=1" "302";
    entity 43 "perm" "https://example.org/landing" "301";
    entity 44 "apiary" "https://bees.example/hive" "302" ].

Definition find (code : string) : option UrlEntity :=
  List.find (fun u => String.eqb (short_code u) code) table.

Definition clicked (u : UrlEntity) : ClickResult :=
  {| originalUrl := original_url u; res_clickId := 7; urlId := id u |}.

(** Stand-in for the [URL] constructor: an [https://] prefix followed by
    the host, up to the next slash. *)
Fixpoint upto_slash (s : string) : string :=
  match s with
  | EmptyString => EmptyString
  | String c rest => if Ascii.eqb c "/" then EmptyString else String c (upto_slash rest)
  end.

Definition host_of (s : string) : option string :=
  if String.prefix "https://" s then Some (upto_slash (substring_from 8 s)) else None.

Definition created : json :=
  JObj [("status", JNum 201); ("data", JObj [("conversion_id", JNum 77)])].

Definition services : Services :=
  {| recordClickAndGetOriginalUrl := fun code _ => Returns (option_map clicked (find code));
     getUrlByShortCode := fun code => Returns (find code);
     hasRecentImpression := fun _ _ => Returns false;
     recordImpression := fun _ => WritePromise (Returns tt);
     getGoalsByUrlId :=
       fun u => Returns (if u =? 42 then [ {| goal_id := 5 |}; {| goal_id := 9 |} ] else []);
     URL_hostname := host_of;
     http_request := fun _ => Response (Some 201) (Returns created);
     process_env := {| HOST := None; PORT := None |} |}.

(** The hook of the tracking middleware: it stores the click id and a
    tracking id on [req.clickInfo]. *)
Definition tracker (tid : string) (click url : Z) (info : option ClickInfo)
  : result (option ClickInfo) :=
  Returns (Some {| ipAddress := HStr "203.0.113.9"; userAgent := HStr "curl/8";
                   referrer := HNull; country := HNull;
                   deviceType := "unknown"; browser := "unknown";
                   clickId := Some click; trackingId := Some tid |}).

Definition visit (p : string) (hook : option string) : Request :=
  {| path := p;
     h_x_forwarded_for := HUndefined;
     h_user_agent := HStr "curl/8";
     h_referer := HStr "https://news.example/story";
     h_referrer := HUndefined;
     remoteAddress := HStr "203.0.113.9";
     req_clickInfo := None;
     setClickId := option_map tracker hook |}.

End Sample.

(** A controller world: link 42 is anonymous, link 50 belongs to user 9. *)
Module SampleApi.

Definition owned : UrlEntity :=
  {| id := 50; user_id := Some 9; original_url := "https://shop.example/sale";
     short_code := "sale"; title := Some "Sale"; expiry_date := None;
     is_active := true; has_password := false; password_hash := None;
     redirect_type := "302"; created_at := 1700000000000;
     updated_at := None; deleted_at := None |}.

Definition byId (n : Z) : option UrlEntity :=
  if n =? 42 then Sample.find "abc123" else if n =? 50 then Some owned else None.

Definition models : urlController.Models :=
  {| urlController.getUrlById := fun n _ => Returns (byId n);
     urlController.getUrlByShortCode :=
       fun code => Returns (if String.eqb code "sale" then Some owned else Sample.find code);
     urlController.deleteUrl_model := fun _ => Returns true;
     urlController.getClickCountByUrlId := fun _ => Returns 3;
     urlController.getRecentClicksByUrlId := fun _ _ => Returns [];
     urlController.getUrlAnalytics_service :=
       fun _ => Returns {| urlController.browserStats := JObj [];
                           urlController.deviceStats := JObj [] |};
     urlController.getUrlAnalyticsWithFilters := fun _ _ => Returns (JObj []) |}.

(** Stand-in for the runtime: the identifiers of the sample are read,
    anything else is [NaN]; dates print as a fixed text. *)
Definition runtime : urlController.Runtime :=
  {| urlController.Number :=
       fun s => if String.eqb s "42" then Some 42
                else if String.eqb s "50" then Some 50 else None;
     urlController.parseInt :=
       fun s => if String.eqb s "42" then Some 42
                else if String.eqb s "50" then Some 50 else None;
     urlController.toISOString := fun _ => Returns "2023-11-14T22:13:20.000Z";
     urlController.SHORT_URL_BASE := None |}.

Definition call (user : Z) (p : string) : urlController.ApiRequest :=
  {| urlController.body_id := JNum user;
     urlController.param := p;
     urlController.start_date := HUndefined;
     urlController.end_date := HUndefined;
     urlController.group_by := HStr "day" |}.

End SampleApi.

(** ** Notions used in the statements *)

(** The candidate short code of a request: the path without its leading
    slash. *)
Definition shortCodeOf (req : Request) : string := substring_from 1 (path req).

(** The request is handled as a short code and the combined
    record-and-resolve call answers with the link [r]. *)
Definition resolves (svc : Services) (req : Request) (r : ClickResult) : Prop :=
  skipped (shortCodeOf req) = false /\
  recordClickAndGetOriginalUrl svc (shortCodeOf req) (visitorInfo req) = Returns (Some r).

(** [req.clickInfo] after the hook, when there is one, has run. *)
Definition hookResult (req : Request) (r : ClickResult) : result (option ClickInfo) :=
  match setClickId req with
  | Some hook => hook (res_clickId r) (urlId r) (req_clickInfo req)
  | None => Returns (req_clickInfo req)
  end.

(** The events of that step. *)
Definition hookEvents (req : Request) (r : ClickResult) : list Event :=
  match setClickId req with
  | Some _ => [SetClickId (res_clickId r) (urlId r)]
  | None => []
  end.

(** The destination with the campaign parameters, as the specification
    words it. *)
Definition withCampaign (destination tid : string) : string :=
  (destination ++ (if includes "?" destination then "&" else "?")
     ++ "utm_source=cylink&utm_medium=shortlink&utm_campaign=conversion&utm_content="
     ++ tid)%string.

(** The [Location] of the redirect. *)
Definition locationFor (destination : string) (tracking : option string) : string :=
  match tracking with
  | Some tid => withCampaign destination tid
  | None => destination
  end.

(** The goal the middleware settles on: the first of the list. *)
Definition goalFound (svc : Services) (urlId : Z) : option Z :=
  match getGoalsByUrlId svc urlId with
  | Returns (first :: _) => Some (goal_id first)
  | _ => None
  end.

(** The timer set for the conversion call, if any. *)
Definition timers (tracking : option string) (goal : option Z) : list Event :=
  match tracking, goal_truthy goal with
  | Some tid, Some g => [SetTimeout 100 tid g]
  | _, _ => []
  end.

(** The outbound requests in a trace. *)
Definition outbound (t : list Event) : list HttpRequest :=
  flat_map (fun ev => match ev with HttpSend request => [request] | _ => [] end) t.

(** The services with the impression write and the conversion request
    replaced by given outcomes. *)
Definition faulty (svc : Services) (w : write_outcome) (h : http_outcome) : Services :=
  {| recordClickAndGetOriginalUrl := recordClickAndGetOriginalUrl svc;
     getUrlByShortCode := getUrlByShortCode svc;
     hasRecentImpression := hasRecentImpression svc;
     recordImpression := fun _ => w;
     getGoalsByUrlId := getGoalsByUrlId svc;
     URL_hostname := URL_hostname svc;
     http_request := fun _ => h;
     process_env := process_env svc |}.

(** The two JSON error replies of the middleware. *)
Definition internalError : Event := Json 500 500 "Internal Server Error".

Definition notFound : Event := Json 404 404 "Short URL not found or has expired".

(** What the middleware answers, read off the outcomes of the guard, the
    record-and-resolve call, the hook and the redirect-type lookup. *)
Definition answer (svc : Services) (req : Request) : list Event :=
  if skipped (shortCodeOf req) then [Next]
  else
    match recordClickAndGetOriginalUrl svc (shortCodeOf req) (visitorInfo req) with
    | Throws _ => [internalError]
    | Returns None => [notFound]
    | Returns (Some r) =>
        match hookResult req r with
        | Throws _ => [internalError]
        | Returns info =>
            match getUrlByShortCode svc (shortCodeOf req) with
            | Throws _ => [internalError]
            | Returns url =>
                [Redirect (redirectTypeOf url)
                          (locationFor (originalUrl r) (established info))]
            end
        end
    end.

(** The timers a trace has set, as the request each will send. *)
Definition scheduled (env : ProcessEnv) (t : list Event) : list HttpRequest :=
  flat_map (fun ev => match ev with
                      | SetTimeout _ tid g => [conversionRequest env tid g]
                      | _ => []
                      end) t.

Definition is_log (ev : Event) : bool :=
  match ev with Log _ _ => true | _ => false end.

(** A trace without its log lines: what the run does besides logging. *)
Definition effects (t : list Event) : list Event :=
  filter (fun ev => negb (is_log ev)) t.

(** [req.headers.referer || req.headers.referrer]. *)
Definition referrerHeader (req : Request) : hval :=
  or_else (h_referer req) (h_referrer req).

(** ** The ways a request goes through the middleware *)

(** The six runs of the middleware, each with its events: the path is not
    a short code; the record-and-resolve call fails; it finds no link; the
    hook fails; the redirect-type lookup fails; the link is redirected. *)
Inductive Path (svc : Services) (req : Request) : list Event -> Prop :=
| PassedOn :
    skipped (shortCodeOf req) = true ->
    Path svc req [Next]
| RecordFailed (e : exn) :
    skipped (shortCodeOf req) = false ->
    recordClickAndGetOriginalUrl svc (shortCodeOf req) (visitorInfo req) = Throws e ->
    Path svc req [RecordClick (shortCodeOf req) (visitorInfo req);
                  Log Err (RedirectError e); internalError]
| NotFound :
    skipped (shortCodeOf req) = false ->
    recordClickAndGetOriginalUrl svc (shortCodeOf req) (visitorInfo req) = Returns None ->
    Path svc req [RecordClick (shortCodeOf req) (visitorInfo req);
                  Log Info (UrlNotFound (shortCodeOf req)); notFound]
| HookFailed (r : ClickResult) (e : exn) :
    resolves svc req r ->
    hookResult req r = Throws e ->
    Path svc req (RecordClick (shortCodeOf req) (visitorInfo req)
                    :: hookEvents req r
                    ++ [Log Err (RedirectError e); internalError])
| LookupFailed (r : ClickResult) (info : option ClickInfo) (e : exn) :
    resolves svc req r ->
    hookResult req r = Returns info ->
    getUrlByShortCode svc (shortCodeOf req) = Throws e ->
    Path svc req (RecordClick (shortCodeOf req) (visitorInfo req)
                    :: hookEvents req r
                    ++ [GetUrlByShortCode (shortCodeOf req);
                        Log Err (RedirectError e); internalError])
| Redirected (r : ClickResult) (info : option ClickInfo) (url : option UrlEntity) :
    resolves svc req r ->
    hookResult req r = Returns info ->
    getUrlByShortCode svc (shortCodeOf req) = Returns url ->
    Path svc req (RecordClick (shortCodeOf req) (visitorInfo req)
                    :: hookEvents req r
                    ++ [GetUrlByShortCode (shortCodeOf req);
                        Log Info (Redirecting (shortCodeOf req) (originalUrl r)
                                              (redirectTypeOf url))]
                    ++ trace (trackImpression svc req (urlId r))
                    ++ trace (findGoal svc (urlId r))
                    ++ timers (established info) (goalFound svc (urlId r))
                    ++ [Redirect (redirectTypeOf url)
                                 (locationFor (originalUrl r) (established info))]).

(** The click recordings in a trace. *)
Definition clicks (t : list Event) : list (string * ClickInfo) :=
  flat_map (fun ev => match ev with RecordClick code info => [(code, info)] | _ => [] end) t.

(** The timers in a trace. *)
Definition timeouts (t : list Event) : list (Z * string * Z) :=
  flat_map (fun ev => match ev with SetTimeout ms tid g => [(ms, tid, g)] | _ => [] end) t.

(** The log lines in a trace. *)
Definition logged (t : list Event) : list (level * LogMsg) :=
  flat_map (fun ev => match ev with Log lvl msg => [(lvl, msg)] | _ => [] end) t.

(** The replies of the controller in a trace, and the soft deletes. *)
Definition sent (t : list Event) : list (Z * string * option json) :=
  flat_map (fun ev => match ev with
                      | Send status message data => [(status, message, data)]
                      | _ => []
                      end) t.

Definition softDeletes (t : list Event) : list Z :=
  flat_map (fun ev => match ev with SoftDelete u => [u] | _ => [] end) t.

(** A run that has replied once if it returned, and not yet if it threw. *)
Definition repliesOnce {A} (m : M A) : Prop :=
  match snd m with
  | Returns _ => length (sent (fst m)) = 1%nat
  | Throws _ => sent (fst m) = []
  end.

(** A run that does not reply. *)
Definition silent {A} (m : M A) : Prop := sent (fst m) = [].

(** The events of the analytics side of the middleware: log lines and the
    calls of the impression and goal models. *)
Definition is_analytics (ev : Event) : bool :=
  match ev with
  | Log _ _ | HasRecentImpression _ _ | RecordImpression _ | GetGoalsByUrlId _ => true
  | _ => false
  end.

(** The redirect-type lookups in a trace. *)
Definition lookups (t : list Event) : list string :=
  flat_map (fun ev => match ev with GetUrlByShortCode code => [code] | _ => [] end) t.

(** Worlds in which something fails: the database is down for the whole
    request, or only for the recency check of the impression model. *)
Module SampleFaults.

Definition down : exn := Error "connection refused".

Definition offline : Services :=
  {| recordClickAndGetOriginalUrl := fun _ _ => Throws down;
     getUrlByShortCode := fun _ => Throws down;
     hasRecentImpression := fun _ _ => Throws down;
     recordImpression := fun _ => WritePromise (Throws down);
     getGoalsByUrlId := fun _ => Throws down;
     URL_hostname := Sample.host_of;
     http_request := fun _ => RequestError down;
     process_env := {| HOST := None; PORT := None |} |}.

Definition blind : Services :=
  {| recordClickAndGetOriginalUrl := recordClickAndGetOriginalUrl Sample.services;
     getUrlByShortCode := getUrlByShortCode Sample.services;
     hasRecentImpression := fun _ _ => Throws down;
     recordImpression := recordImpression Sample.services;
     getGoalsByUrlId := getGoalsByUrlId Sample.services;
     URL_hostname := Sample.host_of;
     http_request := fun _ => Response (Some 200) (Returns (JObj []));
     process_env := {| HOST := None; PORT := None |} |}.

(** A visit whose [referrer] header came twice and whose address is
    forwarded by a proxy. *)
Definition proxied : Request :=
  {| path := "/perm";
     h_x_forwarded_for := HStr "198.51.100.7";
     h_user_agent := HUndefined;
     h_referer := HUndefined;
     h_referrer := HArr ["https://a.example/"; "https://b.example/"];
     remoteAddress := HStr "10.0.0.1";
     req_clickInfo := None;
     setClickId := None |}.

End SampleFaults.

(** A run all of whose events pass a test. *)
Definition allEvents (P : Event -> bool) {A} (m : M A) : Prop :=
  forallb P (fst m) = true.

Definition notSoftDelete (ev : Event) : bool :=
  match ev with SoftDelete _ => false | _ => true end.

(** A controller world in which the analytics service has lost the link. *)
Module SampleGone.

Definition models : urlController.Models :=
  {| urlController.getUrlById := urlController.getUrlById SampleApi.models;
     urlController.getUrlByShortCode := urlController.getUrlByShortCode SampleApi.models;
     urlController.deleteUrl_model := urlController.deleteUrl_model SampleApi.models;
     urlController.getClickCountByUrlId := urlController.getClickCountByUrlId SampleApi.models;
     urlController.getRecentClicksByUrlId :=
       urlController.getRecentClicksByUrlId SampleApi.models;
     urlController.getUrlAnalytics_service :=
       urlController.getUrlAnalytics_service SampleApi.models;
     urlController.getUrlAnalyticsWithFilters := fun _ _ => Throws (Error "URL not found") |}.

End SampleGone.

(** ** The URL controller: listing and creating

    [getAllUrls], [isValidUrl], [createAnonymousUrl] and
    [createAuthenticatedUrl] of [controllers/urlController].  Their replies
    carry typed data and a pagination object, and their log lines are
    their own, so they run in a trace of their own steps. *)

From Stdlib Require Import Permutation Sorted.

Module Api.

(** A number the handlers compute with: an integer, or [NaN]. *)
Inductive number : Type := NaN | Int (n : Z).

(** [x || d], for a literal [d] that is not zero. *)
Definition or_default (x : number) (d : Z) : Z :=
  match x with
  | Int n => if n =? 0 then d else n
  | NaN => d
  end.

Definition minus (x y : number) : number :=
  match x, y with Int a, Int b => Int (a - b) | _, _ => NaN end.

Definition negate (x : number) : number :=
  match x with Int a => Int (- a) | NaN => NaN end.

(** [Math.ceil(x / y)] on integers, [y] not zero. *)
Definition ceil_div (x y : Z) : Z := - ((- x) / y).

(** [new Date(v)]: a time in milliseconds, or an invalid date. *)
Inductive date : Type := InvalidDate | ValidDate (ms : Z).

(** The index [i] of [Array.prototype.slice], made relative to a list of
    [len] elements: [NaN] is 0, a negative index counts from the end, and
    the result is clamped to the list. *)
Definition relative (len : nat) (i : number) : nat :=
  match i with
  | NaN => O
  | Int n => if n <? 0 then Z.to_nat (Z.max (Z.of_nat len + n) 0)
             else Nat.min (Z.to_nat n) len
  end.

(** [l.slice(start, stop)]. *)
Definition slice {A} (start stop : number) (l : list A) : list A :=
  let k := relative (length l) start in
  let final := relative (length l) stop in
  firstn (final - k) (skipn k l).

(** [l.sort(compare)], for a comparator that orders consistently: the
    sort is stable, so its result is the one of inserting from the right,
    each element before the first one it does not come after.  A
    comparator value of [NaN] counts as 0. *)
Definition notAfter (v : number) : bool :=
  match v with Int n => n <=? 0 | NaN => true end.

Fixpoint insert {A} (compare : A -> A -> number) (x : A) (l : list A) : list A :=
  match l with
  | [] => [x]
  | y :: rest => if notAfter (compare x y) then x :: y :: rest
                 else y :: insert compare x rest
  end.

Fixpoint sort {A} (compare : A -> A -> number) (l : list A) : list A :=
  match l with
  | [] => []
  | x :: rest => insert compare x (sort compare rest)
  end.

(** The interfaces [UrlWithClicks] and [PaginationData]. *)
Record UrlWithClicks : Type := {
  w_id : Z;
  w_original_url : string;
  w_short_code : string;
  w_short_url : string;
  w_title : option string;
  w_clicks : Z;
  w_created_at : string;
  w_expiry_date : option string;
  w_is_active : bool
}.

Record PaginationData : Type := {
  total : Z;
  page : Z;
  limit : Z;
  total_pages : Z
}.

(** The object of a created link in the reply: [goal_id] is [null] or
    what [parseInt] made of the request's. *)
Record CreatedUrl : Type := {
  c_id : Z;
  c_original_url : string;
  c_short_code : string;
  c_short_url : string;
  c_title : option string;
  c_created_at : string;
  c_expiry_date : option string;
  c_is_active : bool;
  c_goal_id : option number
}.

(** [urlOptions], the argument of [urlService.createShortenedUrl]: the
    fields of the body as they came, the expiry as a date and the goal as
    a number when they were given. *)
Record UrlOptions : Type := {
  o_userId : option json;
  o_originalUrl : json;
  o_customShortCode : json;
  o_title : json;
  o_expiryDate : option date;
  o_goalId : option number
}.

(** [options] of the [clickModel] queries: a period, and the grouping for
    the period analysed. *)
Record Options : Type := {
  startDate : date;
  endDate : date;
  groupBy : option json
}.

(** One entry of [calculateComparisonMetrics]'s result, and the result. *)
Record Metric : Type := {
  current : json;
  previous : json;
  change : json;
  change_percentage : json
}.

Record Metrics : Type := {
  m_total_clicks : Metric;
  m_avg_clicks_per_url : Metric;
  m_active_urls : Metric
}.

(** [TotalClicksAnalyticsResponse]: the summary with its analysis period
    and comparison, the time series with its pagination, and the top
    performing days. *)
Record TotalClicks : Type := {
  t_total_clicks : json;
  t_total_urls : json;
  t_avg_clicks_per_url : json;
  t_start_date : string;
  t_end_date : string;
  t_days : number;
  t_period_days : Z;
  t_previous_start_date : string;
  t_previous_end_date : string;
  t_comparison : Metrics;
  t_data : list json;
  t_total_items : Z;
  t_total_pages : Z;
  t_current_page : number;
  t_limit : Z;
  t_top_performing_days : json
}.

(** The fourth argument of [sendResponse]. *)
Inductive Data : Type :=
| Absent
| Urls (l : list UrlWithClicks)
| Created (c : CreatedUrl)
| Totals (t : TotalClicks).

Inductive severity : Type := Debug | Information | Failure.

(** A log line: its text and the values put into it. *)
Inductive Piece : Type :=
| Text (s : string)
| Count (n : Z)
| Value (v : json).

Inductive Call : Type :=
| GetUrlsByUser (userId : json)
| GetClickCountByUrlId (urlId : Z)
| CreateShortenedUrl (options : UrlOptions)
| GetTotalClicksAnalytics (userId : json) (options : Options)
| GetTotalClicksSummary (userId : json) (options : Options)
| GetTopPerformingDays (userId : json) (options : Options)
| GetActiveUrlsCount (userId : json) (options : Options).

Inductive Step : Type :=
| Called (c : Call)
| Logged (lvl : severity) (line : list Piece)
| Reply (status : Z) (message : string) (data : Data) (pagination : option PaginationData).

(** Runs, as for the middleware. *)
Definition T (A : Type) : Type := list Step * result A.

Definition ret {A} (a : A) : T A := ([], Returns a).

Definition bind {A B} (m : T A) (k : A -> T B) : T B :=
  match snd m with
  | Returns a => (fst m ++ fst (k a), snd (k a))
  | Throws e => (fst m, Throws e)
  end.

Definition emit (s : Step) : T unit := ([s], Returns tt).

Definition await {A} (r : result A) : T A := ([], r).

Definition try_catch {A} (body : T A) (handler : exn -> T A) : T A :=
  match snd body with
  | Returns a => (fst body, Returns a)
  | Throws e => (fst body ++ fst (handler e), snd (handler e))
  end.

Definition steps {A} (m : T A) : list Step := fst m.

(** [Promise.all(ps)]: every promise is started, in order; the result is
    the list of their values, or the rejection that came first, which
    [race] picks among the rejections. *)
Definition rejections {A} (ps : list (T A)) : list exn :=
  flat_map (fun p => match snd p with Throws e => [e] | Returns _ => [] end) ps.

Definition values {A} (ps : list (T A)) : list A :=
  flat_map (fun p => match snd p with Returns a => [a] | Throws _ => [] end) ps.

Definition promise_all {A} (race : list exn -> exn) (ps : list (T A)) : T (list A) :=
  (flat_map fst ps,
   match rejections ps with
   | [] => Returns (values ps)
   | es => Throws (race es)
   end).

Declare Scope api_scope.
Delimit Scope api_scope with api.
Notation "x <- m ;; k" := (bind m (fun x => k))
  (at level 61, m at next level, right associativity) : api_scope.
Notation "m ;; k" := (bind m (fun _ => k))
  (at level 61, right associativity) : api_scope.
Local Open Scope api_scope.

Definition log (lvl : severity) (line : list Piece) : T unit := emit (Logged lvl line).

Definition sendResponse (status : Z) (message : string) (data : Data)
           (pagination : option PaginationData) : T unit :=
  emit (Reply status message data pagination).

(** [urlModel], [clickModel] and [urlService], as these handlers call
    them. *)
Record Models : Type := {
  getUrlsByUser : json -> result (option (list UrlEntity));
  getClickCountByUrlId : Z -> result Z;
  createShortenedUrl : UrlOptions -> result UrlEntity
}.

(** The runtime: [parseInt(v)], [new Date(v)], [new
    Date(ms).toISOString()], [new Date(s).getTime()], [a.localeCompare(b)],
    [new URL(v).protocol], [process.env.SHORT_URL_BASE], and the order in
    which the promises of a [Promise.all] reject. *)
Record Runtime : Type := {
  parseInt : json -> number;
  newDate : json -> date;
  toISOString : Z -> result string;
  getTime : string -> number;
  localeCompare : string -> string -> Z;
  URL_protocol : json -> result string;
  SHORT_URL_BASE : option string;
  race : list exn -> exn
}.

(** [req.body.id] and [req.query] of the listing. *)
Record ListRequest : Type := {
  userId : json;
  q_page : json;
  q_limit : json;
  q_sortBy : json;
  q_sortOrder : json
}.

(** [v || 'text']. *)
Definition or_text (v : json) (text : string) : json :=
  if json_truthy v then v else JStr text.

(** [v === 'text']. *)
Definition is_text (v : json) (text : string) : bool :=
  match v with JStr s => String.eqb s text | _ => false end.

Definition shortUrlOf (rt : Runtime) (code : string) : string :=
  (match SHORT_URL_BASE rt with Some base => base | None => "https://cylink.id/" end
   ++ code)%string.

(** The function mapped over the links: the click count of the link,
    then its dates as text. *)
Definition withClicks (m : Models) (rt : Runtime) (url : UrlEntity) : T UrlWithClicks :=
  emit (Called (GetClickCountByUrlId (id url))) ;;
  clickCount <- await (getClickCountByUrlId m (id url)) ;;
  expiryDate <- match expiry_date url with
                | Some e => iso <- await (toISOString rt e) ;; ret (Some iso)
                | None => ret None
                end ;;
  createdAt <- await (toISOString rt (created_at url)) ;;
  ret {| w_id := id url;
         w_original_url := original_url url;
         w_short_code := short_code url;
         w_short_url := shortUrlOf rt (short_code url);
         w_title := title url;
         w_clicks := clickCount;
         w_created_at := createdAt;
         w_expiry_date := expiryDate;
         w_is_active := is_active url |}.

(** The comparator of the listing. *)
Definition byCreation (rt : Runtime) (a b : UrlWithClicks) : number :=
  minus (getTime rt (w_created_at a)) (getTime rt (w_created_at b)).

Definition titleOf (a : UrlWithClicks) : string :=
  match w_title a with Some t => t | None => "" end.

Definition comparator (rt : Runtime) (sortBy sortOrder : json) (a b : UrlWithClicks)
  : number :=
  let comparison :=
    if is_text sortBy "clicks" then Int (w_clicks a - w_clicks b)
    else if is_text sortBy "created_at" then byCreation rt a b
    else if is_text sortBy "title" then Int (localeCompare rt (titleOf a) (titleOf b))
    else byCreation rt a b in
  if is_text sortOrder "asc" then comparison else negate comparison.

Definition getAllUrls (m : Models) (rt : Runtime) (req : ListRequest) : T unit :=
  try_catch
    (if negb (json_truthy (userId req))
     then sendResponse 401 "Unauthorized: No user ID" Absent None
     else
       let page := or_default (parseInt rt (q_page req)) 1 in
       let limit := or_default (parseInt rt (q_limit req)) 10 in
       let sortBy := or_text (q_sortBy req) "created_at" in
       let sortOrder := or_text (q_sortOrder req) "desc" in
       let offset := (page - 1) * limit in
       emit (Called (GetUrlsByUser (userId req))) ;;
       urls <- await (getUrlsByUser m (userId req)) ;;
       match urls with
       | None | Some [] => sendResponse 204 "No URLs are available" (Urls []) None
       | Some urls =>
           urlsWithClicks <- promise_all (race rt) (map (withClicks m rt) urls) ;;
           let sortedUrls := sort (comparator rt sortBy sortOrder) urlsWithClicks in
           let paginatedUrls := slice (Int offset) (Int (offset + limit)) sortedUrls in
           let totalUrls := Z.of_nat (length sortedUrls) in
           let totalPages := ceil_div totalUrls limit in
           let pagination :=
             {| total := totalUrls; page := page; limit := limit;
                total_pages := totalPages |} in
           log Information [Text "Successfully retrieved ";
                            Count (Z.of_nat (length paginatedUrls));
                            Text " URLs for user "; Value (userId req)] ;;
           sendResponse 200 "Successfully retrieved all URLs" (Urls paginatedUrls)
                        (Some pagination)
       end)
    (fun error =>
       match error with
       | TypeError message =>
           log Failure [Text "URL error: Type error while retrieving URLs:"; Text message] ;;
           sendResponse 400 "Invalid data format" Absent None
       | Error message =>
           log Failure [Text "URL error: Failed to retrieve URLs:"; Text message] ;;
           sendResponse 500 "Failed to retrieve URLs" (Urls []) None
       | NonError value =>
           log Failure [Text "URL error: Unknown error while retrieving URLs:"; Text value] ;;
           sendResponse 500 "Internal server error" Absent None
       end).

(** [isValidUrl]: the [URL] constructor accepts the value and the scheme
    is http or https. *)
Definition isValidUrl (rt : Runtime) (url : json) : T bool :=
  match URL_protocol rt url with
  | Returns protocol => ret (String.eqb protocol "http:" || String.eqb protocol "https:")
  | Throws (TypeError _) => log Debug [Text "Invalid URL format:"; Value url] ;; ret false
  | Throws _ => ret false
  end.

Definition taken : string := "This custom short code is already taken".

(** The [catch] around the creation, for [who] ("anonymous" or
    "authenticated"). *)
Definition creationFailed (who : string) (error : exn) : T unit :=
  match error with
  | TypeError message =>
      if String.eqb message taken then sendResponse 409 "Custom code already in use" Absent None
      else
        log Failure [Text ("URL error: Type error while creating " ++ who ++ " URL:")%string;
                     Text message] ;;
        sendResponse 400 "Invalid data format" Absent None
  | Error message =>
      if String.eqb message taken then sendResponse 409 "Custom code already in use" Absent None
      else
        log Failure [Text ("URL error: Failed to create " ++ who ++ " URL:")%string;
                     Text message] ;;
        sendResponse 500 "Internal Server Error" Absent None
  | NonError value =>
      log Failure [Text ("URL error: Unknown error while creating " ++ who ++ " URL:")%string;
                   Text value] ;;
      sendResponse 500 "Internal server error" Absent None
  end.

(** The creation itself and the reply, shared by the two handlers but for
    the line they log. *)
Definition create (m : Models) (rt : Runtime) (who : string) (urlOptions : UrlOptions)
           (goal_id : json) (success : string -> list Piece) : T unit :=
  try_catch
    (emit (Called (CreateShortenedUrl urlOptions)) ;;
     newUrl <- await (createShortenedUrl m urlOptions) ;;
     let shortUrl := shortUrlOf rt (short_code newUrl) in
     createdAt <- await (toISOString rt (created_at newUrl)) ;;
     expiryDate <- match expiry_date newUrl with
                   | Some e => iso <- await (toISOString rt e) ;; ret (Some iso)
                   | None => ret None
                   end ;;
     let response :=
       {| c_id := id newUrl;
          c_original_url := original_url newUrl;
          c_short_code := short_code newUrl;
          c_short_url := shortUrl;
          c_title := title newUrl;
          c_created_at := createdAt;
          c_expiry_date := expiryDate;
          c_is_active := is_active newUrl;
          c_goal_id := if json_truthy goal_id then Some (parseInt rt goal_id) else None |} in
     log Information (success shortUrl) ;;
     sendResponse 201 "Successfully created shortened URL" (Created response) None)
    (creationFailed who).

Definition optionsOf (rt : Runtime) (user : option json)
           (original_url custom_code title expiry_date goal_id : json) : UrlOptions :=
  {| o_userId := user;
     o_originalUrl := original_url;
     o_customShortCode := custom_code;
     o_title := title;
     o_expiryDate := if json_truthy expiry_date then Some (newDate rt expiry_date) else None;
     o_goalId := if json_truthy goal_id then Some (parseInt rt goal_id) else None |}.

Definition createAnonymousUrl (m : Models) (rt : Runtime) (body : json) : T unit :=
  try_catch
    (original_url <- await (get body "original_url") ;;
     custom_code <- await (get body "custom_code") ;;
     title <- await (get body "title") ;;
     expiry_date <- await (get body "expiry_date") ;;
     goal_id <- await (get body "goal_id") ;;
     valid <- isValidUrl rt original_url ;;
     if negb valid then sendResponse 400 "Invalid URL provided" Absent None
     else
       create m rt "anonymous"
              (optionsOf rt None original_url custom_code title expiry_date goal_id)
              goal_id
              (fun shortUrl =>
                 [Text "Successfully created anonymous shortened URL: "; Text shortUrl]))
    (fun error =>
       match error with
       | TypeError message =>
           log Failure [Text "URL error: Type error while creating shortened URL:";
                        Text message] ;;
           sendResponse 400 "Invalid data format" Absent None
       | Error message =>
           log Failure [Text "URL error: Failed to create shortened URL:"; Text message] ;;
           sendResponse 500 "Internal Server Error" Absent None
       | NonError value =>
           log Failure [Text "URL error: Unknown error while creating shortened URL:";
                        Text value] ;;
           sendResponse 500 "Internal server error" Absent None
       end).

Definition createAuthenticatedUrl (m : Models) (rt : Runtime) (body : json) : T unit :=
  try_catch
    (userId <- await (get body "id") ;;
     original_url <- await (get body "original_url") ;;
     custom_code <- await (get body "custom_code") ;;
     title <- await (get body "title") ;;
     expiry_date <- await (get body "expiry_date") ;;
     goal_id <- await (get body "goal_id") ;;
     valid <- isValidUrl rt original_url ;;
     if negb valid then sendResponse 400 "Invalid URL provided" Absent None
     else
       create m rt "authenticated"
              (optionsOf rt (Some userId) original_url custom_code title expiry_date goal_id)
              goal_id
              (fun shortUrl =>
                 [Text "Successfully created authenticated shortened URL: "; Text shortUrl;
                  Text " for user "; Value userId]))
    (fun error =>
       log Failure [Text "URL error: Failed to create shortened URL:";
                    Text (match error with
                          | TypeError message | Error message => message
                          | NonError value => value
                          end)] ;;
       sendResponse 500 "Internal Server Error" Absent None).

(** *** Total clicks

    [parseAnalyticsDates], [determineComparisonPeriod],
    [calculateComparisonMetrics] and [getTotalClicksAnalytics]. *)

(** What a query of [clickModel] does when it is called inside the array
    given to [Promise.all]: it throws at the call, or it hands back a
    promise that resolves or rejects later. *)
Inductive query (A : Type) : Type :=
| ThrowsAtCall (e : exn)
| Promise (settles : result A).
Arguments ThrowsAtCall {A} e.
Arguments Promise {A} settles.

(** [clickModel], as the handler calls it.  The summaries, the counts and
    the rows are the values the model gives, passed on as they are. *)
Record ClickModel : Type := {
  getTotalClicksAnalytics_model : json -> Options -> query (list json);
  getTotalClicksSummary : json -> Options -> query json;
  getTopPerformingDays : json -> Options -> query json;
  getActiveUrlsCount : json -> Options -> query json
}.

(** The calendar: what [new Date()] reads the first and the second time,
    [d.setDate(d.getDate() + n)] on a valid date, and
    [d.toISOString().split('T')[0]] on a valid date. *)
Record Calendar : Type := {
  now : Z;
  later : Z;
  addDays : Z -> Z -> date;
  isoDay : Z -> string
}.

(** The arithmetic of the runtime on the model's values: [a - b], and
    [parseFloat(((a / b) * 100).toFixed(2))]. *)
Record Arithmetic : Type := {
  subtract : json -> json -> json;
  percentage : json -> json -> json
}.

(** [req.body.id] and [req.query] of the total clicks request. *)
Record TotalsRequest : Type := {
  a_userId : json;
  a_start_date : json;
  a_end_date : json;
  a_comparison : json;
  a_custom_comparison_start : json;
  a_custom_comparison_end : json;
  a_group_by : json;
  a_page : json;
  a_limit : json
}.

(** [v ?? d]. *)
Definition nullish_or (v d : json) : json :=
  match v with JUndefined | JNull => d | _ => v end.

(** [v?.k]. *)
Definition field (v : json) (k : string) : json :=
  match v with JObj fields => assoc k fields | _ => JUndefined end.

(** [v === 0]. *)
Definition is_zero (v : json) : bool :=
  match v with JNum n => n =? 0 | _ => false end.

(** [a < b] on dates: false when one of them is invalid. *)
Definition before (a b : date) : bool :=
  match a, b with ValidDate x, ValidDate y => x <? y | _, _ => false end.

(** [d.setDate(d.getDate() + n)]: an invalid date stays invalid. *)
Definition shift (cal : Calendar) (d : date) (n : Z) : date :=
  match d with ValidDate ms => addDays cal ms n | InvalidDate => InvalidDate end.

(** [d.toISOString().split('T')[0]]. *)
Definition dayOf (cal : Calendar) (d : date) : result string :=
  match d with
  | ValidDate ms => Returns (isoDay cal ms)
  | InvalidDate => Throws (Error "Invalid time value")
  end.

Definition msPerDay : Z := 1000 * 60 * 60 * 24.

(** The double nearest to an integer: the integer itself below 2^53 in
    magnitude, and otherwise its 53 leading bits, rounded to nearest, a
    tie to the even one. *)
Definition round53 (x : Z) : Z :=
  let a := Z.abs x in
  if a <? 2 ^ 53 then x
  else
    let unit := 2 ^ (Z.log2 a - 52) in
    let q := a / unit in
    let r := a mod unit in
    let rounded := if 2 * r <? unit then q
                   else if unit <? 2 * r then q + 1
                   else if Z.even q then q else q + 1 in
    Z.sgn x * (rounded * unit).

(** [Math.ceil((end.getTime() - start.getTime()) / msPerDay) + 1] on the
    time values of two valid dates.  Time values are integers of at most
    8.64e15 in magnitude, which doubles hold exactly; their difference can
    pass 2^53 and is rounded.  The quotient is rounded too, but for such
    a difference never as far as an integer it is not, so its ceiling is
    the exact one; and adding 1 is exact. *)
Definition dayCount (start finish : Z) : Z :=
  ceil_div (round53 (finish - start)) msPerDay + 1.

Definition days (start finish : date) : number :=
  match start, finish with
  | ValidDate s, ValidDate e => Int (dayCount s e)
  | _, _ => NaN
  end.

Inductive Dates : Type :=
| DatesError (error : string)
| DatesOk (startDate endDate : date).

Definition parseAnalyticsDates (rt : Runtime) (cal : Calendar)
           (startDateString endDateString : json) : Dates :=
  let now := ValidDate (now cal) in
  match (if json_truthy startDateString
         then match newDate rt startDateString with
              | InvalidDate => inl "Invalid start_date format. Use YYYY-MM-DD"
              | startDate => inr startDate
              end
         else inr (shift cal (ValidDate (later cal)) (- 30))) with
  | inl error => DatesError error
  | inr startDate =>
      match (if json_truthy endDateString
             then match newDate rt endDateString with
                  | InvalidDate => inl "Invalid end_date format. Use YYYY-MM-DD"
                  | endDate => inr endDate
                  end
             else inr now) with
      | inl error => DatesError error
      | inr endDate =>
          if before endDate startDate then DatesError "end_date must be after start_date"
          else DatesOk startDate endDate
      end
  end.

Inductive Comparison : Type :=
| ComparisonError (error : string)
| ComparisonOk (comparisonPeriodDays : Z)
               (previousPeriodStartDate previousPeriodEndDate : date).

Definition standard (periodDays : Z) : bool :=
  existsb (Z.eqb periodDays) [7; 14; 30; 90].

Definition determineComparisonPeriod (rt : Runtime) (cal : Calendar) (comparison : json)
           (startDate : date) (customStartString customEndString : json) : Comparison :=
  if is_text comparison "custom" then
    if negb (json_truthy customStartString) || negb (json_truthy customEndString) then
      ComparisonError
        "custom_comparison_start and custom_comparison_end are required when comparison=custom"
    else
      match newDate rt customStartString, newDate rt customEndString with
      | ValidDate s, ValidDate e =>
          if e <? s then
            ComparisonError "custom_comparison_end must be after custom_comparison_start"
          else ComparisonOk (dayCount s e) (ValidDate s) (ValidDate e)
      | _, _ => ComparisonError "Invalid custom comparison date format. Use YYYY-MM-DD"
      end
  else
    let comparisonPeriodDays := or_default (parseInt rt comparison) 30 in
    if negb (standard comparisonPeriodDays) then
      ComparisonError "comparison must be one of: 7, 14, 30, 90, custom"
    else
      let previousPeriodEndDate := shift cal startDate (- 1) in
      let previousPeriodStartDate :=
        shift cal previousPeriodEndDate (- (comparisonPeriodDays - 1)) in
      ComparisonOk comparisonPeriodDays previousPeriodStartDate previousPeriodEndDate.

(** One entry of the comparison: the change, and its percentage unless
    the previous value is 0. *)
Definition metric (ar : Arithmetic) (current previous : json) : Metric :=
  let change := subtract ar current previous in
  {| current := current;
     previous := previous;
     change := change;
     change_percentage := if is_zero previous then JNum 0 else percentage ar change previous |}.

Definition calculateComparisonMetrics (ar : Arithmetic) (current previous : json)
           (activeUrlsCount previousActiveUrlsCount : json) : Metrics :=
  {| m_total_clicks :=
       metric ar (nullish_or (field current "total_clicks") (JNum 0))
              (nullish_or (field previous "total_clicks") (JNum 0));
     m_avg_clicks_per_url :=
       metric ar (nullish_or (field current "avg_clicks_per_url") (JNum 0))
              (nullish_or (field previous "avg_clicks_per_url") (JNum 0));
     m_active_urls := metric ar activeUrlsCount previousActiveUrlsCount |}.

Definition rejection {A} (r : result A) : list exn :=
  match r with Throws e => [e] | Returns _ => [] end.

(** [(page - 1) * limit] and [offset + limit]. *)
Definition offsetOf (page : number) (limit : Z) : number :=
  match page with Int p => Int ((p - 1) * limit) | NaN => NaN end.

Definition plus (x : number) (y : Z) : number :=
  match x with Int a => Int (a + y) | NaN => NaN end.

(** The [catch] of the handler. *)
Definition totalsFailed (error : exn) : T unit :=
  match error with
  | TypeError message =>
      log Failure [Text "URL error: Type error while retrieving total clicks analytics:";
                   Text message] ;;
      sendResponse 400 "Invalid request format" Absent None
  | Error message =>
      log Failure [Text "URL error: Failed to retrieve total clicks analytics:";
                   Text message] ;;
      sendResponse 500 "Failed to retrieve total clicks analytics" Absent None
  | NonError value =>
      log Failure [Text "URL error: Unknown error while retrieving total clicks:";
                   Text value] ;;
      sendResponse 500 "Internal server error" Absent None
  end.

(** One element of the array given to [Promise.all]: a query that throws
    at the call ends the handler's [try] there, before the elements after
    it are evaluated; otherwise its promise is kept. *)
Definition started {A} (q : query A) : T (result A) :=
  match q with
  | ThrowsAtCall e => await (Throws e)
  | Promise settles => ret settles
  end.

(** The handler from its queries on, for a request that passed the
    checks: the six queries are made in order, as the elements of one
    array, and their promises are awaited together; the time series is
    cut, the four dates are printed and the reply is built. *)
Definition fetchTotals (m : ClickModel) (rt : Runtime) (cal : Calendar) (ar : Arithmetic)
           (userId groupBy : json) (page : number) (limit : Z)
           (startDate endDate : date) (analysisPeriodDays : number)
           (comparisonPeriodDays : Z) (previousPeriodStartDate previousPeriodEndDate : date)
  : T unit :=
  let options :=
    {| startDate := startDate; endDate := endDate; groupBy := Some groupBy |} in
  let previousPeriodOptions :=
    {| startDate := previousPeriodStartDate; endDate := previousPeriodEndDate;
       groupBy := None |} in
  emit (Called (GetTotalClicksAnalytics userId options)) ;;
  r1 <- started (getTotalClicksAnalytics_model m userId options) ;;
  emit (Called (GetTotalClicksSummary userId options)) ;;
  r2 <- started (getTotalClicksSummary m userId options) ;;
  emit (Called (GetTopPerformingDays userId options)) ;;
  r3 <- started (getTopPerformingDays m userId options) ;;
  emit (Called (GetActiveUrlsCount userId options)) ;;
  r4 <- started (getActiveUrlsCount m userId options) ;;
  emit (Called (GetTotalClicksSummary userId previousPeriodOptions)) ;;
  r5 <- started (getTotalClicksSummary m userId previousPeriodOptions) ;;
  emit (Called (GetActiveUrlsCount userId previousPeriodOptions)) ;;
  r6 <- started (getActiveUrlsCount m userId previousPeriodOptions) ;;
  match r1, r2, r3, r4, r5, r6 with
  | Returns clicksAnalytics, Returns summary, Returns topPerformingDays,
    Returns activeUrlsCount, Returns previousSummary, Returns previousActiveUrlsCount =>
      let totalItems := Z.of_nat (length clicksAnalytics) in
      let totalPages := ceil_div totalItems limit in
      let offset := offsetOf page limit in
      let paginatedTimeSeries := slice offset (plus offset limit) clicksAnalytics in
      analysisStartDateStr <- await (dayOf cal startDate) ;;
      analysisEndDateStr <- await (dayOf cal endDate) ;;
      prevStartDateStr <- await (dayOf cal previousPeriodStartDate) ;;
      prevEndDateStr <- await (dayOf cal previousPeriodEndDate) ;;
      let comparisonMetrics :=
        calculateComparisonMetrics ar summary previousSummary activeUrlsCount
                                   previousActiveUrlsCount in
      let responseData :=
        {| t_total_clicks := nullish_or (field summary "total_clicks") (JNum 0);
           t_total_urls := nullish_or (field summary "total_urls") (JNum 0);
           t_avg_clicks_per_url := nullish_or (field summary "avg_clicks_per_url") (JNum 0);
           t_start_date := analysisStartDateStr;
           t_end_date := analysisEndDateStr;
           t_days := analysisPeriodDays;
           t_period_days := comparisonPeriodDays;
           t_previous_start_date := prevStartDateStr;
           t_previous_end_date := prevEndDateStr;
           t_comparison := comparisonMetrics;
           t_data := paginatedTimeSeries;
           t_total_items := totalItems;
           t_total_pages := totalPages;
           t_current_page := page;
           t_limit := limit;
           t_top_performing_days := topPerformingDays |} in
      log Information
          [Text "Successfully retrieved total clicks analytics for user "; Value userId] ;;
      sendResponse 200 "Successfully retrieved total clicks analytics"
                   (Totals responseData) None
  | _, _, _, _, _, _ =>
      await (Throws (race rt (rejection r1 ++ rejection r2 ++ rejection r3 ++
                              rejection r4 ++ rejection r5 ++ rejection r6)))
  end.

(** The handler.  [parseInt(..) ?? 1] is what [parseInt] gives: a number
    is never [null] or [undefined]. *)
Definition getTotalClicksAnalytics (m : ClickModel) (rt : Runtime) (cal : Calendar)
           (ar : Arithmetic) (req : TotalsRequest) : T unit :=
  try_catch
    (let userId := a_userId req in
     if negb (json_truthy userId)
     then sendResponse 401 "Unauthorized: No user ID" Absent None
     else
       let comparison := nullish_or (a_comparison req) (JStr "30") in
       let groupBy := nullish_or (a_group_by req) (JStr "day") in
       let page := parseInt rt (a_page req) in
       let limit := Z.min (or_default (parseInt rt (a_limit req)) 30) 90 in
       match parseAnalyticsDates rt cal (a_start_date req) (a_end_date req) with
       | DatesError error => sendResponse 400 error Absent None
       | DatesOk startDate endDate =>
           let analysisPeriodDays := days startDate endDate in
           match determineComparisonPeriod rt cal comparison startDate
                   (a_custom_comparison_start req) (a_custom_comparison_end req) with
           | ComparisonError error => sendResponse 400 error Absent None
           | ComparisonOk comparisonPeriodDays previousPeriodStartDate previousPeriodEndDate =>
               fetchTotals m rt cal ar userId groupBy page limit startDate endDate
                           analysisPeriodDays comparisonPeriodDays
                           previousPeriodStartDate previousPeriodEndDate
           end
       end)
    totalsFailed.

(** The replies, the calls and the data in a list of steps. *)
Definition replies (t : list Step) : list (Z * string * Data * option PaginationData) :=
  flat_map (fun s => match s with
                     | Reply status message data pagination =>
                         [(status, message, data, pagination)]
                     | _ => []
                     end) t.

Definition calls (t : list Step) : list Call :=
  flat_map (fun s => match s with Called c => [c] | _ => [] end) t.

Definition creations (t : list Step) : list UrlOptions :=
  flat_map (fun s => match s with Called (CreateShortenedUrl o) => [o] | _ => [] end) t.

(** The page [p] of [limit] elements of a list, as the listing cuts it. *)
Definition pageOf {A} (p limit : Z) (l : list A) : list A :=
  slice (Int ((p - 1) * limit)) (Int ((p - 1) * limit + limit)) l.

(** The six queries of a total clicks request, for the periods they are
    made with. *)
Definition queries (userId : json) (options previousPeriodOptions : Options) : list Call :=
  [GetTotalClicksAnalytics userId options;
   GetTotalClicksSummary userId options;
   GetTopPerformingDays userId options;
   GetActiveUrlsCount userId options;
   GetTotalClicksSummary userId previousPeriodOptions;
   GetActiveUrlsCount userId previousPeriodOptions].

(** Whether a query throws at the call, for each of the six. *)
Definition thrown {A} (q : query A) : bool :=
  match q with ThrowsAtCall _ => true | Promise _ => false end.

Definition thrownAtCall (m : ClickModel) (userId : json)
           (options previousPeriodOptions : Options) : list bool :=
  [thrown (getTotalClicksAnalytics_model m userId options);
   thrown (getTotalClicksSummary m userId options);
   thrown (getTopPerformingDays m userId options);
   thrown (getActiveUrlsCount m userId options);
   thrown (getTotalClicksSummary m userId previousPeriodOptions);
   thrown (getActiveUrlsCount m userId previousPeriodOptions)].

(** The calls of a list up to the first that throws, that one included. *)
Fixpoint untilThrown (attempts : list (Call * bool)) : list Call :=
  match attempts with
  | [] => []
  | (c, throws) :: rest => c :: (if throws then [] else untilThrown rest)
  end.

(** The periods a total clicks request is for, when it passes the checks:
    the one analysed, with its grouping, and the one compared with, which
    has [periodDays] days. *)
Definition accepted (rt : Runtime) (cal : Calendar) (req : TotalsRequest)
           (options previousPeriodOptions : Options) (periodDays : Z) : Prop :=
  json_truthy (a_userId req) = true /\
  parseAnalyticsDates rt cal (a_start_date req) (a_end_date req)
    = DatesOk (startDate options) (endDate options) /\
  determineComparisonPeriod rt cal (nullish_or (a_comparison req) (JStr "30"))
    (startDate options) (a_custom_comparison_start req) (a_custom_comparison_end req)
    = ComparisonOk periodDays (startDate previousPeriodOptions)
        (endDate previousPeriodOptions) /\
  groupBy options = Some (nullish_or (a_group_by req) (JStr "day")) /\
  groupBy previousPeriodOptions = None.

(** An accepted request whose four dates are valid and whose six queries
    are answered. *)
Definition answered (m : ClickModel) (rt : Runtime) (cal : Calendar) (req : TotalsRequest)
           (options previousPeriodOptions : Options) (periodDays : Z)
           (clicksAnalytics : list json)
           (summary topPerformingDays activeUrlsCount : json)
           (previousSummary previousActiveUrlsCount : json) : Prop :=
  accepted rt cal req options previousPeriodOptions periodDays /\
  (startDate options <> InvalidDate /\ endDate options <> InvalidDate /\
   startDate previousPeriodOptions <> InvalidDate /\
   endDate previousPeriodOptions <> InvalidDate) /\
  getTotalClicksAnalytics_model m (a_userId req) options
    = Promise (Returns clicksAnalytics) /\
  getTotalClicksSummary m (a_userId req) options = Promise (Returns summary) /\
  getTopPerformingDays m (a_userId req) options = Promise (Returns topPerformingDays) /\
  getActiveUrlsCount m (a_userId req) options = Promise (Returns activeUrlsCount) /\
  getTotalClicksSummary m (a_userId req) previousPeriodOptions
    = Promise (Returns previousSummary) /\
  getActiveUrlsCount m (a_userId req) previousPeriodOptions
    = Promise (Returns previousActiveUrlsCount).

(** A run that has replied once if it returned and not yet if it threw,
    and a run that does not reply. *)
Definition answersOnce {A} (m : T A) : Prop :=
  match snd m with
  | Returns _ => length (replies (fst m)) = 1%nat
  | Throws _ => replies (fst m) = []
  end.

Definition quiet {A} (m : T A) : Prop := replies (fst m) = [].

End Api.

(** A listing and creation world: user 9 has three links. *)
Module SampleList.

Definition mine : list UrlEntity :=
  [ Sample.entity 1 "one" "https://one.example/" "302";
    Sample.entity 2 "two" "https://two.example/" "302";
    Sample.entity 3 "three" "https://three.example/" "301" ].

Definition models : Api.Models :=
  {| Api.getUrlsByUser :=
       fun user => Returns (match user with JNum 9 => Some mine | _ => Some [] end);
     Api.getClickCountByUrlId := fun n => Returns (n * 10);
     Api.createShortenedUrl :=
       fun o => match Api.o_customShortCode o with
                | JStr "one" => Throws (Error Api.taken)
                | JStr code => Returns (Sample.entity 4 code "https://new.example/" "302")
                | _ => Returns (Sample.entity 4 "q7Xb2k" "https://new.example/" "302")
                end |}.

(** Stand-in for the runtime: one-digit numbers are read, every date
    prints as the same text, and URLs are valid when they start with
    [https://]. *)
Definition digit (v : json) : Api.number :=
  match v with
  | JStr "1" | JNum 1 => Api.Int 1
  | JStr "2" | JNum 2 => Api.Int 2
  | JStr "3" | JNum 3 => Api.Int 3
  | JStr "0" | JNum 0 => Api.Int 0
  | _ => Api.NaN
  end.

Definition runtime : Api.Runtime :=
  {| Api.parseInt := digit;
     Api.newDate := fun _ => Api.InvalidDate;
     Api.toISOString := fun _ => Returns "2023-11-14T22:13:20.000Z";
     Api.getTime := fun _ => Api.Int 1700000000000;
     Api.localeCompare := fun _ _ => 0;
     Api.URL_protocol :=
       fun v => match v with
                | JStr s => if String.prefix "https://" s then Returns "https:"
                            else if String.prefix "ftp://" s then Returns "ftp:"
                            else Throws (TypeError "Invalid URL")
                | _ => Throws (TypeError "Invalid URL")
                end;
     Api.SHORT_URL_BASE := None;
     Api.race := fun es => match es with e :: _ => e | [] => Error "" end |}.

Definition list (user page limit sortBy : json) : Api.ListRequest :=
  {| Api.userId := user; Api.q_page := page; Api.q_limit := limit;
     Api.q_sortBy := sortBy; Api.q_sortOrder := JUndefined |}.

Definition body (url code : json) : json :=
  JObj [("id", JNum 9); ("original_url", url); ("custom_code", code); ("goal_id", JStr "3")].

End SampleList.

(** Rows to sort. *)
Module SampleRows.

Definition row (n clicks : Z) : Api.UrlWithClicks :=
  {| Api.w_id := n; Api.w_original_url := "https://example.com/";
     Api.w_short_code := "c"; Api.w_short_url := "https://cylink.id/c";
     Api.w_title := None; Api.w_clicks := clicks;
     Api.w_created_at := "2023-11-14T22:13:20.000Z";
     Api.w_expiry_date := None; Api.w_is_active := true |}.

Definition rows : list Api.UrlWithClicks := [row 1 10; row 2 30; row 3 20].

End SampleRows.

(** The listing world with the click counter failing for link 2. *)
Module SampleCounts.

Definition models : Api.Models :=
  {| Api.getUrlsByUser := Api.getUrlsByUser SampleList.models;
     Api.getClickCountByUrlId :=
       fun n => if n =? 2 then Throws (Error "timeout") else Returns (n * 10);
     Api.createShortenedUrl := Api.createShortenedUrl SampleList.models |}.

End SampleCounts.

(** A total clicks world: January 2024 is asked for on the first of
    February; days have 24 hours; the model has five rows and no summary
    for the previous period. *)
Module SampleTotals.

Definition january1 : Z := 1704067200000.
Definition january31 : Z := 1706659200000.
Definition february1 : Z := 1706745600000.

Definition runtime : Api.Runtime :=
  {| Api.parseInt :=
       fun v => match v with
                | JStr "1" => Api.Int 1 | JStr "2" => Api.Int 2 | JStr "7" => Api.Int 7
                | JStr "30" => Api.Int 30 | JStr "-1" => Api.Int (- 1)
                | _ => Api.NaN
                end;
     Api.newDate :=
       fun v => match v with
                | JStr "2024-01-01" => Api.ValidDate january1
                | JStr "2024-01-31" => Api.ValidDate january31
                | _ => Api.InvalidDate
                end;
     Api.toISOString := Api.toISOString SampleList.runtime;
     Api.getTime := Api.getTime SampleList.runtime;
     Api.localeCompare := Api.localeCompare SampleList.runtime;
     Api.URL_protocol := Api.URL_protocol SampleList.runtime;
     Api.SHORT_URL_BASE := None;
     Api.race := Api.race SampleList.runtime |}.

Definition calendar : Api.Calendar :=
  {| Api.now := february1;
     Api.later := february1 + 1;
     Api.addDays := fun ms n => Api.ValidDate (ms + n * Api.msPerDay);
     Api.isoDay := fun ms => if ms =? january1 then "2024-01-01"
                             else if ms =? january31 then "2024-01-31"
                             else "2023-12-31" |}.

Definition arithmetic : Api.Arithmetic :=
  {| Api.subtract := fun a b => match a, b with
                                | JNum x, JNum y => JNum (x - y)
                                | _, _ => JNull
                                end;
     Api.percentage := fun a b => match a, b with
                                  | JNum x, JNum y => JNum (x * 100 / y)
                                  | _, _ => JNull
                                  end |}.

Definition point (day : string) (clicks : Z) : json :=
  JObj [("date", JStr day); ("clicks", JNum clicks)].

Definition series : list json :=
  [point "2024-01-01" 10; point "2024-01-02" 30; point "2024-01-03" 20;
   point "2024-01-04" 40; point "2024-01-05" 20].

Definition model : Api.ClickModel :=
  {| Api.getTotalClicksAnalytics_model := fun _ _ => Api.Promise (Returns series);
     Api.getTotalClicksSummary :=
       fun _ o => match Api.groupBy o with
                  | Some _ => Api.Promise (Returns (JObj [("total_clicks", JNum 120);
                                                          ("total_urls", JNum 3);
                                                          ("avg_clicks_per_url", JNum 40)]))
                  | None => Api.Promise (Returns JNull)
                  end;
     Api.getTopPerformingDays :=
       fun _ _ => Api.Promise (Returns (JArr [point "2024-01-04" 40]));
     Api.getActiveUrlsCount :=
       fun _ o => match Api.groupBy o with
                  | Some _ => Api.Promise (Returns (JNum 3))
                  | None => Api.Promise (Returns (JNum 0))
                  end |}.


(** A comparison with a custom period: the whole of January, and the two
    dates 12960000000000001 milliseconds apart, which is more than 2^53. *)
Definition farPast : Z := - 6480000000000000.
Definition farFuture : Z := 6480000000000001.

Definition epochs : Api.Runtime :=
  {| Api.parseInt := Api.parseInt runtime;
     Api.newDate :=
       fun v => match v with
                | JStr "-203374-12-24T00:00:00.000Z" => Api.ValidDate farPast
                | JStr "+207313-01-10T00:00:00.001Z" => Api.ValidDate farFuture
                | _ => Api.newDate runtime v
                end;
     Api.toISOString := Api.toISOString runtime;
     Api.getTime := Api.getTime runtime;
     Api.localeCompare := Api.localeCompare runtime;
     Api.URL_protocol := Api.URL_protocol runtime;
     Api.SHORT_URL_BASE := None;
     Api.race := Api.race runtime |}.

(** The request for January, with the page and the page size asked. *)
Definition request (page limit : json) : Api.TotalsRequest :=
  {| Api.a_userId := JNum 9;
     Api.a_start_date := JStr "2024-01-01";
     Api.a_end_date := JStr "2024-01-31";
     Api.a_comparison := JStr "7";
     Api.a_custom_comparison_start := JUndefined;
     Api.a_custom_comparison_end := JUndefined;
     Api.a_group_by := JUndefined;
     Api.a_page := page;
     Api.a_limit := limit |}.

Definition run (page limit : json) : Api.T unit :=
  Api.getTotalClicksAnalytics model runtime calendar arithmetic (request page limit).

(** January, by day, and the week before it. *)
Definition january : Api.Options :=
  {| Api.startDate := Api.ValidDate january1;
     Api.endDate := Api.ValidDate january31;
     Api.groupBy := Some (JStr "day") |}.

Definition weekBefore : Api.Options :=
  {| Api.startDate := Api.ValidDate (january1 - 7 * Api.msPerDay);
     Api.endDate := Api.ValidDate (january1 - Api.msPerDay);
     Api.groupBy := None |}.

End SampleTotals.

(** * Properties *)

(** ** Strings *)

Lemma prefix_app (p s : string) :
  String.prefix p s = true <-> exists rest, s = (p ++ rest)%string.
Proof.
  revert s; induction p as [|c p IH]; intros s.
  - split; [intros _; now exists s | intros _; destruct s; reflexivity].
  - destruct s as [|d s]; cbn [String.prefix append].
    + split; [discriminate | intros [rest H]; discriminate].
    + destruct (ascii_dec c d) as [->|Hne].
      * rewrite IH. split; intros [rest H]; exists rest; [now subst | now injection H].
      * split; [discriminate | intros [rest H]; injection H; congruence].
Qed.

(** [includes] is containment: the string splits around the needle. *)
Lemma includes_spec (p s : string) :
  includes p s = true <-> exists before after, s = (before ++ p ++ after)%string.
Proof.
  induction s as [|c s IH]; cbn [includes].
  - rewrite orb_false_r, prefix_app. split.
    + intros [rest H]. now exists ""%string, rest.
    + intros [[|b before] [after H]]; simpl in H; [now exists after | discriminate].
  - rewrite orb_true_iff, prefix_app, IH. split.
    + intros [[rest H] | [before [after H]]].
      * now exists ""%string, rest.
      * exists (String c before), after. simpl. now rewrite H.
    + intros [[|b before] [after H]]; simpl in H.
      * left. now exists after.
      * right. injection H as _ H. now exists before, after.
Qed.

(** ** Runs *)

Lemma responses_app (t1 t2 : list Event) :
  responses (t1 ++ t2) = responses t1 ++ responses t2.
Proof. apply filter_app. Qed.

Lemma impressions_app (t1 t2 : list Event) :
  impressions (t1 ++ t2) = impressions t1 ++ impressions t2.
Proof. apply flat_map_app. Qed.

Lemma outbound_app (t1 t2 : list Event) :
  outbound (t1 ++ t2) = outbound t1 ++ outbound t2.
Proof. apply flat_map_app. Qed.

Lemma bind_await {A B} (a : A) (k : A -> M B) :
  bind (await (Returns a)) k = k a.
Proof. unfold bind, await; cbn. now destruct (k a). Qed.

Lemma bind_emit {B} (ev : Event) (k : unit -> M B) :
  bind (emit ev) k = (ev :: fst (k tt), snd (k tt)).
Proof. reflexivity. Qed.

(** Impression tracking never throws into the middleware, whatever the
    check and the write do. *)
Lemma trackImpression_returns svc req u :
  snd (trackImpression svc req u) = Returns tt.
Proof.
  unfold trackImpression, try_catch, bind; simpl.
  destruct (hasRecentImpression svc u _) as [recent|e]; simpl; [|reflexivity].
  destruct (recordImpression svc _); reflexivity.
Qed.

Lemma findGoal_returns svc u :
  snd (findGoal svc u) = Returns (goalFound svc u).
Proof.
  unfold findGoal, goalFound, try_catch, bind; simpl.
  destruct (getGoalsByUrlId svc u) as [[|g goals]|e]; reflexivity.
Qed.

Lemma responses_trackImpression svc req u :
  responses (trace (trackImpression svc req u)) = [].
Proof.
  unfold trackImpression, try_catch, bind, trace; simpl.
  destruct (hasRecentImpression svc u _) as [recent|e]; simpl; [|reflexivity].
  destruct (recordImpression svc _); reflexivity.
Qed.

Lemma responses_findGoal svc u : responses (trace (findGoal svc u)) = [].
Proof.
  unfold findGoal, try_catch, bind, trace; simpl.
  destruct (getGoalsByUrlId svc u) as [[|g goals]|e]; reflexivity.
Qed.

Lemma responses_timers tracking goal : responses (timers tracking goal) = [].
Proof. unfold timers. destruct tracking, (goal_truthy goal); reflexivity. Qed.

Lemma responses_hookEvents req r : responses (hookEvents req r) = [].
Proof. unfold hookEvents. destruct (setClickId req); reflexivity. Qed.

(** The run of the middleware on a link that resolves, event by event. *)
Lemma middleware_resolved svc req r info url :
  resolves svc req r ->
  hookResult req r = Returns info ->
  getUrlByShortCode svc (shortCodeOf req) = Returns url ->
  middleware svc req =
    (RecordClick (shortCodeOf req) (visitorInfo req)
       :: hookEvents req r
       ++ [GetUrlByShortCode (shortCodeOf req);
           Log Info (Redirecting (shortCodeOf req) (originalUrl r) (redirectTypeOf url))]
       ++ trace (trackImpression svc req (urlId r))
       ++ trace (findGoal svc (urlId r))
       ++ timers (established info) (goalFound svc (urlId r))
       ++ [Redirect (redirectTypeOf url) (locationFor (originalUrl r) (established info))],
     Returns tt).
Proof.
  intros [Hskip Hrec] Hhook Hurl.
  pose proof (trackImpression_returns svc req (urlId r)) as HI.
  pose proof (findGoal_returns svc (urlId r)) as HG.
  unfold middleware, hookResult, hookEvents, shortCodeOf, trace in *.
  rewrite Hskip.
  unfold try_catch, bind; cbn [emit await fst snd app].
  rewrite Hrec; cbn [fst snd app].
  destruct (trackImpression svc req (urlId r)) as [tI rI]; cbn in HI; subst rI.
  destruct (findGoal svc (urlId r)) as [tG rG]; cbn in HG; subst rG.
  destruct (setClickId req) as [hook|]; cbn [emit await ret fst snd app];
    rewrite ?Hhook; try injection Hhook as ->; cbn [fst snd app];
    rewrite Hurl; cbn [log emit fst snd app];
    unfold timers, locationFor, withCampaign, utm_parameters;
    (destruct (established info) as [tid|]; [destruct (goal_truthy _) as [g|]|]);
    cbn [emit ret fst snd app]; rewrite <- ?app_assoc; reflexivity.
Qed.

(** Paths that are not short codes go to the next handler and nothing
    else happens. *)
Lemma middleware_skipped svc req :
  skipped (shortCodeOf req) = true -> middleware svc req = ([Next], Returns tt).
Proof. unfold middleware, shortCodeOf. now intros ->. Qed.

Lemma middleware_not_found svc req :
  skipped (shortCodeOf req) = false ->
  recordClickAndGetOriginalUrl svc (shortCodeOf req) (visitorInfo req) = Returns None ->
  middleware svc req =
    ([RecordClick (shortCodeOf req) (visitorInfo req);
      Log Info (UrlNotFound (shortCodeOf req)); notFound], Returns tt).
Proof.
  unfold middleware, shortCodeOf. intros -> Hrec.
  unfold try_catch, bind; cbn [emit await fst snd app]. now rewrite Hrec.
Qed.

(** The middleware itself never throws, and its answer is [answer]. *)
Lemma middleware_answer svc req :
  snd (middleware svc req) = Returns tt /\
  responses (redirectMiddleware svc req) = answer svc req.
Proof.
  unfold answer, redirectMiddleware, trace.
  destruct (skipped (shortCodeOf req)) eqn:Hskip.
  { now rewrite middleware_skipped. }
  destruct (recordClickAndGetOriginalUrl svc _ _) as [[r|]|e] eqn:Hrec.
  - destruct (hookResult req r) as [info|e] eqn:Hhook.
    + destruct (getUrlByShortCode svc (shortCodeOf req)) as [url|e] eqn:Hurl.
      * rewrite (middleware_resolved svc req r info url) by (unfold resolves; auto).
        split; [reflexivity|]. cbn [fst].
        change (?x :: ?l ++ ?m) with ([x] ++ l ++ m).
        rewrite !responses_app, responses_hookEvents, responses_trackImpression,
          responses_findGoal, responses_timers. reflexivity.
      * unfold middleware, hookResult, shortCodeOf in *. rewrite Hskip.
        unfold try_catch, bind; cbn [emit await fst snd app]. rewrite Hrec.
        cbn [fst snd app].
        destruct (setClickId req) as [hook|]; cbn [emit await ret fst snd app];
          rewrite ?Hhook; cbn [fst snd app]; rewrite Hurl; split; reflexivity.
    + unfold middleware, hookResult, shortCodeOf in *. rewrite Hskip.
      unfold try_catch, bind; cbn [emit await fst snd app]. rewrite Hrec.
      cbn [fst snd app].
      destruct (setClickId req) as [hook|]; [|discriminate].
      cbn [emit await ret fst snd app]. rewrite Hhook. split; reflexivity.
  - rewrite middleware_not_found by assumption. split; reflexivity.
  - unfold middleware, shortCodeOf in *. rewrite Hskip.
    unfold try_catch, bind; cbn [emit await fst snd app]. rewrite Hrec.
    split; reflexivity.
Qed.

Lemma skipped_false_iff (code : string) :
  skipped code = false <->
  code <> ""%string /\ includes "/" code = false /\ startsWith "api" code = false.
Proof.
  unfold skipped. rewrite !orb_false_iff, negb_false_iff.
  destruct code; cbn [nonempty]; intuition congruence.
Qed.

Lemma established_some (info : option ClickInfo) (tid : string) :
  established info = Some tid <->
  exists ci, info = Some ci /\ trackingId ci = Some tid /\ tid <> ""%string.
Proof.
  unfold established. split.
  - destruct info as [ci|]; [|discriminate].
    destruct (trackingId ci) as [t|] eqn:Ht; [|discriminate].
    destruct t; cbn [nonempty]; [discriminate|].
    intros [= <-]. exists ci. repeat split; congruence.
  - intros (ci & -> & -> & Hne). destruct tid; [congruence | reflexivity].
Qed.

Lemma redirectTypeOf_permanent (url : option UrlEntity) :
  redirectTypeOf url = 301 <-> exists u, url = Some u /\ redirect_type u = "301"%string.
Proof.
  unfold redirectTypeOf. split.
  - destruct url as [u|]; [|discriminate].
    destruct (String.eqb_spec (redirect_type u) "301"); [|discriminate].
    intros _. now exists u.
  - intros (u & -> & ->). reflexivity.
Qed.

Lemma redirectTypeOf_temporary (url : option UrlEntity) :
  redirectTypeOf url = 302 <->
  forall u, url = Some u -> redirect_type u <> "301"%string.
Proof.
  unfold redirectTypeOf. destruct url as [u|].
  - destruct (String.eqb_spec (redirect_type u) "301") as [E|E]; split;
      try discriminate; try reflexivity.
    + intros H. exfalso. now apply (H u).
    + intros _ u' [= <-]. exact E.
  - split; [intros _ u; discriminate | reflexivity].
Qed.

(** ** The redirect: status, location, not found, pass-through *)

(** C1, as stated, fails: the link [apiary] of the sample is active, not
    deleted and has no expiry, the record-and-resolve call and the lookup
    both answer with it, and yet the request for [/apiary] is handed to the
    next handler, because the code starts with [api]; no redirect is
    sent. *)
Lemma C1_counterexample_reserved_prefix :
  (exists r u,
     recordClickAndGetOriginalUrl Sample.services "apiary"
       (visitorInfo (Sample.visit "/apiary" None)) = Returns (Some r) /\
     getUrlByShortCode Sample.services "apiary" = Returns (Some u) /\
     is_active u = true /\ deleted_at u = None /\ expiry_date u = None) /\
  shortCodeOf (Sample.visit "/apiary" None) = "apiary"%string /\
  includes "/" "apiary" = false /\
  redirectMiddleware Sample.services (Sample.visit "/apiary" None) = [Next] /\
  (forall status location,
     ~ In (Redirect status location)
          (redirectMiddleware Sample.services (Sample.visit "/apiary" None))).
Proof.
  split; [|repeat split].
  - eexists _, _. repeat split; reflexivity.
  - intros status location [H|[]]. discriminate H.
Qed.

(** C1, amended: for every short code that is handled as one (not empty,
    no slash, not starting with [api]) and resolves to a link, when the
    tracking hook and the redirect-type lookup complete, the middleware
    answers with exactly one response, a redirect, whose status is 301 when
    the looked-up link's [redirect_type] is exactly ["301"] and 302 for any
    other value (and when the lookup finds no link). *)
Theorem C1_redirect_status svc req r info url :
  shortCodeOf req <> ""%string ->
  includes "/" (shortCodeOf req) = false ->
  startsWith "api" (shortCodeOf req) = false ->
  recordClickAndGetOriginalUrl svc (shortCodeOf req) (visitorInfo req) = Returns (Some r) ->
  hookResult req r = Returns info ->
  getUrlByShortCode svc (shortCodeOf req) = Returns url ->
  exists status location,
    responses (redirectMiddleware svc req) = [Redirect status location] /\
    (forall u, url = Some u -> redirect_type u = "301"%string -> status = 301) /\
    (forall u, url = Some u -> redirect_type u <> "301"%string -> status = 302) /\
    (url = None -> status = 302).
Proof.
  intros Hne Hslash Hapi Hrec Hhook Hurl.
  assert (Hskip : skipped (shortCodeOf req) = false)
    by (apply skipped_false_iff; auto).
  exists (redirectTypeOf url), (locationFor (originalUrl r) (established info)).
  split.
  - destruct (middleware_answer svc req) as [_ ->].
    unfold answer. now rewrite Hskip, Hrec, Hhook, Hurl.
  - repeat split.
    + intros u -> Hu. apply redirectTypeOf_permanent. now exists u.
    + intros u -> Hu. apply redirectTypeOf_temporary. now intros u' [= <-].
    + now intros ->.
Qed.

Lemma C1_redirect_status_witness :
  exists status location,
    responses (redirectMiddleware Sample.services (Sample.visit "/perm" None))
      = [Redirect status location] /\
    (forall u, Sample.find "perm" = Some u -> redirect_type u = "301"%string -> status = 301) /\
    (forall u, Sample.find "perm" = Some u -> redirect_type u <> "301"%string -> status = 302) /\
    (Sample.find "perm" = None -> status = 302).
Proof.
  apply (C1_redirect_status Sample.services (Sample.visit "/perm" None)
           (Sample.clicked (Sample.entity 43 "perm" "https://example.org/landing" "301"))
           None (Sample.find "perm"));
    try reflexivity.
  discriminate.
Defined.

(** C2: when the record-and-resolve call the middleware makes for a
    request returns no result, the middleware answers with exactly one
    response, the JSON body [{status: 404, message: "Short URL not found or
    has expired"}] under status 404, and sends no redirect. *)
Theorem C2_not_found svc req :
  In (RecordClick (shortCodeOf req) (visitorInfo req)) (redirectMiddleware svc req) ->
  recordClickAndGetOriginalUrl svc (shortCodeOf req) (visitorInfo req) = Returns None ->
  responses (redirectMiddleware svc req)
    = [Json 404 404 "Short URL not found or has expired"] /\
  (forall status location, ~ In (Redirect status location) (redirectMiddleware svc req)).
Proof.
  intros Hcall Hnone. unfold redirectMiddleware, trace in *.
  destruct (skipped (shortCodeOf req)) eqn:Hskip.
  - rewrite middleware_skipped in Hcall by assumption.
    destruct Hcall as [H|[]]; discriminate H.
  - rewrite middleware_not_found by assumption. split; [reflexivity|].
    intros status location H. cbn in H.
    destruct H as [H|[H|[H|[]]]]; discriminate H.
Qed.

Lemma C2_not_found_witness :
  responses (redirectMiddleware Sample.services (Sample.visit "/nope" None))
    = [Json 404 404 "Short URL not found or has expired"] /\
  (forall status location,
     ~ In (Redirect status location)
          (redirectMiddleware Sample.services (Sample.visit "/nope" None))).
Proof.
  apply (C2_not_found Sample.services (Sample.visit "/nope" None)).
  - left. reflexivity.
  - reflexivity.
Defined.

(** C8: when what follows the leading slash of the path is empty,
    contains a [/] or starts with [api], the only thing the middleware does
    is call [next()]: no resolution, no click, no response of its own. *)
Theorem C8_pass_through svc req :
  shortCodeOf req = ""%string \/
  (exists before after, shortCodeOf req = (before ++ "/" ++ after)%string) \/
  (exists rest, shortCodeOf req = ("api" ++ rest)%string) ->
  redirectMiddleware svc req = [Next] /\
  (forall code info, ~ In (RecordClick code info) (redirectMiddleware svc req)) /\
  (forall code, ~ In (GetUrlByShortCode code) (redirectMiddleware svc req)).
Proof.
  intros H.
  assert (Hskip : skipped (shortCodeOf req) = true).
  { unfold skipped. destruct H as [-> | [H | H]].
    - reflexivity.
    - apply includes_spec in H. rewrite H. now rewrite orb_true_r.
    - apply prefix_app in H. unfold startsWith. rewrite H. now rewrite orb_true_r. }
  unfold redirectMiddleware, trace. rewrite middleware_skipped by assumption.
  repeat split; intros; intros [E|[]]; discriminate E.
Qed.

Lemma C8_pass_through_witness :
  redirectMiddleware Sample.services (Sample.visit "/api-docs" None) = [Next] /\
  (forall code info,
     ~ In (RecordClick code info)
          (redirectMiddleware Sample.services (Sample.visit "/api-docs" None))) /\
  (forall code,
     ~ In (GetUrlByShortCode code)
          (redirectMiddleware Sample.services (Sample.visit "/api-docs" None))).
Proof.
  apply (C8_pass_through Sample.services (Sample.visit "/api-docs" None)).
  right; right. exists "-docs"%string. reflexivity.
Defined.

(** C4: on a resolved link with a tracking identifier on the request (a
    non-empty [trackingId] in [req.clickInfo]), the redirect goes to the
    destination followed by the campaign parameters and the identifier,
    joined with [&] when the destination contains a [?] and with [?] when
    it does not; the destination [https://example.com/page?x=1] with the
    identifier [abc123] gives the URL of the specification. *)
Theorem C4_campaign_parameters svc req r ci tid url :
  resolves svc req r ->
  hookResult req r = Returns (Some ci) ->
  trackingId ci = Some tid ->
  tid <> ""%string ->
  getUrlByShortCode svc (shortCodeOf req) = Returns url ->
  exists status location,
    responses (redirectMiddleware svc req) = [Redirect status location] /\
    ((exists before after, originalUrl r = (before ++ "?" ++ after)%string) ->
     location =
       (originalUrl r
          ++ "&utm_source=cylink&utm_medium=shortlink&utm_campaign=conversion&utm_content="
          ++ tid)%string) /\
    (~ (exists before after, originalUrl r = (before ++ "?" ++ after)%string) ->
     location =
       (originalUrl r
          ++ "?utm_source=cylink&utm_medium=shortlink&utm_campaign=conversion&utm_content="
          ++ tid)%string) /\
    (originalUrl r = "https://example.com/page?x=1"%string -> tid = "abc123"%string ->
     location =
       "https://example.com/page?x=1&utm_source=cylink&utm_medium=shortlink&utm_campaign=conversion&utm_content=abc123"%string).
Proof.
  intros [Hskip Hrec] Hhook Htid Hne Hurl.
  assert (Hest : established (Some ci) = Some tid)
    by (apply established_some; now exists ci).
  exists (redirectTypeOf url), (withCampaign (originalUrl r) tid).
  split; [|repeat split].
  - destruct (middleware_answer svc req) as [_ ->].
    unfold answer. rewrite Hskip, Hrec, Hhook, Hurl, Hest. reflexivity.
  - intros H. apply includes_spec in H. unfold withCampaign. now rewrite H.
  - intros H. unfold withCampaign.
    destruct (includes "?" (originalUrl r)) eqn:E; [|reflexivity].
    apply includes_spec in E. contradiction.
  - intros -> ->. reflexivity.
Qed.

Lemma C4_campaign_parameters_witness :
  exists status location,
    responses (redirectMiddleware Sample.services (Sample.visit "/abc123" (Some "abc123")))
      = [Redirect status location] /\
    location =
      "https://example.com/page?x=1&utm_source=cylink&utm_medium=shortlink&utm_campaign=conversion&utm_content=abc123"%string.
Proof.
  destruct (C4_campaign_parameters Sample.services
              (Sample.visit "/abc123" (Some "abc123"))
              (Sample.clicked (Sample.entity 42 "abc123" "https://example.com/page?x=1" "302"))
              {| ipAddress := HStr "203.0.113.9"; userAgent := HStr "curl/8";
                 referrer := HNull; country := HNull;
                 deviceType := "unknown"; browser := "unknown";
                 clickId := Some 7; trackingId := Some "abc123" |}
              "abc123" (Sample.find "abc123"))
    as (status & location & Hresp & _ & _ & Hloc).
  - split; reflexivity.
  - reflexivity.
  - reflexivity.
  - discriminate.
  - reflexivity.
  - exists status, location. split; [exact Hresp | now apply Hloc].
Defined.

(** ** What runs after the response *)

Lemma autoTrackConversion_trace svc tid g :
  exists logs,
    fst (autoTrackConversion svc tid g)
      = HttpSend (conversionRequest (process_env svc) tid g) :: logs /\
    forallb is_log logs = true.
Proof.
  unfold autoTrackConversion, try_catch, bind; cbn [emit fst snd app].
  destruct (http_request svc _) as [e|e|statusCode [body|e]];
    try (eexists; split; reflexivity).
  cbn [await fst snd app].
  destruct (is_2xx statusCode).
  - cbn [await fst snd app]. destruct (get body "data") as [data|e]; cbn [fst snd app];
      [destruct (get data "conversion_id") as [cid|e]|];
      eexists; split; reflexivity.
  - cbn [await fst snd app]. destruct (get body "message") as [message|e];
      eexists; split; reflexivity.
Qed.

(** The timer callback catches every rejection: it ends normally, and
    besides sending the request it only writes to the log. *)
Lemma timerCallback_run svc tid g :
  snd (timerCallback svc tid g) = Returns tt /\
  exists logs,
    fst (timerCallback svc tid g)
      = HttpSend (conversionRequest (process_env svc) tid g) :: logs /\
    forallb is_log logs = true.
Proof.
  unfold timerCallback, try_catch.
  destruct (autoTrackConversion_trace svc tid g) as (logs & Ht & Hlogs).
  destruct (autoTrackConversion svc tid g) as [t [[]|e]]; cbn [fst snd] in *; subst t.
  - split; [reflexivity|]. now exists logs.
  - split; [reflexivity|]. exists (logs ++ [Log Err (ErrorInAutoTracking e)]).
    split; [reflexivity|]. rewrite forallb_app, Hlogs. reflexivity.
Qed.

Lemma logs_no_response (logs : list Event) :
  forallb is_log logs = true -> responses logs = [] /\ outbound logs = [].
Proof.
  induction logs as [|ev logs IH]; [now split|].
  cbn [forallb]. rewrite andb_true_iff. intros [Hev Hlogs].
  destruct ev; try discriminate Hev. cbn. now apply IH.
Qed.

Lemma settled_run svc ev :
  snd (settled svc ev) = Returns tt /\
  responses (fst (settled svc ev)) = [] /\
  outbound (fst (settled svc ev)) = scheduled (process_env svc) [ev].
Proof.
  destruct ev as [ | ? ? | ? ? ? | ? ? | ? ? | ? ? | ? | ? ? | data | ? | ms tid g | ? | ? | ? ? ? ];
    try (repeat split; reflexivity).
  - cbn [settled]. destruct (recordImpression svc data) as [e|[[]|e]];
      repeat split; reflexivity.
  - cbn [settled].
    destruct (timerCallback_run svc tid g) as (Hr & logs & Ht & Hlogs).
    destruct (logs_no_response logs Hlogs) as [Hresp Hout].
    rewrite Hr, Ht. split; [reflexivity|]. split; [exact Hresp|].
    change (conversionRequest (process_env svc) tid g :: outbound logs
            = [conversionRequest (process_env svc) tid g]).
    now rewrite Hout.
Qed.

Lemma detached_run svc t :
  snd (detached svc t) = Returns tt /\
  responses (fst (detached svc t)) = [] /\
  outbound (fst (detached svc t)) = scheduled (process_env svc) t.
Proof.
  induction t as [|ev t (IHr & IHresp & IHout)]; [repeat split; reflexivity|].
  destruct (settled_run svc ev) as (Hr & Hresp & Hout).
  cbn [detached]. unfold bind. rewrite Hr. cbn [fst snd].
  rewrite responses_app, outbound_app, Hresp, Hout, IHresp, IHout.
  repeat split; try assumption.
  unfold scheduled. cbn [flat_map]. now rewrite app_nil_r.
Qed.

Lemma serve_run svc req :
  serve svc req =
    (redirectMiddleware svc req ++ fst (detached svc (redirectMiddleware svc req)),
     Returns tt).
Proof.
  unfold serve, bind, redirectMiddleware, trace.
  destruct (middleware_answer svc req) as [-> _].
  destruct (detached_run svc (fst (middleware svc req))) as (-> & _). reflexivity.
Qed.

Lemma responses_serve svc req : responses (trace (serve svc req)) = answer svc req.
Proof.
  rewrite serve_run. unfold trace; cbn [fst]. rewrite responses_app.
  destruct (detached_run svc (redirectMiddleware svc req)) as (_ & -> & _).
  destruct (middleware_answer svc req) as [_ ->]. apply app_nil_r.
Qed.

(** What is left of a run when its log lines are set aside. *)
Lemma effects_app (t1 t2 : list Event) : effects (t1 ++ t2) = effects t1 ++ effects t2.
Proof. apply filter_app. Qed.

Lemma effects_logs (logs : list Event) : forallb is_log logs = true -> effects logs = [].
Proof.
  induction logs as [|ev logs IH]; [reflexivity|].
  cbn [forallb]. rewrite andb_true_iff. intros [Hev Hlogs].
  unfold effects. cbn [filter]. rewrite Hev. now apply IH.
Qed.

Lemma scheduled_effects env (t : list Event) : scheduled env (effects t) = scheduled env t.
Proof.
  induction t as [|ev t IH]; [reflexivity|].
  unfold effects in *. destruct ev; cbn [filter is_log negb scheduled flat_map app] in *;
    try exact IH.
  now f_equal.
Qed.

Lemma settled_effects svc ev :
  effects (fst (settled svc ev)) = map HttpSend (scheduled (process_env svc) [ev]).
Proof.
  destruct ev as [ | ? ? | ? ? ? | ? ? | ? ? | ? ? | ? | ? ? | data | ? | ms tid g | ? | ? | ? ? ? ];
    try reflexivity.
  - cbn [settled]. destruct (recordImpression svc data) as [e|[[]|e]]; reflexivity.
  - cbn [settled].
    destruct (timerCallback_run svc tid g) as (_ & logs & -> & Hlogs).
    change (HttpSend (conversionRequest (process_env svc) tid g) :: effects logs
            = [HttpSend (conversionRequest (process_env svc) tid g)]).
    now rewrite (effects_logs logs Hlogs).
Qed.

Lemma detached_step svc ev t :
  fst (detached svc (ev :: t)) = fst (settled svc ev) ++ fst (detached svc t).
Proof.
  cbn [detached]. unfold bind.
  destruct (settled_run svc ev) as (-> & _). reflexivity.
Qed.

Lemma detached_effects svc t :
  effects (fst (detached svc t)) = map HttpSend (scheduled (process_env svc) t).
Proof.
  induction t as [|ev t IH]; [reflexivity|].
  rewrite detached_step, effects_app, settled_effects, IH, <- map_app.
  f_equal. unfold scheduled. cbn [flat_map]. now rewrite app_nil_r.
Qed.

(** What an event of the middleware leaves running is part of the whole
    run. *)
Lemma detached_in svc (t : list Event) (ev x : Event) :
  In ev t -> In x (fst (settled svc ev)) -> In x (fst (detached svc t)).
Proof.
  induction t as [|ev' t IH]; [intros []|].
  rewrite detached_step, in_app_iff. intros [->|Hin] Hx; [now left|].
  right. now apply IH.
Qed.

Lemma serve_in svc req (x : Event) :
  In x (trace (serve svc req)) <->
  In x (redirectMiddleware svc req) \/
  In x (fst (detached svc (redirectMiddleware svc req))).
Proof. rewrite serve_run. unfold trace. cbn [fst]. apply in_app_iff. Qed.

(** The impression block when the recency check answers: the write is
    started, and an exception it throws at the call is logged there. *)
Lemma trackImpression_started svc req u recent :
  hasRecentImpression svc u (or_else (h_x_forwarded_for req) (remoteAddress req))
    = Returns recent ->
  exists data,
    url_id data = u /\
    fst (trackImpression svc req u)
      = HasRecentImpression u (or_else (h_x_forwarded_for req) (remoteAddress req))
          :: RecordImpression data
          :: match recordImpression svc data with
             | WriteThrows e => [Log Err (ErrorTrackingImpression e)]
             | WritePromise _ => []
             end.
Proof.
  intros Hrecent. unfold trackImpression, try_catch, bind; cbn [emit await fst snd app].
  rewrite Hrecent; cbn [fst snd app].
  destruct (recordImpression svc _) as [e|p] eqn:Hwrite; cbn [fst snd app log emit throw ret];
    eexists; (split; [|rewrite Hwrite; reflexivity]); reflexivity.
Qed.

(** Log lines aside, the impression block does the same whatever the
    write does. *)
Lemma trackImpression_effects svc w h req u :
  effects (fst (trackImpression (faulty svc w h) req u))
    = effects (fst (trackImpression svc req u)).
Proof.
  unfold trackImpression, try_catch, bind.
  cbn [emit await fst snd app faulty hasRecentImpression recordImpression].
  destruct (hasRecentImpression svc u _) as [recent|e]; cbn [emit await fst snd app];
    [|reflexivity].
  destruct w as [e|p]; destruct (recordImpression svc _) as [e'|p']; reflexivity.
Qed.

(** The timer callback when the conversion call fails. *)
Lemma timerCallback_failed svc tid g :
  (forall e,
     http_request svc (conversionRequest (process_env svc) tid g) = RequestThrows e ->
     fst (timerCallback svc tid g)
       = [HttpSend (conversionRequest (process_env svc) tid g);
          Log Err (ErrorInAutoTracking e)]) /\
  (forall e,
     http_request svc (conversionRequest (process_env svc) tid g) = RequestError e ->
     fst (timerCallback svc tid g)
       = [HttpSend (conversionRequest (process_env svc) tid g);
          Log Err (ErrorSendingConversionRequest e);
          Log Err (ErrorInAutoTracking e)]) /\
  (forall statusCode e,
     http_request svc (conversionRequest (process_env svc) tid g)
       = Response statusCode (Throws e) ->
     fst (timerCallback svc tid g)
       = [HttpSend (conversionRequest (process_env svc) tid g);
          Log Err (ErrorParsingConversionResponse e);
          Log Err (ErrorInAutoTracking e)]).
Proof.
  repeat split; intros; unfold timerCallback, autoTrackConversion, try_catch, bind;
    cbn [emit fst snd app];
    match goal with H : http_request _ _ = _ |- _ => rewrite H end; reflexivity.
Qed.

(** C3: on a resolved link, whatever the impression write does (throws,
    rejects, resolves) and whatever becomes of the conversion request, the
    whole run, the detached work included, ends normally and the client
    gets one and the same response: the redirect with the status and the
    location of the run in which both succeed.  Log lines aside, the run
    does the same things in the same order whatever the two do.  And their
    failures are logged: a write that throws at the call by the impression
    block, a write that rejects by the handler on its promise, and a
    conversion call that throws, meets a transport error or gets a body that
    does not parse by the request's handlers and by the timer callback. *)
Theorem C3_analytics_isolated svc req r info url :
  resolves svc req r ->
  hookResult req r = Returns info ->
  getUrlByShortCode svc (shortCodeOf req) = Returns url ->
  exists status location events,
    forall (w : write_outcome) (h : http_outcome),
      responses (trace (serve (faulty svc w h) req)) = [Redirect status location] /\
      responses (redirectMiddleware (faulty svc w h) req) = [Redirect status location] /\
      snd (serve (faulty svc w h) req) = Returns tt /\
      effects (trace (serve (faulty svc w h) req)) = events /\
      (forall recent,
         hasRecentImpression svc (urlId r)
           (or_else (h_x_forwarded_for req) (remoteAddress req)) = Returns recent ->
         (forall e, w = WriteThrows e ->
                    In (Log Err (ErrorTrackingImpression e))
                       (trace (serve (faulty svc w h) req))) /\
         (forall e, w = WritePromise (Throws e) ->
                    In (Log Err (FailedToRecordImpression (urlId r) e))
                       (trace (serve (faulty svc w h) req)))) /\
      (forall ci tid first rest,
         info = Some ci -> trackingId ci = Some tid -> tid <> ""%string ->
         getGoalsByUrlId svc (urlId r) = Returns (first :: rest) ->
         goal_id first <> 0 ->
         (forall e, h = RequestThrows e ->
                    In (Log Err (ErrorInAutoTracking e))
                       (trace (serve (faulty svc w h) req))) /\
         (forall e, h = RequestError e ->
                    In (Log Err (ErrorSendingConversionRequest e))
                       (trace (serve (faulty svc w h) req)) /\
                    In (Log Err (ErrorInAutoTracking e))
                       (trace (serve (faulty svc w h) req))) /\
         (forall statusCode e, h = Response statusCode (Throws e) ->
                    In (Log Err (ErrorParsingConversionResponse e))
                       (trace (serve (faulty svc w h) req)) /\
                    In (Log Err (ErrorInAutoTracking e))
                       (trace (serve (faulty svc w h) req)))).
Proof.
  intros [Hskip Hrec] Hhook Hurl.
  exists (redirectTypeOf url), (locationFor (originalUrl r) (established info)),
         (effects (trace (serve svc req))).
  intros w h.
  assert (Hres : resolves (faulty svc w h) req r) by (split; assumption).
  pose proof (middleware_resolved (faulty svc w h) req r info url Hres Hhook Hurl) as Hrun.
  pose proof (middleware_resolved svc req r info url (conj Hskip Hrec) Hhook Hurl) as Hrun0.
  change (goalFound (faulty svc w h) (urlId r)) with (goalFound svc (urlId r)) in Hrun.
  change (findGoal (faulty svc w h) (urlId r)) with (findGoal svc (urlId r)) in Hrun.
  assert (Hans : answer (faulty svc w h) req
                 = [Redirect (redirectTypeOf url)
                             (locationFor (originalUrl r) (established info))]).
  { unfold answer. cbn [faulty recordClickAndGetOriginalUrl getUrlByShortCode].
    now rewrite Hskip, Hrec, Hhook, Hurl. }
  split; [now rewrite responses_serve|].
  split; [now destruct (middleware_answer (faulty svc w h) req) as [_ ->]|].
  split; [now rewrite serve_run|].
  split; [|split].
  - assert (Hsame : effects (redirectMiddleware (faulty svc w h) req)
                    = effects (redirectMiddleware svc req)).
    { unfold redirectMiddleware, trace. rewrite Hrun, Hrun0. cbn [fst].
      change (?x :: ?l ++ ?m) with ([x] ++ l ++ m).
      unfold trace. rewrite !effects_app. now rewrite trackImpression_effects. }
    rewrite !serve_run. unfold trace. cbn [fst].
    rewrite !effects_app, !detached_effects, Hsame.
    rewrite <- (scheduled_effects _ (redirectMiddleware (faulty svc w h) req)), Hsame.
    now rewrite scheduled_effects.
  - intros recent Hrecent.
    destruct (trackImpression_started (faulty svc w h) req (urlId r) recent Hrecent)
      as (data & Hdata & Htrack).
    cbn [faulty recordImpression] in Htrack.
    assert (Hin : forall x, In x (fst (trackImpression (faulty svc w h) req (urlId r))) ->
                            In x (redirectMiddleware (faulty svc w h) req)).
    { intros x Hx. unfold redirectMiddleware, trace. rewrite Hrun. cbn [fst].
      right. rewrite !in_app_iff. right. right. left. exact Hx. }
    split.
    + intros e ->. apply serve_in. left. apply Hin. rewrite Htrack.
      right. right. now left.
    + intros e ->. apply serve_in. right.
      apply (detached_in _ _ (RecordImpression data)).
      * apply Hin. rewrite Htrack. right. now left.
      * cbn [settled faulty recordImpression]. rewrite Hdata. now left.
  - intros ci tid first rest -> Htid Hnonempty Hgoals Hgoal.
    assert (Htimer : In (SetTimeout 100 tid (goal_id first))
                        (redirectMiddleware (faulty svc w h) req)).
    { unfold redirectMiddleware, trace. rewrite Hrun. cbn [fst].
      right. rewrite !in_app_iff. right. right. right. right. left.
      assert (Hestablished : established (Some ci) = Some tid)
        by (apply established_some; now exists ci).
      unfold timers, goalFound, goal_truthy. rewrite Hestablished, Hgoals.
      destruct (Z.eqb_spec (goal_id first) 0); [contradiction|]. now left. }
    destruct (timerCallback_failed (faulty svc w h) tid (goal_id first))
      as (Hthrows & Herror & Hparse).
    cbn [faulty http_request] in Hthrows, Herror, Hparse.
    assert (Hlater : forall x, In x (fst (timerCallback (faulty svc w h) tid (goal_id first))) ->
                               In x (trace (serve (faulty svc w h) req))).
    { intros x Hx. apply serve_in. right.
      now apply (detached_in _ _ (SetTimeout 100 tid (goal_id first))). }
    split; [|split].
    + intros e ->. apply Hlater. rewrite (Hthrows e eq_refl). right. now left.
    + intros e ->. split; apply Hlater; rewrite (Herror e eq_refl).
      * right. now left.
      * right. right. now left.
    + intros statusCode e ->. split; apply Hlater; rewrite (Hparse statusCode e eq_refl).
      * right. now left.
      * right. right. now left.
Qed.

Lemma C3_analytics_isolated_witness :
  exists status location,
    (forall (w : write_outcome) (h : http_outcome),
        responses (trace (serve (faulty Sample.services w h)
                                (Sample.visit "/abc123" (Some "abc123"))))
          = [Redirect status location] /\
        snd (serve (faulty Sample.services w h)
                   (Sample.visit "/abc123" (Some "abc123"))) = Returns tt) /\
    In (Log Err (FailedToRecordImpression 42 (Error "write failed")))
       (trace (serve (faulty Sample.services (WritePromise (Throws (Error "write failed")))
                             (RequestError (Error "ECONNREFUSED")))
                     (Sample.visit "/abc123" (Some "abc123")))) /\
    In (Log Err (ErrorInAutoTracking (Error "ECONNREFUSED")))
       (trace (serve (faulty Sample.services (WritePromise (Throws (Error "write failed")))
                             (RequestError (Error "ECONNREFUSED")))
                     (Sample.visit "/abc123" (Some "abc123")))).
Proof.
  destruct (C3_analytics_isolated Sample.services (Sample.visit "/abc123" (Some "abc123"))
              (Sample.clicked (Sample.entity 42 "abc123" "https://example.com/page?x=1" "302"))
              (Some {| ipAddress := HStr "203.0.113.9"; userAgent := HStr "curl/8";
                       referrer := HNull; country := HNull;
                       deviceType := "unknown"; browser := "unknown";
                       clickId := Some 7; trackingId := Some "abc123" |})
              (Sample.find "abc123"))
    as (status & location & events & Hall).
  - split; reflexivity.
  - reflexivity.
  - reflexivity.
  - exists status, location. split; [|split].
    + intros w h. destruct (Hall w h) as (Hresponse & _ & Hreturns & _).
      now split.
    + destruct (Hall (WritePromise (Throws (Error "write failed")))
                     (RequestError (Error "ECONNREFUSED")))
        as (_ & _ & _ & _ & Hwrite & _).
      destruct (Hwrite false eq_refl) as [_ Hrejects].
      exact (Hrejects (Error "write failed") eq_refl).
    + destruct (Hall (WritePromise (Throws (Error "write failed")))
                     (RequestError (Error "ECONNREFUSED")))
        as (_ & _ & _ & _ & _ & Hcall).
      destruct (Hcall _ "abc123"%string {| goal_id := 5 |} [ {| goal_id := 9 |} ]
                      eq_refl eq_refl ltac:(discriminate) eq_refl ltac:(discriminate))
        as (_ & Herror & _).
      exact (proj2 (Herror (Error "ECONNREFUSED") eq_refl)).
Defined.

(** ** Conversion attribution *)

(** The piece of the trace written by impression tracking, when the
    recency check answers. *)
Lemma trackImpression_checked svc req u recent :
  hasRecentImpression svc u (or_else (h_x_forwarded_for req) (remoteAddress req))
    = Returns recent ->
  exists data tail,
    fst (trackImpression svc req u)
      = HasRecentImpression u (or_else (h_x_forwarded_for req) (remoteAddress req))
          :: RecordImpression data :: tail /\
    forallb is_log tail = true /\
    url_id data = u /\
    ip_address data = or_else (h_x_forwarded_for req) (remoteAddress req) /\
    is_unique data = negb recent /\
    source data = sourceOf svc (or_else (referrerHeader req) (HStr "")).
Proof.
  intros Hrecent. unfold trackImpression, try_catch, bind; cbn [emit await fst snd app].
  rewrite Hrecent; cbn [fst snd app].
  destruct (recordImpression svc _) as [e|p]; cbn [fst snd app log emit throw ret];
    eexists _, _; (split; [reflexivity|]); repeat split; reflexivity.
Qed.

Lemma trackImpression_unchecked svc req u e :
  hasRecentImpression svc u (or_else (h_x_forwarded_for req) (remoteAddress req))
    = Throws e ->
  fst (trackImpression svc req u)
    = [HasRecentImpression u (or_else (h_x_forwarded_for req) (remoteAddress req));
       Log Err (ErrorTrackingImpression e)].
Proof.
  intros Hrecent. unfold trackImpression, try_catch, bind; cbn [emit await fst snd app].
  now rewrite Hrecent.
Qed.

Lemma trackImpression_quiet svc req u env :
  outbound (fst (trackImpression svc req u)) = [] /\
  scheduled env (fst (trackImpression svc req u)) = [].
Proof.
  destruct (hasRecentImpression svc u (or_else (h_x_forwarded_for req) (remoteAddress req)))
    as [recent|e] eqn:Hrecent.
  - destruct (trackImpression_checked svc req u recent Hrecent)
      as (data & tail & -> & Hlogs & _).
    cbn. clear -Hlogs. induction tail as [|ev tail IH]; [now split|].
    cbn [forallb] in Hlogs. apply andb_true_iff in Hlogs as [Hev Hlogs].
    destruct ev; try discriminate Hev. cbn. now apply IH.
  - rewrite (trackImpression_unchecked svc req u e Hrecent). now split.
Qed.

Lemma findGoal_quiet svc u env :
  outbound (fst (findGoal svc u)) = [] /\
  scheduled env (fst (findGoal svc u)) = [] /\
  impressions (fst (findGoal svc u)) = [].
Proof.
  unfold findGoal, try_catch, bind; cbn [emit await fst snd app].
  destruct (getGoalsByUrlId svc u) as [[|g goals]|e]; repeat split; reflexivity.
Qed.

Lemma hookEvents_quiet req r env :
  outbound (hookEvents req r) = [] /\
  scheduled env (hookEvents req r) = [] /\
  impressions (hookEvents req r) = [].
Proof. unfold hookEvents. destruct (setClickId req); repeat split; reflexivity. Qed.

Lemma scheduled_app env (t1 t2 : list Event) :
  scheduled env (t1 ++ t2) = scheduled env t1 ++ scheduled env t2.
Proof. apply flat_map_app. Qed.

(** The requests a resolved run sends in the end: none from the
    middleware itself, and one per timer. *)
Lemma outbound_resolved svc req r info url :
  resolves svc req r ->
  hookResult req r = Returns info ->
  getUrlByShortCode svc (shortCodeOf req) = Returns url ->
  outbound (redirectMiddleware svc req) = [] /\
  outbound (trace (serve svc req))
    = match established info, goal_truthy (goalFound svc (urlId r)) with
      | Some tid, Some g => [conversionRequest (process_env svc) tid g]
      | _, _ => []
      end.
Proof.
  intros Hres Hhook Hurl.
  pose proof (middleware_resolved svc req r info url Hres Hhook Hurl) as Hrun.
  destruct (trackImpression_quiet svc req (urlId r) (process_env svc)) as [HoI HsI].
  destruct (findGoal_quiet svc (urlId r) (process_env svc)) as (HoG & HsG & _).
  destruct (hookEvents_quiet req r (process_env svc)) as (HoH & HsH & _).
  assert (Hout : outbound (redirectMiddleware svc req) = []).
  { unfold redirectMiddleware, trace. rewrite Hrun. cbn [fst].
    change (?x :: ?l ++ ?m) with ([x] ++ l ++ m).
    unfold trace. rewrite !outbound_app, HoH, HoI, HoG.
    unfold timers. destruct (established info); [destruct (goal_truthy _)|]; reflexivity. }
  split; [exact Hout|].
  rewrite serve_run. unfold trace at 1; cbn [fst]. rewrite outbound_app, Hout.
  destruct (detached_run svc (redirectMiddleware svc req)) as (_ & _ & ->).
  unfold redirectMiddleware, trace. rewrite Hrun. cbn [fst].
  change (?x :: ?l ++ ?m) with ([x] ++ l ++ m).
  unfold trace. rewrite !scheduled_app, HsH, HsI, HsG.
  unfold timers. destruct (established info); [destruct (goal_truthy _)|]; reflexivity.
Qed.

(** C6: on a resolved link, with goal ids that are database identities
    (never 0), the conversion request goes out exactly when the goal lookup
    returns at least one goal and the request carries a tracking
    identifier, once, after the 100 ms timer, and with the id of the first
    goal returned; with no goal (an empty list, or a lookup that fails) or
    with no tracking identifier nothing is scheduled and nothing is
    sent. *)
Theorem C6_attribution_trigger svc req r info url :
  resolves svc req r ->
  hookResult req r = Returns info ->
  getUrlByShortCode svc (shortCodeOf req) = Returns url ->
  (forall first rest,
     getGoalsByUrlId svc (urlId r) = Returns (first :: rest) -> goal_id first <> 0) ->
  (forall tid first rest,
     established info = Some tid ->
     getGoalsByUrlId svc (urlId r) = Returns (first :: rest) ->
     In (SetTimeout 100 tid (goal_id first)) (redirectMiddleware svc req) /\
     outbound (trace (serve svc req))
       = [conversionRequest (process_env svc) tid (goal_id first)]) /\
  (established info = None ->
   outbound (trace (serve svc req)) = [] /\
   forall ms tid g, ~ In (SetTimeout ms tid g) (redirectMiddleware svc req)) /\
  ((forall first rest, getGoalsByUrlId svc (urlId r) <> Returns (first :: rest)) ->
   outbound (trace (serve svc req)) = [] /\
   forall ms tid g, ~ In (SetTimeout ms tid g) (redirectMiddleware svc req)) /\
  outbound (redirectMiddleware svc req) = [].
Proof.
  intros Hres Hhook Hurl Hids.
  destruct (outbound_resolved svc req r info url Hres Hhook Hurl) as [Hnow Hout].
  pose proof (middleware_resolved svc req r info url Hres Hhook Hurl) as Hrun.
  assert (Htimers : forall ms tid g,
            In (SetTimeout ms tid g) (redirectMiddleware svc req) ->
            In (SetTimeout ms tid g) (timers (established info) (goalFound svc (urlId r)))).
  { intros ms tid g. unfold redirectMiddleware, trace. rewrite Hrun. cbn [fst].
    intros [H|H]; [discriminate H|].
    repeat (apply in_app_or in H as [H|H]); try assumption.
    - unfold hookEvents in H. destruct (setClickId req); [destruct H as [H|[]]; discriminate H | destruct H].
    - destruct H as [H|[H|[]]]; discriminate H.
    - exfalso. destruct (hasRecentImpression svc (urlId r)
                 (or_else (h_x_forwarded_for req) (remoteAddress req))) as [recent|e] eqn:E.
      + destruct (trackImpression_checked svc req (urlId r) recent E)
          as (data & tail & Ht & Hlogs & _).
        unfold trace in H. rewrite Ht in H.
        destruct H as [H|[H|H]]; try discriminate H.
        rewrite forallb_forall in Hlogs. apply Hlogs in H. discriminate H.
      + unfold trace in H. rewrite (trackImpression_unchecked svc req (urlId r) e E) in H.
        destruct H as [H|[H|[]]]; discriminate H.
    - exfalso. unfold trace, findGoal, try_catch, bind in H; cbn [emit await fst snd app] in H.
      destruct (getGoalsByUrlId svc (urlId r)) as [[|g0 goals]|e]; cbn in H;
        repeat (destruct H as [H|H]; [discriminate H|]); destruct H.
    - destruct H as [H|[]]; discriminate H. }
  split; [|split; [|split]].
  - intros tid first rest Htid Hgoals.
    assert (Hgoal : goal_truthy (goalFound svc (urlId r)) = Some (goal_id first)).
    { unfold goalFound, goal_truthy. rewrite Hgoals.
      destruct (Z.eqb_spec (goal_id first) 0) as [E|_]; [|reflexivity].
      now apply Hids in Hgoals. }
    split.
    + unfold redirectMiddleware, trace. rewrite Hrun. cbn [fst].
      right. do 4 (apply in_or_app; right). apply in_or_app; left.
      unfold timers. rewrite Htid, Hgoal. now left.
    + now rewrite Hout, Htid, Hgoal.
  - intros Hnone. split.
    + now rewrite Hout, Hnone.
    + intros ms tid g Hin. apply Htimers in Hin. rewrite Hnone in Hin. destruct Hin.
  - intros Hnogoal.
    assert (Hgoal : goalFound svc (urlId r) = None).
    { unfold goalFound.
      destruct (getGoalsByUrlId svc (urlId r)) as [[|first rest]|e] eqn:E;
        try reflexivity.
      now elim (Hnogoal first rest). }
    split.
    + rewrite Hout, Hgoal. now destruct (established info).
    + intros ms tid g Hin. apply Htimers in Hin. rewrite Hgoal in Hin.
      unfold timers in Hin. now destruct (established info).
  - exact Hnow.
Qed.

Lemma C6_attribution_trigger_witness :
  In (SetTimeout 100 "abc123" 5)
     (redirectMiddleware Sample.services (Sample.visit "/abc123" (Some "abc123"))) /\
  outbound (trace (serve Sample.services (Sample.visit "/abc123" (Some "abc123"))))
    = [conversionRequest (process_env Sample.services) "abc123" 5].
Proof.
  destruct (C6_attribution_trigger Sample.services
              (Sample.visit "/abc123" (Some "abc123"))
              (Sample.clicked (Sample.entity 42 "abc123" "https://example.com/page?x=1" "302"))
              (Some {| ipAddress := HStr "203.0.113.9"; userAgent := HStr "curl/8";
                       referrer := HNull; country := HNull;
                       deviceType := "unknown"; browser := "unknown";
                       clickId := Some 7; trackingId := Some "abc123" |})
              (Sample.find "abc123"))
    as (Hfires & _).
  - split; reflexivity.
  - reflexivity.
  - reflexivity.
  - intros first rest [= <- _]. discriminate.
  - apply (Hfires "abc123" {| goal_id := 5 |} [ {| goal_id := 9 |} ]); reflexivity.
Defined.




(** ** Impressions *)

Lemma logs_no_impression (logs : list Event) :
  forallb is_log logs = true -> impressions logs = [].
Proof.
  induction logs as [|ev logs IH]; [reflexivity|].
  cbn [forallb]. rewrite andb_true_iff. intros [Hev Hlogs].
  destruct ev; try discriminate Hev. cbn. now apply IH.
Qed.

(** The one impression a resolved run writes, when the recency check
    answers. *)
Lemma impression_resolved svc req r info url recent :
  resolves svc req r ->
  hookResult req r = Returns info ->
  getUrlByShortCode svc (shortCodeOf req) = Returns url ->
  hasRecentImpression svc (urlId r) (or_else (h_x_forwarded_for req) (remoteAddress req))
    = Returns recent ->
  exists data,
    impressions (redirectMiddleware svc req) = [data] /\
    url_id data = urlId r /\
    ip_address data = or_else (h_x_forwarded_for req) (remoteAddress req) /\
    is_unique data = negb recent /\
    source data = sourceOf svc (or_else (referrerHeader req) (HStr "")).
Proof.
  intros Hres Hhook Hurl Hrecent.
  pose proof (middleware_resolved svc req r info url Hres Hhook Hurl) as Hrun.
  destruct (trackImpression_checked svc req (urlId r) recent Hrecent)
    as (data & tail & Ht & Hlogs & Hfields).
  destruct (findGoal_quiet svc (urlId r) (process_env svc)) as (_ & _ & HiG).
  destruct (hookEvents_quiet req r (process_env svc)) as (_ & _ & HiH).
  exists data. split; [|exact Hfields].
  unfold redirectMiddleware, trace. rewrite Hrun. cbn [fst].
  change (?x :: ?l ++ ?m) with ([x] ++ l ++ m).
  unfold trace. rewrite !impressions_app, HiH, HiG, Ht.
  change (impressions (HasRecentImpression ?u ?ip :: RecordImpression data :: tail))
    with (data :: impressions tail).
  rewrite (logs_no_impression tail Hlogs).
  unfold timers. destruct (established info); [destruct (goal_truthy _)|]; reflexivity.
Qed.

(** C9: the impression of a resolved visit takes its traffic source from
    the referrer ([referer], or [referrer] when that is missing): for a
    non-empty string the hostname the [URL] constructor finds in it, the
    string itself when the constructor throws; the empty string when both
    headers are absent or empty. *)
Theorem C9_traffic_source svc req r info url recent :
  resolves svc req r ->
  hookResult req r = Returns info ->
  getUrlByShortCode svc (shortCodeOf req) = Returns url ->
  hasRecentImpression svc (urlId r) (or_else (h_x_forwarded_for req) (remoteAddress req))
    = Returns recent ->
  exists data,
    impressions (redirectMiddleware svc req) = [data] /\
    (forall ref host,
       referrerHeader req = HStr ref -> ref <> ""%string ->
       URL_hostname svc ref = Some host -> source data = host) /\
    (forall ref,
       referrerHeader req = HStr ref -> ref <> ""%string ->
       URL_hostname svc ref = None -> source data = ref) /\
    ((h_referer req = HUndefined \/ h_referer req = HStr "") ->
     (h_referrer req = HUndefined \/ h_referrer req = HStr "") ->
     source data = ""%string).
Proof.
  intros Hres Hhook Hurl Hrecent.
  destruct (impression_resolved svc req r info url recent Hres Hhook Hurl Hrecent)
    as (data & Himp & _ & _ & _ & Hsource).
  exists data. split; [exact Himp|]. rewrite Hsource. repeat split.
  - intros ref host -> Hne Hhost. destruct ref; [congruence|].
    cbn. now rewrite Hhost.
  - intros ref -> Hne Hhost. destruct ref; [congruence|].
    cbn. now rewrite Hhost.
  - unfold referrerHeader. intros [-> | ->] [-> | ->]; reflexivity.
Qed.

Lemma C9_traffic_source_witness :
  exists data,
    impressions (redirectMiddleware Sample.services (Sample.visit "/perm" None)) = [data] /\
    source data = "news.example"%string.
Proof.
  destruct (C9_traffic_source Sample.services (Sample.visit "/perm" None)
              (Sample.clicked (Sample.entity 43 "perm" "https://example.org/landing" "301"))
              None (Sample.find "perm") false)
    as (data & Himp & Hhost & _).
  - split; reflexivity.
  - reflexivity.
  - reflexivity.
  - reflexivity.
  - exists data. split; [exact Himp|].
    apply (Hhost "https://news.example/story"%string); [reflexivity | discriminate | reflexivity].
Defined.

Lemma hasRecentImpression_spec store now u ip :
  impressionModel.hasRecentImpression store now u ip = true <->
  exists i, In i store /\
            url_id (impressionModel.row i) = u /\
            ip_address (impressionModel.row i) = ip /\
            now - impressionModel.recorded_at i < impressionModel.window.
Proof.
  unfold impressionModel.hasRecentImpression, impressionModel.same_pair,
    impressionModel.hval_eqb.
  rewrite existsb_exists. split.
  - intros (i & Hin & H). apply andb_true_iff in H as [H Hage].
    apply andb_true_iff in H as [Hu Hip].
    exists i. repeat split; [assumption | now apply Z.eqb_eq | | now apply Z.ltb_lt].
    destruct (impressionModel.hval_eq_dec _ ip); [assumption | discriminate].
  - intros (i & Hin & Hu & Hip & Hage). exists i. split; [assumption|].
    rewrite Hu, Z.eqb_refl, Hip.
    destruct (impressionModel.hval_eq_dec ip ip); [|congruence].
    now apply Z.ltb_lt.
Qed.

Lemma persist_impressions store now t :
  persist store now t
    = store ++ map (fun d => {| impressionModel.row := d;
                                impressionModel.recorded_at := now |}) (impressions t).
Proof.
  revert store; induction t as [|ev t IH]; intros store; [now rewrite app_nil_r|].
  destruct ev; cbn [persist]; try apply IH.
  rewrite IH. unfold impressionModel.recordImpression.
  now rewrite <- app_assoc.
Qed.

(** One resolved request against the store: the row it writes and the
    store afterwards. *)
Lemma request_at_resolved base store now req r info url :
  resolves base req r ->
  hookResult req r = Returns info ->
  getUrlByShortCode base (shortCodeOf req) = Returns url ->
  exists data,
    impressions (fst (request_at base store now req)) = [data] /\
    snd (request_at base store now req)
      = store ++ [ {| impressionModel.row := data; impressionModel.recorded_at := now |} ] /\
    url_id data = urlId r /\
    ip_address data = or_else (h_x_forwarded_for req) (remoteAddress req) /\
    is_unique data
      = negb (impressionModel.hasRecentImpression store now (urlId r)
                (or_else (h_x_forwarded_for req) (remoteAddress req))).
Proof.
  intros Hres Hhook Hurl.
  destruct (impression_resolved (withStore base store now) req r info url
              (impressionModel.hasRecentImpression store now (urlId r)
                 (or_else (h_x_forwarded_for req) (remoteAddress req))))
    as (data & Himp & Hu & Hip & Huniq & _); try assumption; try reflexivity.
  exists data. unfold request_at; cbn [fst snd].
  rewrite persist_impressions, Himp. repeat split; assumption.
Qed.

(** C5: the impression row a resolved visit writes has [is_unique =
    false] exactly when the store holds, at the time of the check, an
    impression of the same url id and IP address that is less than 30
    minutes old, and [is_unique = true] otherwise.  So, once the write of a
    first visit has completed, a second visit from the same address to the
    same link less than 30 minutes later is written with [is_unique =
    false], and a visit after every earlier impression of the pair has left
    the window is written with [is_unique = true]. *)
Theorem C5_impression_uniqueness base store now req r info url :
  resolves base req r ->
  hookResult req r = Returns info ->
  getUrlByShortCode base (shortCodeOf req) = Returns url ->
  exists first,
    impressions (fst (request_at base store now req)) = [first] /\
    url_id first = urlId r /\
    ip_address first = or_else (h_x_forwarded_for req) (remoteAddress req) /\
    (is_unique first = false <->
     exists i, In i store /\
               url_id (impressionModel.row i) = url_id first /\
               ip_address (impressionModel.row i) = ip_address first /\
               now - impressionModel.recorded_at i < 30 * 60 * 1000) /\
    (is_unique first = true <->
     ~ exists i, In i store /\
                 url_id (impressionModel.row i) = url_id first /\
                 ip_address (impressionModel.row i) = ip_address first /\
                 now - impressionModel.recorded_at i < 30 * 60 * 1000) /\
    (forall later, now <= later < now + 30 * 60 * 1000 ->
       exists second,
         impressions (fst (request_at base (snd (request_at base store now req)) later req))
           = [second] /\
         is_unique second = false) /\
    (forall later,
       now + 30 * 60 * 1000 < later ->
       (forall i, In i store ->
                  url_id (impressionModel.row i) = url_id first ->
                  ip_address (impressionModel.row i) = ip_address first ->
                  impressionModel.recorded_at i + 30 * 60 * 1000 < later) ->
       exists third,
         impressions (fst (request_at base (snd (request_at base store now req)) later req))
           = [third] /\
         is_unique third = true).
Proof.
  intros Hres Hhook Hurl.
  destruct (request_at_resolved base store now req r info url Hres Hhook Hurl)
    as (first & Himp & Hstore & Hu & Hip & Huniq).
  exists first. split; [exact Himp|]. split; [exact Hu|]. split; [exact Hip|].
  rewrite Hu, Hip, Huniq, Hstore.
  change (30 * 60 * 1000) with impressionModel.window.
  split; [|split; [|split]].
  - rewrite negb_false_iff. apply hasRecentImpression_spec.
  - rewrite negb_true_iff, <- not_true_iff_false. apply not_iff_compat.
    apply hasRecentImpression_spec.
  - intros later Hlater.
    destruct (request_at_resolved base
                (store ++ [ {| impressionModel.row := first;
                               impressionModel.recorded_at := now |} ])
                later req r info url Hres Hhook Hurl)
      as (second & Himp2 & _ & _ & _ & Huniq2).
    exists second. split; [exact Himp2|]. rewrite Huniq2, negb_false_iff.
    apply hasRecentImpression_spec.
    exists {| impressionModel.row := first; impressionModel.recorded_at := now |}.
    cbn. repeat split; try assumption;
      [apply in_or_app; right; now left | unfold impressionModel.window in *; lia].
  - intros later Hlater Hold.
    destruct (request_at_resolved base
                (store ++ [ {| impressionModel.row := first;
                               impressionModel.recorded_at := now |} ])
                later req r info url Hres Hhook Hurl)
      as (third & Himp3 & _ & _ & _ & Huniq3).
    exists third. split; [exact Himp3|]. rewrite Huniq3, negb_true_iff.
    apply not_true_iff_false. rewrite hasRecentImpression_spec.
    intros (i & Hin & Hiu & Hiip & Hage).
    unfold impressionModel.window in *.
    apply in_app_or in Hin as [Hin | [<- | []]].
    + specialize (Hold i Hin Hiu Hiip). lia.
    + cbn in Hage. lia.
Qed.

Lemma C5_impression_uniqueness_witness :
  exists first second third,
    impressions (fst (request_at Sample.services [] 0 (Sample.visit "/abc123" None)))
      = [first] /\
    is_unique first = true /\
    impressions
      (fst (request_at Sample.services
              (snd (request_at Sample.services [] 0 (Sample.visit "/abc123" None)))
              600000 (Sample.visit "/abc123" None))) = [second] /\
    is_unique second = false /\
    impressions
      (fst (request_at Sample.services
              (snd (request_at Sample.services [] 0 (Sample.visit "/abc123" None)))
              2000000 (Sample.visit "/abc123" None))) = [third] /\
    is_unique third = true.
Proof.
  destruct (C5_impression_uniqueness Sample.services [] 0 (Sample.visit "/abc123" None)
              (Sample.clicked (Sample.entity 42 "abc123" "https://example.com/page?x=1" "302"))
              None (Sample.find "abc123"))
    as (first & Himp & _ & _ & _ & Htrue & Hsecond & Hthird).
  - split; reflexivity.
  - reflexivity.
  - reflexivity.
  - destruct (Hsecond 600000) as (second & Himp2 & Hu2); [lia|].
    destruct (Hthird 2000000) as (third & Himp3 & Hu3); [lia | intros i [] |].
    exists first, second, third. repeat split; try assumption.
    apply Htrue. intros (i & [] & _).
Defined.

(** ** Ownership of anonymous links *)

Module Authorized.
Import urlController.

Lemma bind_ok {A B} (m : M A) (k : A -> M B) :
  authorized m -> (forall a, authorized (k a)) -> authorized (bind m k).
Proof.
  unfold authorized, bind. intros Hm Hk.
  destruct (snd m) as [a|e]; cbn [fst]; [|exact Hm].
  unfold unauthorized in *. rewrite existsb_app, Hm. apply Hk.
Qed.

Lemma try_catch_ok {A} (body : M A) (handler : exn -> M A) :
  authorized body -> (forall e, authorized (handler e)) ->
  authorized (try_catch body handler).
Proof.
  unfold authorized, try_catch. intros Hm Hk.
  destruct (snd body) as [a|e]; cbn [fst]; [exact Hm|].
  unfold unauthorized in *. rewrite existsb_app, Hm. apply Hk.
Qed.

Lemma await_ok {A} (r : result A) : authorized (await r).
Proof. reflexivity. Qed.

Lemma ret_ok {A} (a : A) : authorized (ret a).
Proof. reflexivity. Qed.

Lemma throw_ok {A} (e : exn) : authorized (@throw A e).
Proof. reflexivity. Qed.

Lemma log_ok lvl msg : authorized (log lvl msg).
Proof. reflexivity. Qed.

Lemma emit_ok ev :
  (forall status message data, ev = Send status message data -> status <> 401) ->
  authorized (emit ev).
Proof.
  unfold authorized, unauthorized. destruct ev; try reflexivity.
  intros H. cbn. rewrite orb_false_r. apply Z.eqb_neq. now apply (H _ _ _ eq_refl).
Qed.

Lemma sendResponse_ok status message data :
  status <> 401 -> authorized (sendResponse status message data).
Proof.
  intros H. apply emit_ok. now intros ? ? ? [= <- _ _].
Qed.

Lemma failed_ok doing todo e : authorized (failed doing todo e).
Proof. destruct e; reflexivity. Qed.

Lemma formatClicks_ok rt clicks : authorized (formatClicks rt clicks).
Proof.
  induction clicks as [|click clicks IH]; [reflexivity|].
  cbn [formatClicks]. apply bind_ok; [apply await_ok|]. intros timestamp.
  apply bind_ok; [exact IH|]. intros formatted. apply ret_ok.
Qed.

Lemma owned_by_other_anonymous url userId :
  user_id url = None -> owned_by_other url userId = false.
Proof. unfold owned_by_other. now intros ->. Qed.

End Authorized.

Lemma formatClicks_total rt clicks :
  (forall ms, exists iso, urlController.toISOString rt ms = Returns iso) ->
  exists formatted, urlController.formatClicks rt clicks = ([], Returns formatted).
Proof.
  intros Hiso. induction clicks as [|click clicks [formatted IH]]; [now eexists|].
  destruct (Hiso (urlController.clicked_at click)) as [iso Hclick].
  cbn [urlController.formatClicks]. rewrite Hclick, IH. now eexists.
Qed.

(** C10: for a link without an owner ([user_id] null) the ownership check
    lets every user through: none of [getUrlDetails], [deleteUrl] and
    [getUrlAnalytics] answers 401 and each behaves the same whatever user id
    the token carries; when the models answer, [getUrlDetails] and
    [getUrlAnalytics] reply 200 with the data and [deleteUrl] performs the
    soft delete and replies 200. *)
Theorem C10_anonymous_links m rt req url userId :
  user_id url = None ->
  (urlController.lookup m rt req = Returns (Some url) ->
   urlController.unauthorized
     (trace (urlController.getUrlDetails m rt (urlController.as_user userId req))) = false /\
   urlController.getUrlDetails m rt (urlController.as_user userId req)
     = urlController.getUrlDetails m rt req /\
   forall count analytics clicks,
     urlController.getClickCountByUrlId m (id url) = Returns count ->
     urlController.getUrlAnalytics_service m (id url) = Returns analytics ->
     urlController.getRecentClicksByUrlId m (id url) 10 = Returns clicks ->
     (forall ms, exists iso, urlController.toISOString rt ms = Returns iso) ->
     exists isId data,
       urlController.getUrlDetails m rt (urlController.as_user userId req)
         = ([Log Info (RetrievedUrlDetails isId (urlController.param req));
             Send 200 "Successfully retrieved URL" (Some data)], Returns tt)) /\
  (forall urlId,
     urlController.parseInt rt (urlController.param req) = Some urlId ->
     urlController.getUrlById m urlId false = Returns (Some url) ->
     (urlController.unauthorized
        (trace (urlController.deleteUrl m rt (urlController.as_user userId req))) = false /\
      urlController.deleteUrl m rt (urlController.as_user userId req)
        = urlController.deleteUrl m rt req /\
      In (SoftDelete urlId)
         (trace (urlController.deleteUrl m rt (urlController.as_user userId req))) /\
      forall deleted iso,
        urlController.deleteUrl_model m urlId = Returns true ->
        urlController.getUrlById m urlId true = Returns (Some deleted) ->
        urlController.toISOString rt
          (match deleted_at deleted with Some d => d | None => 0 end) = Returns iso ->
        exists data,
          urlController.deleteUrl m rt (urlController.as_user userId req)
            = ([SoftDelete urlId; Log Info (DeletedUrl urlId);
                Send 200 "Successfully deleted URL" (Some data)], Returns tt)) /\
     (urlController.unauthorized
        (trace (urlController.getUrlAnalytics m rt (urlController.as_user userId req))) = false /\
      urlController.getUrlAnalytics m rt (urlController.as_user userId req)
        = urlController.getUrlAnalytics m rt req /\
      forall analytics,
        urlController.getUrlAnalyticsWithFilters m urlId (urlController.analyticsOptions req)
          = Returns analytics ->
        urlController.getUrlAnalytics m rt (urlController.as_user userId req)
          = ([Log Info (RetrievedAnalytics urlId);
              Send 200 "Successfully retrieved URL analytics" (Some analytics)],
             Returns tt))).
Proof.
  intros Hanon.
  pose proof (Authorized.owned_by_other_anonymous url userId Hanon) as Hmine.
  pose proof (Authorized.owned_by_other_anonymous url (urlController.body_id req) Hanon)
    as Htheirs.
  split.
  - intros Hlookup. unfold urlController.lookup in Hlookup.
    assert (Hrun : forall who,
              urlController.getUrlDetails m rt (urlController.as_user who req)
              = urlController.getUrlDetails m rt (urlController.as_user userId req)).
    { intros who. unfold urlController.getUrlDetails.
      cbn [urlController.as_user urlController.param urlController.body_id].
      rewrite Hlookup, !bind_await.
      rewrite Hmine, (Authorized.owned_by_other_anonymous url who Hanon). reflexivity. }
    assert (Hsame : urlController.getUrlDetails m rt (urlController.as_user userId req)
                    = urlController.getUrlDetails m rt req).
    { rewrite <- (Hrun (urlController.body_id req)). now destruct req. }
    split; [|split; [exact Hsame|]].
    + change (urlController.authorized
                (urlController.getUrlDetails m rt (urlController.as_user userId req))).
      unfold urlController.getUrlDetails.
      cbn [urlController.as_user urlController.param urlController.body_id].
      rewrite Hlookup, bind_await, Hmine. repeat first
        [ apply Authorized.await_ok | apply Authorized.ret_ok | apply Authorized.throw_ok
        | apply Authorized.log_ok | apply Authorized.failed_ok
        | apply Authorized.formatClicks_ok
        | apply Authorized.sendResponse_ok; discriminate
        | apply Authorized.emit_ok; discriminate
        | apply Authorized.try_catch_ok; [|intros ?]
        | apply Authorized.bind_ok; [|intros ?]
        | match goal with
          | |- urlController.authorized (match ?x with _ => _ end) => destruct x
          | |- urlController.authorized (if ?x then _ else _) => destruct x
          end ].
    + intros count analytics clicks Hcount Hanalytics Hclicks Hiso.
      destruct (formatClicks_total rt clicks Hiso) as [formatted Hformat].
      destruct (Hiso (created_at url)) as [createdAt Hcreated].
      unfold urlController.getUrlDetails.
      cbn [urlController.as_user urlController.param urlController.body_id].
      rewrite Hlookup, bind_await, Hmine, Hcount, bind_await, Hanalytics, bind_await,
        Hclicks, bind_await, Hformat.
      unfold bind at 1; cbn [fst snd app]. rewrite Hcreated. cbn [await fst snd app].
      destruct (updated_at url) as [u|], (expiry_date url) as [x|];
        try (destruct (Hiso u) as [updatedAt ->]);
        try (destruct (Hiso x) as [expiryDate ->]);
        eexists _, _; reflexivity.
  - intros urlId Hparse Hfound. split.
    + assert (Hrun : forall who,
                urlController.deleteUrl m rt (urlController.as_user who req)
                = urlController.deleteUrl m rt (urlController.as_user userId req)).
      { intros who. unfold urlController.deleteUrl.
        cbn [urlController.as_user urlController.param urlController.body_id].
        rewrite Hparse, Hfound, !bind_await.
        rewrite Hmine, (Authorized.owned_by_other_anonymous url who Hanon). reflexivity. }
      assert (Hshape : urlController.deleteUrl m rt (urlController.as_user userId req)
                = try_catch
                    (emit (SoftDelete urlId) ;;
                     isDeleted <- await (urlController.deleteUrl_model m urlId) ;;
                     if negb isDeleted
                     then urlController.sendResponse 500 "Failed to delete URL" None
                     else
                       deletedUrl <- await (urlController.getUrlById m urlId true) ;;
                       match deletedUrl with
                       | None => throw (TypeError "Cannot read properties of null")
                       | Some deletedUrl =>
                           deletedAt <- await (urlController.toISOString rt
                                                 (match deleted_at deletedUrl with
                                                  | Some d => d
                                                  | None => 0
                                                  end)) ;;
                           log Info (DeletedUrl urlId) ;;
                           urlController.sendResponse 200 "Successfully deleted URL"
                             (Some (JObj [("id", JNum (id deletedUrl));
                                          ("short_code", JStr (short_code deletedUrl));
                                          ("deleted_at", JStr deletedAt)]))
                       end)
                    (urlController.failed "deleting URL" "delete URL")).
      { unfold urlController.deleteUrl.
        cbn [urlController.as_user urlController.param urlController.body_id].
        now rewrite Hparse, Hfound, bind_await, Hmine. }
      split; [|split; [|split]].
      * change (urlController.authorized
                  (urlController.deleteUrl m rt (urlController.as_user userId req))).
        rewrite Hshape. repeat first
        [ apply Authorized.await_ok | apply Authorized.ret_ok | apply Authorized.throw_ok
        | apply Authorized.log_ok | apply Authorized.failed_ok
        | apply Authorized.formatClicks_ok
        | apply Authorized.sendResponse_ok; discriminate
        | apply Authorized.emit_ok; discriminate
        | apply Authorized.try_catch_ok; [|intros ?]
        | apply Authorized.bind_ok; [|intros ?]
        | match goal with
          | |- urlController.authorized (match ?x with _ => _ end) => destruct x
          | |- urlController.authorized (if ?x then _ else _) => destruct x
          end ].
      * rewrite <- (Hrun (urlController.body_id req)). now destruct req.
      * rewrite Hshape. unfold trace, try_catch. rewrite bind_emit. cbn [fst snd].
        destruct (snd _); left; reflexivity.
      * intros deleted iso Hdel Hget Hiso. rewrite Hshape, bind_emit, Hdel, bind_await.
        cbn [negb]. rewrite Hget, bind_await, Hiso, bind_await.
        eexists. reflexivity.
    + assert (Hrun : forall who,
                urlController.getUrlAnalytics m rt (urlController.as_user who req)
                = urlController.getUrlAnalytics m rt (urlController.as_user userId req)).
      { intros who. unfold urlController.getUrlAnalytics.
        cbn [urlController.as_user urlController.param urlController.body_id].
        rewrite Hparse, Hfound, !bind_await.
        rewrite Hmine, (Authorized.owned_by_other_anonymous url who Hanon). reflexivity. }
      split; [|split].
      * change (urlController.authorized
                  (urlController.getUrlAnalytics m rt (urlController.as_user userId req))).
        unfold urlController.getUrlAnalytics.
        cbn [urlController.as_user urlController.param urlController.body_id].
        rewrite Hparse, Hfound, bind_await, Hmine. repeat first
        [ apply Authorized.await_ok | apply Authorized.ret_ok | apply Authorized.throw_ok
        | apply Authorized.log_ok | apply Authorized.failed_ok
        | apply Authorized.formatClicks_ok
        | apply Authorized.sendResponse_ok; discriminate
        | apply Authorized.emit_ok; discriminate
        | apply Authorized.try_catch_ok; [|intros ?]
        | apply Authorized.bind_ok; [|intros ?]
        | match goal with
          | |- urlController.authorized (match ?x with _ => _ end) => destruct x
          | |- urlController.authorized (if ?x then _ else _) => destruct x
          end ].
      * rewrite <- (Hrun (urlController.body_id req)). now destruct req.
      * intros analytics Hanalytics. unfold urlController.getUrlAnalytics.
        cbn [urlController.as_user urlController.param urlController.body_id].
        rewrite Hparse, Hfound, bind_await, Hmine.
        change (urlController.analyticsOptions (urlController.as_user userId req))
          with (urlController.analyticsOptions req).
        rewrite Hanalytics, bind_await. reflexivity.
Qed.

Lemma C10_anonymous_links_witness :
  urlController.unauthorized
    (trace (urlController.getUrlDetails SampleApi.models SampleApi.runtime
              (urlController.as_user (JNum 7) (SampleApi.call 1 "42")))) = false /\
  In (SoftDelete 42)
     (trace (urlController.deleteUrl SampleApi.models SampleApi.runtime
               (urlController.as_user (JNum 7) (SampleApi.call 1 "42")))) /\
  urlController.getUrlAnalytics SampleApi.models SampleApi.runtime
    (urlController.as_user (JNum 7) (SampleApi.call 1 "42"))
    = ([Log Info (RetrievedAnalytics 42);
        Send 200 "Successfully retrieved URL analytics" (Some (JObj []))], Returns tt).
Proof.
  destruct (C10_anonymous_links SampleApi.models SampleApi.runtime (SampleApi.call 1 "42")
              (Sample.entity 42 "abc123" "https://example.com/page?x=1" "302") (JNum 7))
    as [Hdetails Hrest].
  - reflexivity.
  - destruct (Hdetails eq_refl) as (Hno401 & _).
    destruct (Hrest 42 eq_refl eq_refl) as [(_ & _ & Hdeleted & _) (_ & _ & Hanalytics)].
    split; [exact Hno401|]. split; [exact Hdeleted|]. now apply Hanalytics.
Defined.

(** * Further properties *)

(** ** The middleware, path by path *)

Lemma middleware_path svc req : Path svc req (redirectMiddleware svc req).
Proof.
  unfold redirectMiddleware, trace.
  destruct (skipped (shortCodeOf req)) eqn:Hskip.
  { rewrite middleware_skipped by assumption. now constructor. }
  destruct (recordClickAndGetOriginalUrl svc (shortCodeOf req) (visitorInfo req))
    as [[r|]|e] eqn:Hrec.
  - assert (Hres : resolves svc req r) by (split; assumption).
    destruct (hookResult req r) as [info|e] eqn:Hhook.
    + destruct (getUrlByShortCode svc (shortCodeOf req)) as [url|e] eqn:Hurl.
      * rewrite (middleware_resolved svc req r info url) by assumption.
        now apply Redirected.
      * replace (fst (middleware svc req))
          with (RecordClick (shortCodeOf req) (visitorInfo req)
                  :: hookEvents req r
                  ++ [GetUrlByShortCode (shortCodeOf req);
                      Log Err (RedirectError e); internalError]).
        { now apply (LookupFailed svc req r info e). }
        unfold middleware, hookResult, hookEvents, shortCodeOf in *. rewrite Hskip.
        unfold try_catch, bind; cbn [emit await fst snd app]. rewrite Hrec.
        cbn [fst snd app].
        destruct (setClickId req) as [hook|]; cbn [emit await ret fst snd app];
          rewrite ?Hhook; cbn [fst snd app]; rewrite Hurl; reflexivity.
    + replace (fst (middleware svc req))
        with (RecordClick (shortCodeOf req) (visitorInfo req)
                :: hookEvents req r ++ [Log Err (RedirectError e); internalError]).
      { now apply (HookFailed svc req r e). }
      unfold middleware, hookResult, hookEvents, shortCodeOf in *. rewrite Hskip.
      unfold try_catch, bind; cbn [emit await fst snd app]. rewrite Hrec.
      cbn [fst snd app].
      destruct (setClickId req) as [hook|]; [|discriminate].
      cbn [emit await ret fst snd app]. now rewrite Hhook.
  - rewrite middleware_not_found by assumption. now constructor.
  - replace (fst (middleware svc req))
      with [RecordClick (shortCodeOf req) (visitorInfo req);
            Log Err (RedirectError e); internalError].
    { now constructor. }
    unfold middleware, shortCodeOf in *. rewrite Hskip.
    unfold try_catch, bind; cbn [emit await fst snd app]. now rewrite Hrec.
Qed.

Lemma clicks_app (t1 t2 : list Event) : clicks (t1 ++ t2) = clicks t1 ++ clicks t2.
Proof. apply flat_map_app. Qed.

Lemma timeouts_app (t1 t2 : list Event) : timeouts (t1 ++ t2) = timeouts t1 ++ timeouts t2.
Proof. apply flat_map_app. Qed.

Lemma lookups_app (t1 t2 : list Event) : lookups (t1 ++ t2) = lookups t1 ++ lookups t2.
Proof. apply flat_map_app. Qed.

Lemma analytics_quiet (t : list Event) :
  forallb is_analytics t = true ->
  responses t = [] /\ clicks t = [] /\ timeouts t = [] /\ lookups t = [] /\ outbound t = [].
Proof.
  induction t as [|ev t IH]; [now repeat split|].
  cbn [forallb]. rewrite andb_true_iff. intros [Hev Ht].
  destruct (IH Ht) as (H1 & H2 & H3 & H4 & H5).
  destruct ev; try discriminate Hev; cbn; now repeat split.
Qed.

Lemma trackImpression_analytics svc req u :
  forallb is_analytics (trace (trackImpression svc req u)) = true.
Proof.
  unfold trace, trackImpression, try_catch, bind; cbn [emit await fst snd app].
  destruct (hasRecentImpression svc u _) as [recent|e]; cbn [fst snd app]; [|reflexivity].
  destruct (recordImpression svc _); reflexivity.
Qed.

Lemma findGoal_analytics svc u : forallb is_analytics (trace (findGoal svc u)) = true.
Proof.
  unfold trace, findGoal, try_catch, bind; cbn [emit await fst snd app].
  destruct (getGoalsByUrlId svc u) as [[|g goals]|e]; reflexivity.
Qed.

Lemma hookEvents_plain req r :
  responses (hookEvents req r) = [] /\ clicks (hookEvents req r) = [] /\
  timeouts (hookEvents req r) = [] /\ lookups (hookEvents req r) = [].
Proof. unfold hookEvents. destruct (setClickId req); now repeat split. Qed.

Lemma timers_plain tracking goal :
  clicks (timers tracking goal) = [] /\ lookups (timers tracking goal) = [].
Proof. unfold timers. destruct tracking; [destruct (goal_truthy goal)|]; now split. Qed.

(** X1: whatever the collaborators do, the middleware lets no exception
    out and answers exactly once, as the last thing it does: one call of
    [next()], one redirect or one JSON error, with nothing of the three
    before it; the work left running afterwards adds no response. *)
Theorem X1_one_response svc req :
  snd (middleware svc req) = Returns tt /\
  (exists before ev,
     redirectMiddleware svc req = before ++ [ev] /\
     is_response ev = true /\
     responses before = []) /\
  exists ev, responses (trace (serve svc req)) = [ev].
Proof.
  split; [apply middleware_answer|]. split.
  - destruct (middleware_path svc req)
      as [Hskip | e Hskip Hrec | Hskip Hrec | r e Hres Hhook | r info e Hres Hhook Hurl
          | r info url Hres Hhook Hurl].
    + now exists [], Next.
    + now eexists [_; _], internalError.
    + now eexists [_; _], notFound.
    + exists (RecordClick (shortCodeOf req) (visitorInfo req)
                :: hookEvents req r ++ [Log Err (RedirectError e)]), internalError.
      split; [cbn [app]; now rewrite <- app_assoc|]. split; [reflexivity|].
      change (?x :: ?l ++ ?m) with ([x] ++ l ++ m).
      rewrite !responses_app. now destruct (hookEvents_plain req r) as (-> & _).
    + exists (RecordClick (shortCodeOf req) (visitorInfo req)
                :: hookEvents req r
                ++ [GetUrlByShortCode (shortCodeOf req); Log Err (RedirectError e)]),
             internalError.
      split; [cbn [app]; now rewrite <- app_assoc|]. split; [reflexivity|].
      change (?x :: ?l ++ ?m) with ([x] ++ l ++ m).
      rewrite !responses_app. now destruct (hookEvents_plain req r) as (-> & _).
    + exists (RecordClick (shortCodeOf req) (visitorInfo req)
                :: hookEvents req r
                ++ [GetUrlByShortCode (shortCodeOf req);
                    Log Info (Redirecting (shortCodeOf req) (originalUrl r)
                                          (redirectTypeOf url))]
                ++ trace (trackImpression svc req (urlId r))
                ++ trace (findGoal svc (urlId r))
                ++ timers (established info) (goalFound svc (urlId r))),
             (Redirect (redirectTypeOf url)
                       (locationFor (originalUrl r) (established info))).
      split; [cbn [app]; rewrite <- ?app_assoc; cbn [app]; rewrite <- ?app_assoc; reflexivity|]. split; [reflexivity|].
      change (?x :: ?l ++ ?m) with ([x] ++ l ++ m).
      rewrite !responses_app, responses_trackImpression, responses_findGoal,
        responses_timers.
      now destruct (hookEvents_plain req r) as (-> & _).
  - rewrite responses_serve. unfold answer.
    destruct (skipped _); [now eexists|].
    destruct (recordClickAndGetOriginalUrl svc _ _) as [[r|]|e]; try now eexists.
    destruct (hookResult req r); [|now eexists].
    destruct (getUrlByShortCode svc _); now eexists.
Qed.

(** X2: on a path that is handled as a short code, when the
    record-and-resolve call, the tracking hook or the redirect-type lookup
    throws, the client gets the JSON body [{status: 500, message: "Internal
    Server Error"}] under status 500, the same for every error, the error
    goes to the log, and neither an impression nor a timer is started; the
    call to the click recorder has been made by then. *)
Theorem X2_failure_is_500 svc req e :
  skipped (shortCodeOf req) = false ->
  recordClickAndGetOriginalUrl svc (shortCodeOf req) (visitorInfo req) = Throws e \/
  (exists r,
     recordClickAndGetOriginalUrl svc (shortCodeOf req) (visitorInfo req)
       = Returns (Some r) /\
     (hookResult req r = Throws e \/
      exists info, hookResult req r = Returns info /\
                   getUrlByShortCode svc (shortCodeOf req) = Throws e)) ->
  responses (redirectMiddleware svc req) = [Json 500 500 "Internal Server Error"] /\
  In (Err, RedirectError e) (logged (redirectMiddleware svc req)) /\
  clicks (redirectMiddleware svc req) = [(shortCodeOf req, visitorInfo req)] /\
  impressions (redirectMiddleware svc req) = [] /\
  timeouts (redirectMiddleware svc req) = [].
Proof.
  intros Hskip Hfail.
  pose proof (middleware_path svc req) as P.
  remember (redirectMiddleware svc req) as t eqn:Ht. clear Ht.
  assert (Hhooks : forall r, logged (hookEvents req r) = [] /\
                             impressions (hookEvents req r) = [])
    by (intros r; unfold hookEvents; destruct (setClickId req); now split).
  destruct P as [Hskip' | e' _ Hrec | _ Hrec | r e' [_ Hrec] Hhook
                 | r info e' [_ Hrec] Hhook Hurl | r info url [_ Hrec] Hhook Hurl].
  - congruence.
  - destruct Hfail as [Hf | (r & Hf & _)]; [|congruence].
    assert (e' = e) as -> by congruence. repeat split; try reflexivity. now left.
  - destruct Hfail as [Hf | (r & Hf & _)]; congruence.
  - destruct Hfail as [Hf | (r' & Hf & Hrest)]; [congruence|].
    assert (r' = r) as -> by congruence.
    destruct Hrest as [Hh | (info & Hh & _)]; [|congruence].
    assert (e' = e) as -> by congruence.
    destruct (Hhooks r) as [Hl Hi]. destruct (hookEvents_plain req r) as (Hr & Hc & Ht & _).
    change (?x :: ?l ++ ?m) with ([x] ++ l ++ m).
    rewrite !responses_app, !clicks_app, !impressions_app, !timeouts_app, Hr, Hc, Ht, Hi.
    unfold logged. rewrite !flat_map_app. fold (logged (hookEvents req r)). rewrite Hl.
    repeat split; try reflexivity. now left.
  - destruct Hfail as [Hf | (r' & Hf & Hrest)]; [congruence|].
    assert (r' = r) as -> by congruence.
    destruct Hrest as [Hh | (info' & Hh & Hu)]; [congruence|].
    assert (e' = e) as -> by congruence.
    destruct (Hhooks r) as [Hl Hi]. destruct (hookEvents_plain req r) as (Hr & Hc & Ht & _).
    change (?x :: ?l ++ ?m) with ([x] ++ l ++ m).
    rewrite !responses_app, !clicks_app, !impressions_app, !timeouts_app, Hr, Hc, Ht, Hi.
    unfold logged. rewrite !flat_map_app. fold (logged (hookEvents req r)). rewrite Hl.
    repeat split; try reflexivity. now left.
  - destruct Hfail as [Hf | (r' & Hf & Hrest)]; [congruence|].
    assert (r' = r) as -> by congruence.
    destruct Hrest as [Hh | (info' & Hh & Hu)]; congruence.
Qed.

Lemma X2_failure_is_500_witness :
  responses (redirectMiddleware SampleFaults.offline (Sample.visit "/abc123" None))
    = [Json 500 500 "Internal Server Error"] /\
  impressions (redirectMiddleware SampleFaults.offline (Sample.visit "/abc123" None)) = [].
Proof.
  destruct (X2_failure_is_500 SampleFaults.offline (Sample.visit "/abc123" None)
              SampleFaults.down) as (Hresp & _ & _ & Himp & _).
  - reflexivity.
  - left. reflexivity.
  - split; assumption.
Defined.

(** X3: when the recency check of the impression model throws, no
    impression is written for the visit, the error is logged, the goal
    lookup is still made and the visitor still gets the redirect. *)
Theorem X3_impression_check_fails svc req r info url e :
  resolves svc req r ->
  hookResult req r = Returns info ->
  getUrlByShortCode svc (shortCodeOf req) = Returns url ->
  hasRecentImpression svc (urlId r) (or_else (h_x_forwarded_for req) (remoteAddress req))
    = Throws e ->
  impressions (redirectMiddleware svc req) = [] /\
  In (Err, ErrorTrackingImpression e) (logged (redirectMiddleware svc req)) /\
  In (GetGoalsByUrlId (urlId r)) (redirectMiddleware svc req) /\
  responses (redirectMiddleware svc req)
    = [Redirect (redirectTypeOf url) (locationFor (originalUrl r) (established info))].
Proof.
  intros Hres Hhook Hurl Hcheck.
  pose proof (middleware_resolved svc req r info url Hres Hhook Hurl) as Hrun.
  pose proof (trackImpression_unchecked svc req (urlId r) e Hcheck) as Htrack.
  destruct (findGoal_quiet svc (urlId r) (process_env svc)) as (_ & _ & HiG).
  destruct (hookEvents_quiet req r (process_env svc)) as (_ & _ & HiH).
  assert (Hgoal : exists rest, trace (findGoal svc (urlId r))
                               = GetGoalsByUrlId (urlId r) :: rest).
  { unfold trace, findGoal, try_catch, bind; cbn [emit await fst snd app].
    destruct (getGoalsByUrlId svc (urlId r)) as [[|g goals]|e']; now eexists. }
  destruct Hgoal as [rest Hgoal].
  unfold redirectMiddleware, trace in *. rewrite Hrun. cbn [fst].
  repeat split.
  - change (?x :: ?l ++ ?m) with ([x] ++ l ++ m).
    rewrite !impressions_app, HiH, HiG, Htrack.
    unfold timers. destruct (established info); [destruct (goal_truthy _)|]; reflexivity.
  - unfold logged. change (?x :: ?l ++ ?m) with ([x] ++ l ++ m).
    rewrite !flat_map_app, Htrack. apply in_or_app; right. apply in_or_app; right.
    apply in_or_app; right. apply in_or_app; left. now left.
  - right. apply in_or_app; right. apply in_or_app; right. apply in_or_app; right.
    apply in_or_app; left. rewrite Hgoal. now left.
  - destruct (middleware_answer svc req) as [_ Hans].
    unfold redirectMiddleware, trace in Hans. rewrite Hrun in Hans. cbn [fst] in Hans.
    rewrite Hans. unfold answer. destruct Hres as [Hskip Hrec].
    now rewrite Hskip, Hrec, Hhook, Hurl.
Qed.

Lemma X3_impression_check_fails_witness :
  impressions (redirectMiddleware SampleFaults.blind (Sample.visit "/perm" None)) = [] /\
  responses (redirectMiddleware SampleFaults.blind (Sample.visit "/perm" None))
    = [Redirect 301 "https://example.org/landing"].
Proof.
  destruct (X3_impression_check_fails SampleFaults.blind (Sample.visit "/perm" None)
              (Sample.clicked (Sample.entity 43 "perm" "https://example.org/landing" "301"))
              None (Sample.find "perm") SampleFaults.down)
    as (Himp & _ & _ & Hresp).
  - split; reflexivity.
  - reflexivity.
  - reflexivity.
  - reflexivity.
  - split; [exact Himp | exact Hresp].
Defined.

(** X4: with no tracking identifier on the request (no [clickInfo], no
    [trackingId], or an empty one) the visitor is sent to the destination
    exactly as stored, no timer is set and no conversion request is ever
    sent, whatever goals the link has. *)
Theorem X4_no_tracking_plain_redirect svc req r info url :
  resolves svc req r ->
  hookResult req r = Returns info ->
  getUrlByShortCode svc (shortCodeOf req) = Returns url ->
  info = None \/
  (exists ci, info = Some ci /\
              (trackingId ci = None \/ trackingId ci = Some ""%string)) ->
  responses (redirectMiddleware svc req) = [Redirect (redirectTypeOf url) (originalUrl r)] /\
  timeouts (redirectMiddleware svc req) = [] /\
  outbound (trace (serve svc req)) = [].
Proof.
  intros Hres Hhook Hurl Hnone.
  assert (Hest : established info = None).
  { destruct Hnone as [-> | (ci & -> & [Ht | Ht])]; [reflexivity | |];
      unfold established; now rewrite Ht. }
  pose proof (middleware_resolved svc req r info url Hres Hhook Hurl) as Hrun.
  destruct (outbound_resolved svc req r info url Hres Hhook Hurl) as [_ Hout].
  destruct (analytics_quiet _ (trackImpression_analytics svc req (urlId r)))
    as (_ & _ & HtI & _).
  destruct (analytics_quiet _ (findGoal_analytics svc (urlId r))) as (_ & _ & HtG & _).
  destruct (hookEvents_plain req r) as (_ & _ & HtH & _).
  repeat split.
  - destruct (middleware_answer svc req) as [_ ->]. unfold answer.
    destruct Hres as [Hskip Hrec]. now rewrite Hskip, Hrec, Hhook, Hurl, Hest.
  - unfold redirectMiddleware, trace. rewrite Hrun, Hest. cbn [fst].
    change (?x :: ?l ++ ?m) with ([x] ++ l ++ m).
    now rewrite !timeouts_app, HtH, HtI, HtG.
  - now rewrite Hout, Hest.
Qed.

Lemma X4_no_tracking_plain_redirect_witness :
  responses (redirectMiddleware Sample.services (Sample.visit "/abc123" None))
    = [Redirect 302 "https://example.com/page?x=1"] /\
  outbound (trace (serve Sample.services (Sample.visit "/abc123" None))) = [].
Proof.
  destruct (X4_no_tracking_plain_redirect Sample.services (Sample.visit "/abc123" None)
              (Sample.clicked (Sample.entity 42 "abc123" "https://example.com/page?x=1" "302"))
              None (Sample.find "abc123"))
    as (Hresp & _ & Hout).
  - split; reflexivity.
  - reflexivity.
  - reflexivity.
  - now left.
  - split; [exact Hresp | exact Hout].
Defined.

(** X5: the click recorder is called exactly once, with the path minus
    its first character and the visitor metadata, for every path that is
    taken for a short code (also when the link then turns out not to exist
    or a later step fails) and never for another path; the redirect-type
    lookup is made at most once, for the same code, and only after the
    recorder has returned a link. *)
Theorem X5_one_click_per_request svc req :
  clicks (redirectMiddleware svc req)
    = (if skipped (shortCodeOf req) then []
       else [(shortCodeOf req, visitorInfo req)]) /\
  (lookups (redirectMiddleware svc req) = [] \/
   lookups (redirectMiddleware svc req) = [shortCodeOf req] /\
   exists r, resolves svc req r).
Proof.
  pose proof (middleware_path svc req) as P.
  remember (redirectMiddleware svc req) as t eqn:Ht. clear Ht.
  destruct P as [Hskip | e Hskip Hrec | Hskip Hrec | r e Hres Hhook
                 | r info e Hres Hhook Hurl | r info url Hres Hhook Hurl];
    try (rewrite Hskip; split; [reflexivity | now left]);
    destruct (hookEvents_plain req r) as (_ & Hc & _ & Hl);
    pose proof (proj1 Hres) as Hskip; rewrite Hskip;
    change (?x :: ?l ++ ?m) with ([x] ++ l ++ m);
    rewrite !clicks_app, !lookups_app, Hc, Hl.
  - split; [reflexivity | now left].
  - split; [reflexivity | right; split; [reflexivity | now exists r]].
  - destruct (analytics_quiet _ (trackImpression_analytics svc req (urlId r)))
      as (_ & HcI & _ & HlI & _).
    destruct (analytics_quiet _ (findGoal_analytics svc (urlId r)))
      as (_ & HcG & _ & HlG & _).
    destruct (timers_plain (established info) (goalFound svc (urlId r))) as [HcT HlT].
    rewrite HcI, HcG, HcT, HlI, HlG, HlT.
    split; [reflexivity | right; split; [reflexivity | now exists r]].
Qed.

Lemma impression_row svc req r info url recent :
  resolves svc req r ->
  hookResult req r = Returns info ->
  getUrlByShortCode svc (shortCodeOf req) = Returns url ->
  hasRecentImpression svc (urlId r) (or_else (h_x_forwarded_for req) (remoteAddress req))
    = Returns recent ->
  impressions (redirectMiddleware svc req)
    = [ {| url_id := urlId r;
           ip_address := or_else (h_x_forwarded_for req) (remoteAddress req);
           user_agent := or_else (h_user_agent req) (HStr "");
           imp_referrer := match or_else (referrerHeader req) (HStr "") with
                           | HStr s => s
                           | _ => ""%string
                           end;
           is_unique := negb recent;
           source := sourceOf svc (or_else (referrerHeader req) (HStr "")) |} ].
Proof.
  intros Hres Hhook Hurl Hrecent.
  destruct (impression_resolved svc req r info url recent Hres Hhook Hurl Hrecent)
    as (data & Himp & _).
  rewrite Himp. f_equal.
  pose proof (middleware_resolved svc req r info url Hres Hhook Hurl) as Hrun.
  unfold redirectMiddleware, trace in Himp. rewrite Hrun in Himp. cbn [fst] in Himp.
  destruct (findGoal_quiet svc (urlId r) (process_env svc)) as (_ & _ & HiG).
  destruct (hookEvents_quiet req r (process_env svc)) as (_ & _ & HiH).
  change (?x :: ?l ++ ?m) with ([x] ++ l ++ m) in Himp.
  unfold trace in Himp. rewrite !impressions_app, HiH, HiG in Himp.
  assert (Htimers : impressions (timers (established info) (goalFound svc (urlId r))) = []).
  { unfold timers. destruct (established info); [destruct (goal_truthy _)|]; reflexivity. }
  rewrite Htimers in Himp. cbn [impressions flat_map app] in Himp.
  rewrite !app_nil_r in Himp. fold (impressions (fst (trackImpression svc req (urlId r)))) in Himp.
  revert Himp. unfold trackImpression, try_catch, bind, referrerHeader;
    cbn [emit await fst snd app]. rewrite Hrecent; cbn [fst snd app].
  destruct (recordImpression svc _); cbn; congruence.
Qed.

(** X6: the impression of a resolved visit records the address from the
    [x-forwarded-for] header when there is one and the socket address
    otherwise, the user agent or the empty string, and the referrer as
    received when it is a string; a referrer header that arrives as a list
    is stored as the empty string, with an empty source. *)
Theorem X6_impression_fields svc req r info url recent :
  resolves svc req r ->
  hookResult req r = Returns info ->
  getUrlByShortCode svc (shortCodeOf req) = Returns url ->
  hasRecentImpression svc (urlId r) (or_else (h_x_forwarded_for req) (remoteAddress req))
    = Returns recent ->
  exists data,
    impressions (redirectMiddleware svc req) = [data] /\
    url_id data = urlId r /\
    (truthy (h_x_forwarded_for req) = true -> ip_address data = h_x_forwarded_for req) /\
    (truthy (h_x_forwarded_for req) = false -> ip_address data = remoteAddress req) /\
    (truthy (h_user_agent req) = true -> user_agent data = h_user_agent req) /\
    (truthy (h_user_agent req) = false -> user_agent data = HStr "") /\
    (forall s, referrerHeader req = HStr s -> imp_referrer data = s) /\
    (forall l, referrerHeader req = HArr l ->
               imp_referrer data = ""%string /\ source data = ""%string).
Proof.
  intros Hres Hhook Hurl Hrecent.
  eexists. split; [exact (impression_row svc req r info url recent Hres Hhook Hurl Hrecent)|].
  cbn [url_id ip_address user_agent imp_referrer source]. unfold or_else.
  split; [reflexivity|].
  split; [now intros ->|]. split; [now intros ->|].
  split; [now intros ->|]. split; [now intros ->|].
  split.
  - intros s ->. cbn. now destruct s.
  - intros l ->. now split.
Qed.

Lemma X6_impression_fields_witness :
  exists data,
    impressions (redirectMiddleware Sample.services SampleFaults.proxied) = [data] /\
    ip_address data = HStr "198.51.100.7" /\
    user_agent data = HStr "" /\
    imp_referrer data = ""%string /\
    source data = ""%string.
Proof.
  destruct (X6_impression_fields Sample.services SampleFaults.proxied
              (Sample.clicked (Sample.entity 43 "perm" "https://example.org/landing" "301"))
              None (Sample.find "perm") false)
    as (data & Himp & _ & Hfwd & _ & _ & Hua & _ & Harr).
  - split; reflexivity.
  - reflexivity.
  - reflexivity.
  - reflexivity.
  - exists data. split; [exact Himp|]. split; [now apply Hfwd|]. split; [now apply Hua|].
    now apply (Harr ["https://a.example/"; "https://b.example/"]%string).
Defined.

(** ** The conversion request, when it goes wrong *)

(** X7: when the conversion request cannot be sent the promise of
    [autoTrackConversion] rejects and the timer callback catches it: a
    transport error (the ['error'] event) is logged by the request's
    handler and again by the callback, an exception thrown while sending is
    logged by the callback alone; in both cases the callback ends
    normally. *)
Theorem X7_conversion_transport_failure svc tid g e :
  (http_request svc (conversionRequest (process_env svc) tid g) = RequestError e ->
   autoTrackConversion svc tid g
     = ([HttpSend (conversionRequest (process_env svc) tid g);
         Log Err (ErrorSendingConversionRequest e)], Throws e) /\
   timerCallback svc tid g
     = ([HttpSend (conversionRequest (process_env svc) tid g);
         Log Err (ErrorSendingConversionRequest e);
         Log Err (ErrorInAutoTracking e)], Returns tt)) /\
  (http_request svc (conversionRequest (process_env svc) tid g) = RequestThrows e ->
   autoTrackConversion svc tid g
     = ([HttpSend (conversionRequest (process_env svc) tid g)], Throws e) /\
   timerCallback svc tid g
     = ([HttpSend (conversionRequest (process_env svc) tid g);
         Log Err (ErrorInAutoTracking e)], Returns tt)).
Proof.
  split; intros Hhttp.
  - assert (Hauto : autoTrackConversion svc tid g
                    = ([HttpSend (conversionRequest (process_env svc) tid g);
                        Log Err (ErrorSendingConversionRequest e)], Throws e)).
    { unfold autoTrackConversion, bind; cbn [emit fst snd app]. now rewrite Hhttp. }
    split; [exact Hauto|]. unfold timerCallback. now rewrite Hauto.
  - assert (Hauto : autoTrackConversion svc tid g
                    = ([HttpSend (conversionRequest (process_env svc) tid g)], Throws e)).
    { unfold autoTrackConversion, bind; cbn [emit fst snd app]. now rewrite Hhttp. }
    split; [exact Hauto|]. unfold timerCallback. now rewrite Hauto.
Qed.

Lemma X7_conversion_transport_failure_witness :
  timerCallback SampleFaults.offline "abc123" 5
    = ([HttpSend (conversionRequest (process_env SampleFaults.offline) "abc123" 5);
        Log Err (ErrorSendingConversionRequest SampleFaults.down);
        Log Err (ErrorInAutoTracking SampleFaults.down)], Returns tt).
Proof.
  destruct (X7_conversion_transport_failure SampleFaults.offline "abc123" 5 SampleFaults.down)
    as [Herr _].
  now apply Herr.
Defined.

(** X8: an answer whose body is the JSON value [null], whatever its
    status, and a 2xx answer whose body has no [data] (or a null one), is
    not counted as a success: reading the field raises a type error, which
    is logged as a parse error, the promise rejects, and no success line is
    written. *)
Theorem X8_conversion_answer_without_data svc tid g statusCode body :
  http_request svc (conversionRequest (process_env svc) tid g)
    = Response statusCode (Returns body) ->
  body = JNull \/
  (is_2xx statusCode = true /\
   (get body "data" = Returns JUndefined \/ get body "data" = Returns JNull)) ->
  (exists message,
     autoTrackConversion svc tid g
       = ([HttpSend (conversionRequest (process_env svc) tid g);
           Log Err (ErrorParsingConversionResponse (TypeError message))],
          Throws (TypeError message))) /\
  snd (timerCallback svc tid g) = Returns tt /\
  forall conversion_id,
    ~ In (Info, ConversionTracked conversion_id tid) (logged (trace (timerCallback svc tid g))).
Proof.
  intros Hhttp Hbody.
  assert (Hauto : exists message,
            autoTrackConversion svc tid g
              = ([HttpSend (conversionRequest (process_env svc) tid g);
                  Log Err (ErrorParsingConversionResponse (TypeError message))],
                 Throws (TypeError message))).
  { unfold autoTrackConversion, try_catch, bind; cbn [emit fst snd app].
    rewrite Hhttp; cbn [await fst snd app].
    destruct Hbody as [-> | [H2xx [Hdata | Hdata]]].
    - destruct (is_2xx statusCode); cbn; now eexists.
    - rewrite H2xx; cbn [await fst snd app]. rewrite Hdata. cbn. now eexists.
    - rewrite H2xx; cbn [await fst snd app]. rewrite Hdata. cbn. now eexists. }
  split; [exact Hauto|]. destruct Hauto as [message Hauto].
  unfold timerCallback. rewrite Hauto. split; [reflexivity|].
  intros conversion_id [H|[H|[]]]; discriminate H.
Qed.

Lemma X8_conversion_answer_without_data_witness :
  exists message,
    autoTrackConversion SampleFaults.blind "abc123" 5
      = ([HttpSend (conversionRequest (process_env SampleFaults.blind) "abc123" 5);
          Log Err (ErrorParsingConversionResponse (TypeError message))],
         Throws (TypeError message)).
Proof.
  destruct (X8_conversion_answer_without_data SampleFaults.blind "abc123" 5
              (Some 200) (JObj [])) as (Hauto & _).
  - reflexivity.
  - right. split; [reflexivity | now left].
  - exact Hauto.
Defined.

(** ** The controller: who may, what is deleted, how it replies *)

Module Replies.
Import urlController.

Lemma sent_app (t1 t2 : list Event) : sent (t1 ++ t2) = sent t1 ++ sent t2.
Proof. apply flat_map_app. Qed.

Lemma softDeletes_app (t1 t2 : list Event) :
  softDeletes (t1 ++ t2) = softDeletes t1 ++ softDeletes t2.
Proof. apply flat_map_app. Qed.

Lemma bind_silent {A B} (m : M A) (k : A -> M B) :
  silent m -> (forall a, silent (k a)) -> silent (bind m k).
Proof.
  unfold silent, bind. intros Hm Hk.
  destruct (snd m) as [a|e]; cbn [fst]; [|exact Hm].
  now rewrite sent_app, Hm, Hk.
Qed.

Lemma bind_once {A B} (m : M A) (k : A -> M B) :
  silent m -> (forall a, repliesOnce (k a)) -> repliesOnce (bind m k).
Proof.
  unfold silent, repliesOnce, bind. intros Hm Hk.
  destruct (snd m) as [a|e]; cbn [fst snd]; [|exact Hm].
  rewrite sent_app, Hm. apply Hk.
Qed.

Lemma await_silent {A} (r : result A) : silent (await r).
Proof. reflexivity. Qed.

Lemma ret_silent {A} (a : A) : silent (ret a).
Proof. reflexivity. Qed.

Lemma log_silent lvl msg : silent (log lvl msg).
Proof. reflexivity. Qed.

Lemma delete_silent u : silent (emit (SoftDelete u)).
Proof. reflexivity. Qed.

Lemma throw_once {A} (e : exn) : repliesOnce (@throw A e).
Proof. reflexivity. Qed.

Lemma sendResponse_once status message data :
  repliesOnce (sendResponse status message data).
Proof. reflexivity. Qed.

Lemma formatClicks_silent rt clicks : silent (formatClicks rt clicks).
Proof.
  induction clicks as [|click clicks IH]; [reflexivity|].
  cbn [formatClicks]. apply bind_silent; [apply await_silent|]. intros timestamp.
  apply bind_silent; [exact IH|]. intros formatted. apply ret_silent.
Qed.

Lemma failed_once doing todo e :
  length (sent (fst (failed doing todo e))) = 1%nat /\
  snd (failed doing todo e) = Returns tt.
Proof. destruct e; split; reflexivity. Qed.

(** A handler whose body replies once unless it throws, and whose
    [catch] replies once, replies once. *)
Lemma try_catch_once (body : M unit) (handler : exn -> M unit) :
  repliesOnce body ->
  (forall e, length (sent (fst (handler e))) = 1%nat /\ snd (handler e) = Returns tt) ->
  length (sent (trace (try_catch body handler))) = 1%nat /\
  snd (try_catch body handler) = Returns tt.
Proof.
  unfold repliesOnce, try_catch, trace. intros Hbody Hhandler.
  destruct (snd body) as [[]|e]; cbn [fst snd]; [now split|].
  rewrite sent_app, Hbody. apply Hhandler.
Qed.

End Replies.

(** X9: each of [getUrlDetails], [deleteUrl] and [getUrlAnalytics] sends
    exactly one reply and returns, for every request and whatever the
    models and the runtime do: an early reply ends the handler, and an
    exception from any step is turned into one error reply. *)
Theorem X9_one_reply m rt req :
  (length (sent (trace (urlController.getUrlDetails m rt req))) = 1%nat /\
   snd (urlController.getUrlDetails m rt req) = Returns tt) /\
  (length (sent (trace (urlController.deleteUrl m rt req))) = 1%nat /\
   snd (urlController.deleteUrl m rt req) = Returns tt) /\
  (length (sent (trace (urlController.getUrlAnalytics m rt req))) = 1%nat /\
   snd (urlController.getUrlAnalytics m rt req) = Returns tt).
Proof.
  split; [|split].
  - apply Replies.try_catch_once; [|intros e; apply Replies.failed_once].
    repeat first
      [ apply Replies.sendResponse_once | apply Replies.throw_once
      | apply Replies.await_silent | apply Replies.ret_silent | apply Replies.log_silent
      | apply Replies.delete_silent | apply Replies.formatClicks_silent
      | apply Replies.bind_silent; [|intros ?]
      | apply Replies.bind_once; [|intros ?]
      | progress cbv zeta
      | match goal with
        | |- repliesOnce (match ?x with _ => _ end) => destruct x
        | |- repliesOnce (if ?x then _ else _) => destruct x
        | |- silent (match ?x with _ => _ end) => destruct x
        end ].
  - apply Replies.try_catch_once; [|intros e; apply Replies.failed_once].
    repeat first
      [ apply Replies.sendResponse_once | apply Replies.throw_once
      | apply Replies.await_silent | apply Replies.ret_silent | apply Replies.log_silent
      | apply Replies.delete_silent | apply Replies.formatClicks_silent
      | apply Replies.bind_silent; [|intros ?]
      | apply Replies.bind_once; [|intros ?]
      | progress cbv zeta
      | match goal with
        | |- repliesOnce (match ?x with _ => _ end) => destruct x
        | |- repliesOnce (if ?x then _ else _) => destruct x
        | |- silent (match ?x with _ => _ end) => destruct x
        end ].
  - apply Replies.try_catch_once.
    + repeat first
        [ apply Replies.sendResponse_once | apply Replies.throw_once
        | apply Replies.await_silent | apply Replies.ret_silent | apply Replies.log_silent
        | apply Replies.delete_silent | apply Replies.formatClicks_silent
        | apply Replies.bind_silent; [|intros ?]
        | apply Replies.bind_once; [|intros ?]
        | progress cbv zeta
        | match goal with
          | |- repliesOnce (match ?x with _ => _ end) => destruct x
          | |- repliesOnce (if ?x then _ else _) => destruct x
          | |- silent (match ?x with _ => _ end) => destruct x
          end ].
    + intros [msg|msg|v]; try apply Replies.failed_once;
        destruct (String.eqb msg "URL not found");
        try apply Replies.failed_once; split; reflexivity.
Qed.

Lemma owned_by_other_spec url userId :
  urlController.owned_by_other url userId = true <->
  exists owner, user_id url = Some owner /\ owner <> 0 /\ userId <> JNum owner.
Proof.
  unfold urlController.owned_by_other. destruct (user_id url) as [owner|].
  - rewrite andb_true_iff, !negb_true_iff, Z.eqb_neq. split.
    + intros [Hnz Hne]. exists owner. repeat split; [assumption|].
      intros ->. now rewrite Z.eqb_refl in Hne.
    + intros (o & [= <-] & Hnz & Hne). split; [assumption|].
      destruct userId as [| | |n| | |]; try reflexivity.
      apply Z.eqb_neq. congruence.
  - split; [discriminate | now intros (o & H & _)].
Qed.

(** X10: for a link that has an owner (a non-zero [user_id]), a caller
    whose token carries another user id, or an id that is not that number
    (the same digits as a string, say), gets the reply 401 "Unauthorized"
    from [getUrlDetails], [deleteUrl] and [getUrlAnalytics] and nothing
    else happens: no soft delete, no log line; the owner is never answered
    401. *)
Theorem X10_owner_only m rt req url owner :
  user_id url = Some owner ->
  owner <> 0 ->
  (urlController.body_id req <> JNum owner ->
   (urlController.lookup m rt req = Returns (Some url) ->
    urlController.getUrlDetails m rt req = ([Send 401 "Unauthorized" None], Returns tt)) /\
   (forall urlId,
      urlController.parseInt rt (urlController.param req) = Some urlId ->
      urlController.getUrlById m urlId false = Returns (Some url) ->
      urlController.deleteUrl m rt req = ([Send 401 "Unauthorized" None], Returns tt) /\
      urlController.getUrlAnalytics m rt req
        = ([Send 401 "Unauthorized" None], Returns tt))) /\
  (urlController.body_id req = JNum owner ->
   (urlController.lookup m rt req = Returns (Some url) ->
    urlController.unauthorized (trace (urlController.getUrlDetails m rt req)) = false) /\
   (forall urlId,
      urlController.parseInt rt (urlController.param req) = Some urlId ->
      urlController.getUrlById m urlId false = Returns (Some url) ->
      urlController.unauthorized (trace (urlController.deleteUrl m rt req)) = false /\
      softDeletes (trace (urlController.deleteUrl m rt req)) = [urlId] /\
      urlController.unauthorized (trace (urlController.getUrlAnalytics m rt req)) = false)).
Proof.
  intros Howner Hnz. split.
  - intros Hother.
    assert (Hcheck : urlController.owned_by_other url (urlController.body_id req) = true)
      by (apply owned_by_other_spec; now exists owner).
    split.
    + unfold urlController.lookup, urlController.getUrlDetails. intros Hlookup.
      now rewrite Hlookup, bind_await, Hcheck.
    + intros urlId Hparse Hfound.
      unfold urlController.deleteUrl, urlController.getUrlAnalytics.
      now rewrite Hparse, Hfound, !bind_await, Hcheck.
  - intros Hself.
    assert (Hcheck : urlController.owned_by_other url (urlController.body_id req) = false).
    { unfold urlController.owned_by_other. rewrite Howner, Hself, Z.eqb_refl.
      apply andb_false_r. }
    split.
    + unfold urlController.lookup. intros Hlookup.
      change (urlController.authorized (urlController.getUrlDetails m rt req)).
      unfold urlController.getUrlDetails. rewrite Hlookup, bind_await, Hcheck.
      repeat first
        [ apply Authorized.await_ok | apply Authorized.ret_ok | apply Authorized.throw_ok
        | apply Authorized.log_ok | apply Authorized.failed_ok
        | apply Authorized.formatClicks_ok
        | apply Authorized.sendResponse_ok; discriminate
        | apply Authorized.emit_ok; discriminate
        | apply Authorized.try_catch_ok; [|intros ?]
        | apply Authorized.bind_ok; [|intros ?]
        | match goal with
          | |- urlController.authorized (match ?x with _ => _ end) => destruct x
          | |- urlController.authorized (if ?x then _ else _) => destruct x
          end ].
    + intros urlId Hparse Hfound. split; [|split].
      * change (urlController.authorized (urlController.deleteUrl m rt req)).
        unfold urlController.deleteUrl. rewrite Hparse, Hfound, bind_await, Hcheck.
        repeat first
          [ apply Authorized.await_ok | apply Authorized.ret_ok | apply Authorized.throw_ok
          | apply Authorized.log_ok | apply Authorized.failed_ok
          | apply Authorized.sendResponse_ok; discriminate
          | apply Authorized.emit_ok; discriminate
          | apply Authorized.try_catch_ok; [|intros ?]
          | apply Authorized.bind_ok; [|intros ?]
          | match goal with
            | |- urlController.authorized (match ?x with _ => _ end) => destruct x
            | |- urlController.authorized (if ?x then _ else _) => destruct x
            end ].
      * unfold urlController.deleteUrl. rewrite Hparse, Hfound, bind_await, Hcheck.
        unfold trace, try_catch. rewrite bind_emit. cbn [fst snd].
        unfold bind; cbn [await fst snd app].
        destruct (urlController.deleteUrl_model m urlId) as [[|]|e]; cbn [negb fst snd app];
          try (destruct e; reflexivity); try reflexivity.
        destruct (urlController.getUrlById m urlId true) as [[deleted|]|e];
          cbn [fst snd app]; try (destruct e; reflexivity); try reflexivity.
        destruct (urlController.toISOString rt _) as [iso|e]; cbn [fst snd app];
          try (destruct e; reflexivity); reflexivity.
      * change (urlController.authorized (urlController.getUrlAnalytics m rt req)).
        unfold urlController.getUrlAnalytics. rewrite Hparse, Hfound, bind_await, Hcheck.
        repeat first
          [ apply Authorized.await_ok | apply Authorized.ret_ok | apply Authorized.throw_ok
          | apply Authorized.log_ok | apply Authorized.failed_ok
          | apply Authorized.sendResponse_ok; discriminate
          | apply Authorized.emit_ok; discriminate
          | apply Authorized.try_catch_ok; [|intros ?]
          | apply Authorized.bind_ok; [|intros ?]
          | match goal with
            | |- urlController.authorized (match ?x with _ => _ end) => destruct x
            | |- urlController.authorized (if ?x then _ else _) => destruct x
            end ].
Qed.

Lemma X10_owner_only_witness :
  urlController.deleteUrl SampleApi.models SampleApi.runtime (SampleApi.call 1 "50")
    = ([Send 401 "Unauthorized" None], Returns tt) /\
  softDeletes (trace (urlController.deleteUrl SampleApi.models SampleApi.runtime
                        (SampleApi.call 9 "50"))) = [50].
Proof.
  split.
  - destruct (X10_owner_only SampleApi.models SampleApi.runtime (SampleApi.call 1 "50")
                SampleApi.owned 9) as [Hother _]; [reflexivity | discriminate |].
    destruct Hother as [_ Hrest]; [discriminate|].
    now destruct (Hrest 50 eq_refl eq_refl).
  - destruct (X10_owner_only SampleApi.models SampleApi.runtime (SampleApi.call 9 "50")
                SampleApi.owned 9) as [_ Hself]; [reflexivity | discriminate |].
    destruct Hself as [_ Hrest]; [reflexivity|].
    now destruct (Hrest 50 eq_refl eq_refl) as (_ & Hdel & _).
Defined.

Module Every.
Import urlController.

Section Test.
Variable P : Event -> bool.

Lemma bind_all {A B} (m : M A) (k : A -> M B) :
  allEvents P m -> (forall a, allEvents P (k a)) -> allEvents P (bind m k).
Proof.
  unfold allEvents, bind. intros Hm Hk.
  destruct (snd m) as [a|e]; cbn [fst]; [|exact Hm].
  rewrite forallb_app, Hm. apply Hk.
Qed.

Lemma try_catch_all {A} (body : M A) (handler : exn -> M A) :
  allEvents P body -> (forall e, allEvents P (handler e)) ->
  allEvents P (try_catch body handler).
Proof.
  unfold allEvents, try_catch. intros Hm Hk.
  destruct (snd body) as [a|e]; cbn [fst]; [exact Hm|].
  rewrite forallb_app, Hm. apply Hk.
Qed.

Lemma await_all {A} (r : result A) : allEvents P (await r).
Proof. reflexivity. Qed.

Lemma ret_all {A} (a : A) : allEvents P (ret a).
Proof. reflexivity. Qed.

Lemma throw_all {A} (e : exn) : allEvents P (@throw A e).
Proof. reflexivity. Qed.

Lemma emit_all ev : P ev = true -> allEvents P (emit ev).
Proof. unfold allEvents. cbn. now intros ->. Qed.

Lemma formatClicks_all rt clicks : allEvents P (formatClicks rt clicks).
Proof.
  induction clicks as [|click clicks IH]; [reflexivity|].
  cbn [formatClicks]. apply bind_all; [apply await_all|]. intros timestamp.
  apply bind_all; [exact IH|]. intros formatted. apply ret_all.
Qed.

End Test.

Lemma failed_keeps doing todo e : allEvents notSoftDelete (failed doing todo e).
Proof. destruct e; reflexivity. Qed.

Lemma none_deleted (t : list Event) : forallb notSoftDelete t = true -> softDeletes t = [].
Proof.
  induction t as [|ev t IH]; [reflexivity|].
  cbn [forallb]. rewrite andb_true_iff. intros [Hev Ht].
  destruct ev; try discriminate Hev; cbn; now apply IH.
Qed.

End Every.

Lemma deleteUrl_deletes m rt req urlId url :
  urlController.parseInt rt (urlController.param req) = Some urlId ->
  urlController.getUrlById m urlId false = Returns (Some url) ->
  urlController.owned_by_other url (urlController.body_id req) = false ->
  softDeletes (trace (urlController.deleteUrl m rt req)) = [urlId].
Proof.
  intros Hparse Hfound Hcheck.
  unfold urlController.deleteUrl. rewrite Hparse, Hfound, bind_await, Hcheck.
  unfold trace, try_catch. rewrite bind_emit. cbn [fst snd].
  unfold bind; cbn [await fst snd app].
  destruct (urlController.deleteUrl_model m urlId) as [[|]|e]; cbn [negb fst snd app];
    try (destruct e; reflexivity); try reflexivity.
  destruct (urlController.getUrlById m urlId true) as [[deleted|]|e];
    cbn [fst snd app]; try (destruct e; reflexivity); try reflexivity.
  destruct (urlController.toISOString rt _) as [iso|e]; cbn [fst snd app];
    try (destruct e; reflexivity); reflexivity.
Qed.

(** X11: the soft delete is only ever called by [deleteUrl], at most
    once, and only for the id in the route, after that id has parsed, the
    link has been found and the caller has passed the ownership check;
    [getUrlDetails] and [getUrlAnalytics] never delete. *)
Theorem X11_delete_is_guarded m rt req :
  softDeletes (trace (urlController.getUrlDetails m rt req)) = [] /\
  softDeletes (trace (urlController.getUrlAnalytics m rt req)) = [] /\
  (length (softDeletes (trace (urlController.deleteUrl m rt req))) <= 1)%nat /\
  forall u,
    In u (softDeletes (trace (urlController.deleteUrl m rt req))) ->
    urlController.parseInt rt (urlController.param req) = Some u /\
    exists url,
      urlController.getUrlById m u false = Returns (Some url) /\
      ~ (exists owner, user_id url = Some owner /\ owner <> 0 /\
                       urlController.body_id req <> JNum owner).
Proof.
  split; [|split].
  - apply Every.none_deleted.
    change (allEvents notSoftDelete (urlController.getUrlDetails m rt req)).
    apply Every.try_catch_all; [|intros e; apply Every.failed_keeps].
    repeat first
      [ apply Every.await_all | apply Every.ret_all | apply Every.throw_all
      | apply Every.formatClicks_all | apply Every.emit_all; reflexivity
      | apply Every.bind_all; [|intros ?]
      | progress cbv zeta
      | match goal with
        | |- allEvents _ (match ?x with _ => _ end) => destruct x
        | |- allEvents _ (if ?x then _ else _) => destruct x
        end ].
  - apply Every.none_deleted.
    change (allEvents notSoftDelete (urlController.getUrlAnalytics m rt req)).
    apply Every.try_catch_all.
    + repeat first
        [ apply Every.await_all | apply Every.ret_all | apply Every.throw_all
        | apply Every.emit_all; reflexivity
        | apply Every.bind_all; [|intros ?]
        | progress cbv zeta
        | match goal with
          | |- allEvents _ (match ?x with _ => _ end) => destruct x
          | |- allEvents _ (if ?x then _ else _) => destruct x
          end ].
    + intros [msg|msg|v]; try apply Every.failed_keeps;
        destruct (String.eqb msg "URL not found"); try apply Every.failed_keeps; reflexivity.
  - assert (Hcases :
      softDeletes (trace (urlController.deleteUrl m rt req)) = [] \/
      exists u url,
        urlController.parseInt rt (urlController.param req) = Some u /\
        urlController.getUrlById m u false = Returns (Some url) /\
        urlController.owned_by_other url (urlController.body_id req) = false /\
        softDeletes (trace (urlController.deleteUrl m rt req)) = [u]).
    { destruct (urlController.parseInt rt (urlController.param req)) as [u|] eqn:Hparse.
      - destruct (urlController.getUrlById m u false) as [[url|]|e] eqn:Hfound.
        + destruct (urlController.owned_by_other url (urlController.body_id req)) eqn:Hcheck.
          * left. unfold urlController.deleteUrl.
            now rewrite Hparse, Hfound, bind_await, Hcheck.
          * right. exists u, url. repeat split; try assumption.
            now apply (deleteUrl_deletes m rt req u url).
        + left. unfold urlController.deleteUrl. now rewrite Hparse, Hfound, bind_await.
        + left. unfold urlController.deleteUrl. rewrite Hparse, Hfound.
          now destruct e.
      - left. unfold urlController.deleteUrl. now rewrite Hparse. }
    destruct Hcases as [-> | (u & url & Hparse & Hfound & Hcheck & ->)].
    + split; [cbn; lia | intros u []].
    + split; [cbn; lia|]. intros u' [<- | []]. split; [assumption|].
      exists url. split; [assumption|]. intros Hother.
      apply owned_by_other_spec in Hother. congruence.
Qed.

Lemma X11_delete_is_guarded_witness :
  urlController.parseInt SampleApi.runtime (urlController.param (SampleApi.call 9 "50"))
    = Some 50 /\
  exists url,
    urlController.getUrlById SampleApi.models 50 false = Returns (Some url) /\
    ~ (exists owner, user_id url = Some owner /\ owner <> 0 /\
                     urlController.body_id (SampleApi.call 9 "50") <> JNum owner).
Proof.
  destruct (X11_delete_is_guarded SampleApi.models SampleApi.runtime (SampleApi.call 9 "50"))
    as (_ & _ & _ & Hguard).
  apply (Hguard 50). now left.
Defined.

(** X12: the error replies of [deleteUrl]: 400 "Invalid URL ID" when the
    route parameter is not a number and 404 "URL not found" when there is
    no such link, both before anything is deleted; 500 "Failed to delete
    URL" when the model reports that it deleted nothing; and when the
    deleted row cannot be read back the reply is 400 "Invalid request
    format" although the soft delete has been done. *)
Theorem X12_delete_replies m rt req :
  (urlController.parseInt rt (urlController.param req) = None ->
   urlController.deleteUrl m rt req = ([Send 400 "Invalid URL ID" None], Returns tt)) /\
  (forall urlId,
     urlController.parseInt rt (urlController.param req) = Some urlId ->
     (urlController.getUrlById m urlId false = Returns None ->
      urlController.deleteUrl m rt req = ([Send 404 "URL not found" None], Returns tt)) /\
     (forall url,
        urlController.getUrlById m urlId false = Returns (Some url) ->
        urlController.owned_by_other url (urlController.body_id req) = false ->
        (urlController.deleteUrl_model m urlId = Returns false ->
         urlController.deleteUrl m rt req
           = ([SoftDelete urlId; Send 500 "Failed to delete URL" None], Returns tt)) /\
        (urlController.deleteUrl_model m urlId = Returns true ->
         urlController.getUrlById m urlId true = Returns None ->
         exists e,
           urlController.deleteUrl m rt req
             = ([SoftDelete urlId;
                 Log Err (UrlError "Type error while deleting URL" e);
                 Send 400 "Invalid request format" None], Returns tt)))).
Proof.
  split.
  - intros Hparse. unfold urlController.deleteUrl. now rewrite Hparse.
  - intros urlId Hparse. split.
    + intros Hfound. unfold urlController.deleteUrl.
      now rewrite Hparse, Hfound, bind_await.
    + intros url Hfound Hcheck. split.
      * intros Hdel. unfold urlController.deleteUrl.
        now rewrite Hparse, Hfound, bind_await, Hcheck, bind_emit, Hdel, bind_await.
      * intros Hdel Hread. eexists. unfold urlController.deleteUrl.
        rewrite Hparse, Hfound, bind_await, Hcheck, bind_emit, Hdel, bind_await.
        cbn [negb]. rewrite Hread, bind_await. reflexivity.
Qed.

Lemma X12_delete_replies_witness :
  urlController.deleteUrl SampleApi.models SampleApi.runtime (SampleApi.call 1 "abc")
    = ([Send 400 "Invalid URL ID" None], Returns tt).
Proof.
  destruct (X12_delete_replies SampleApi.models SampleApi.runtime (SampleApi.call 1 "abc"))
    as [Hnan _].
  now apply Hnan.
Defined.

(** X13: when the analytics service throws after the checks of
    [getUrlAnalytics] have passed, an error whose message is "URL not
    found" is answered 404 "URL not found"; any other type error 400
    "Invalid request format", any other error 500 "Internal Server Error",
    and a thrown value that is no error 500 "Internal server error". *)
Theorem X13_analytics_error_replies m rt req urlId url e :
  urlController.parseInt rt (urlController.param req) = Some urlId ->
  urlController.getUrlById m urlId false = Returns (Some url) ->
  urlController.owned_by_other url (urlController.body_id req) = false ->
  urlController.getUrlAnalyticsWithFilters m urlId (urlController.analyticsOptions req)
    = Throws e ->
  sent (trace (urlController.getUrlAnalytics m rt req))
    = [ match e with
        | TypeError message =>
            if String.eqb message "URL not found" then (404, "URL not found"%string, None)
            else (400, "Invalid request format"%string, None)
        | Error message =>
            if String.eqb message "URL not found" then (404, "URL not found"%string, None)
            else (500, "Internal Server Error"%string, None)
        | NonError _ => (500, "Internal server error"%string, None)
        end ].
Proof.
  intros Hparse Hfound Hcheck Hthrow. unfold urlController.getUrlAnalytics.
  rewrite Hparse, Hfound, bind_await, Hcheck. cbv zeta. rewrite Hthrow.
  destruct e as [message|message|v]; cbn;
    try destruct (String.eqb message "URL not found"); reflexivity.
Qed.

Lemma X13_analytics_error_replies_witness :
  sent (trace (urlController.getUrlAnalytics SampleGone.models SampleApi.runtime
                 (SampleApi.call 9 "50")))
    = [(404, "URL not found"%string, None)].
Proof.
  apply (X13_analytics_error_replies SampleGone.models SampleApi.runtime
           (SampleApi.call 9 "50") 50 SampleApi.owned (Error "URL not found"));
    reflexivity.
Defined.

(** ** Listing: pages and order *)

Module Pages.
Import Api.

Lemma firstn_plus {A} (a b : nat) (l : list A) :
  firstn (a + b) l = firstn a l ++ firstn b (skipn a l).
Proof.
  revert l; induction a as [|a IH]; intros l; [reflexivity|].
  destruct l as [|x l]; [now destruct b|].
  cbn. now rewrite IH.
Qed.

(** A page, for a page number and a page size of at least one: [limit]
    elements after the first [(p - 1) * limit]. *)
Lemma pageOf_firstn {A} (p limit : Z) (l : list A) :
  1 <= p -> 1 <= limit ->
  pageOf p limit l
    = firstn (Z.to_nat limit) (skipn (Z.to_nat ((p - 1) * limit)) l).
Proof.
  intros Hp Hlimit. unfold pageOf, slice, relative.
  destruct (Z.ltb_spec ((p - 1) * limit) 0) as [Hneg|_]; [nia|].
  destruct (Z.ltb_spec ((p - 1) * limit + limit) 0) as [Hneg|_]; [nia|].
  rewrite Z2Nat.inj_add by nia.
  set (n := Z.to_nat ((p - 1) * limit)). set (L := Z.to_nat limit).
  destruct (Nat.le_gt_cases (length l) n) as [Hout|Hin].
  - rewrite (Nat.min_r n) by assumption. rewrite (Nat.min_r (n + L)) by lia.
    rewrite Nat.sub_diag, (skipn_all2 (n := n)) by assumption.
    now rewrite firstn_nil.
  - rewrite (Nat.min_l n) by lia.
    destruct (Nat.le_gt_cases (n + L) (length l)) as [Hfull|Hshort].
    + rewrite Nat.min_l by assumption. f_equal. lia.
    + rewrite Nat.min_r by lia.
      rewrite (firstn_all2 (n := L)) by (rewrite length_skipn; lia).
      apply firstn_all2. rewrite length_skipn. lia.
Qed.

Lemma chunks {A} (L : nat) (l : list A) (N : nat) :
  flat_map (fun i => firstn L (skipn (i * L) l)) (seq 0 N) = firstn (N * L) l.
Proof.
  induction N as [|N IH]; [reflexivity|].
  rewrite seq_S, flat_map_app, IH. cbn [flat_map]. rewrite app_nil_r.
  replace (S N * L)%nat with (N * L + L)%nat by lia.
  now rewrite firstn_plus.
Qed.

Lemma ceil_div_covers (x y : Z) : 0 < y -> x <= ceil_div x y * y.
Proof.
  intros Hy. unfold ceil_div.
  pose proof (Z.mul_div_le (- x) y Hy). nia.
Qed.

Lemma ceil_div_nonneg (x y : Z) : 0 < y -> 0 <= x -> 0 <= ceil_div x y.
Proof.
  intros Hy Hx. unfold ceil_div.
  assert ((- x) / y <= 0) by (apply Z.div_le_upper_bound; lia). lia.
Qed.

Lemma ceil_div_least (x y : Z) : 0 < y -> 0 < x -> (ceil_div x y - 1) * y < x.
Proof.
  intros Hy Hx. unfold ceil_div.
  pose proof (Z.mul_succ_div_gt (- x) y Hy). nia.
Qed.

(** Sorting keeps the elements. *)
Lemma insert_perm {A} (compare : A -> A -> number) (x : A) (l : list A) :
  Permutation (insert compare x l) (x :: l).
Proof.
  induction l as [|y l IH]; cbn [insert]; [reflexivity|].
  destruct (notAfter (compare x y)); [reflexivity|].
  rewrite IH. apply perm_swap.
Qed.

Lemma sort_perm {A} (compare : A -> A -> number) (l : list A) :
  Permutation (sort compare l) l.
Proof.
  induction l as [|x l IH]; cbn [sort]; [reflexivity|].
  rewrite insert_perm. now constructor.
Qed.

Section Ordered.
Context {A : Type} (compare : A -> A -> number).

Let le (a b : A) : Prop := notAfter (compare a b) = true.

Hypothesis total : forall a b, le a b \/ le b a.
Hypothesis transitive : forall a b c, le a b -> le b c -> le a c.

Lemma insert_sorted (x : A) (l : list A) :
  StronglySorted le l -> StronglySorted le (insert compare x l).
Proof.
  induction 1 as [|y l Hl IH Hy]; cbn [insert]; [repeat constructor|].
  destruct (notAfter (compare x y)) eqn:Hxy.
  - constructor; [now constructor|]. constructor; [exact Hxy|].
    eapply Forall_impl; [|exact Hy]. intros z Hz. now apply (transitive x y z).
  - constructor; [exact IH|].
    assert (Hyx : le y x) by (destruct (total x y) as [H|H]; [unfold le in H; congruence | exact H]).
    eapply Permutation_Forall; [symmetry; apply insert_perm|].
    now constructor.
Qed.

Lemma sort_sorted (l : list A) : StronglySorted le (sort compare l).
Proof.
  induction l as [|x l IH]; cbn [sort]; [constructor | now apply insert_sorted].
Qed.

End Ordered.

End Pages.

(** X14: the listing is cut into pages that lose and repeat nothing: for
    a page size of at least one, every page holds at most [limit] links,
    the pages 1 to [total_pages] (the ceiling of the number of links over
    [limit]) put one after the other are the whole list in its order, the
    last of them is not empty, and every later page is empty. *)
Theorem X14_pages_partition {A} (limit : Z) (l : list A) :
  1 <= limit ->
  (forall p, 1 <= p -> (length (Api.pageOf p limit l) <= Z.to_nat limit)%nat) /\
  flat_map (fun p => Api.pageOf (Z.of_nat p) limit l)
           (seq 1 (Z.to_nat (Api.ceil_div (Z.of_nat (length l)) limit))) = l /\
  (l <> [] ->
   Api.pageOf (Api.ceil_div (Z.of_nat (length l)) limit) limit l <> []) /\
  (forall p, Api.ceil_div (Z.of_nat (length l)) limit < p -> Api.pageOf p limit l = []).
Proof.
  intros Hlimit.
  pose proof (Pages.ceil_div_covers (Z.of_nat (length l)) limit ltac:(lia)) as Hcover.
  pose proof (Pages.ceil_div_nonneg (Z.of_nat (length l)) limit ltac:(lia) ltac:(lia))
    as Hnonneg.
  set (N := Api.ceil_div (Z.of_nat (length l)) limit) in *.
  split; [|split; [|split]].
  - intros p Hp. rewrite Pages.pageOf_firstn by assumption.
    rewrite length_firstn. lia.
  - rewrite <- seq_shift, flat_map_concat_map, map_map, <- flat_map_concat_map.
    erewrite flat_map_ext.
    + rewrite (Pages.chunks (Z.to_nat limit) l (Z.to_nat N)).
      apply firstn_all2. nia.
    + intros i. rewrite Pages.pageOf_firstn by lia. do 2 f_equal. nia.
  - intros Hl.
    assert (Hlen : 0 < Z.of_nat (length l)) by (destruct l; [congruence | cbn; lia]).
    pose proof (Pages.ceil_div_least (Z.of_nat (length l)) limit ltac:(lia) Hlen) as Hleast.
    fold N in Hleast.
    rewrite Pages.pageOf_firstn by nia.
    intros Hempty. apply (f_equal (@length A)) in Hempty.
    rewrite length_firstn, length_skipn in Hempty. cbn in Hempty. nia.
  - intros p Hp. rewrite Pages.pageOf_firstn by lia.
    rewrite skipn_all2 by nia. apply firstn_nil.
Qed.

Lemma X14_pages_partition_witness :
  flat_map (fun p => Api.pageOf (Z.of_nat p) 2 [10; 20; 30; 40; 50])
           (seq 1 (Z.to_nat (Api.ceil_div (Z.of_nat (length [10; 20; 30; 40; 50])) 2)))
    = [10; 20; 30; 40; 50] /\
  Api.pageOf 4 2 [10; 20; 30; 40; 50] = [].
Proof.
  destruct (X14_pages_partition 2 [10; 20; 30; 40; 50]) as (_ & Hall & _ & Hlate); [lia|].
  split; [exact Hall | apply Hlate; vm_compute; reflexivity].
Defined.

(** X15: sorting the listing keeps every link exactly once, whatever the
    sort field and order; sorted by clicks the links come with
    non-increasing click counts, unless [sortOrder] is exactly ["asc"],
    when they come with non-decreasing ones. *)
Theorem X15_listing_order rt (sortBy sortOrder : json) (rows : list Api.UrlWithClicks) :
  Permutation (Api.sort (Api.comparator rt sortBy sortOrder) rows) rows /\
  (Api.is_text sortOrder "asc" = false ->
   StronglySorted (fun a b => Api.w_clicks b <= Api.w_clicks a)
                  (Api.sort (Api.comparator rt (JStr "clicks") sortOrder) rows)) /\
  (sortOrder = JStr "asc" ->
   StronglySorted (fun a b => Api.w_clicks a <= Api.w_clicks b)
                  (Api.sort (Api.comparator rt (JStr "clicks") sortOrder) rows)).
Proof.
  split; [apply Pages.sort_perm|]. split.
  - intros Horder.
    eapply StronglySorted_ind with
      (P := fun l => StronglySorted (fun a b => Api.w_clicks b <= Api.w_clicks a) l);
      [constructor | | apply (Pages.sort_sorted (Api.comparator rt (JStr "clicks") sortOrder))].
    + intros a l _ IH Ha. constructor; [exact IH|].
      eapply Forall_impl; [|exact Ha]. intros b.
      unfold Api.comparator. rewrite Horder. cbn. intros H. apply Z.leb_le in H. lia.
    + intros a b. unfold Api.comparator. rewrite Horder. cbn. rewrite !Z.leb_le. lia.
    + intros a b c. unfold Api.comparator. rewrite Horder. cbn. rewrite !Z.leb_le. lia.
  - intros ->.
    eapply StronglySorted_ind with
      (P := fun l => StronglySorted (fun a b => Api.w_clicks a <= Api.w_clicks b) l);
      [constructor | | apply (Pages.sort_sorted (Api.comparator rt (JStr "clicks") (JStr "asc")))].
    + intros a l _ IH Ha. constructor; [exact IH|].
      eapply Forall_impl; [|exact Ha]. intros b.
      unfold Api.comparator. cbn. intros H. apply Z.leb_le in H. lia.
    + intros a b. unfold Api.comparator. cbn. rewrite !Z.leb_le. lia.
    + intros a b c. unfold Api.comparator. cbn. rewrite !Z.leb_le. lia.
Qed.

Lemma X15_listing_order_witness :
  StronglySorted (fun a b => Api.w_clicks b <= Api.w_clicks a)
    (Api.sort (Api.comparator SampleList.runtime (JStr "clicks") (JStr "desc"))
              SampleRows.rows) /\
  map Api.w_id (Api.sort (Api.comparator SampleList.runtime (JStr "clicks") (JStr "desc"))
                         SampleRows.rows) = [2; 3; 1].
Proof.
  split; [|reflexivity].
  apply (X15_listing_order SampleList.runtime (JStr "clicks") (JStr "desc") SampleRows.rows).
  reflexivity.
Defined.

(** ** Listing: the handler *)

Lemma api_bind_await {A B} (a : A) (k : A -> Api.T B) :
  Api.bind (Api.await (Returns a)) k = k a.
Proof. unfold Api.bind, Api.await; cbn. now destruct (k a). Qed.

Lemma api_bind_emit {B} (s : Api.Step) (k : unit -> Api.T B) :
  Api.bind (Api.emit s) k = (s :: fst (k tt), snd (k tt)).
Proof. reflexivity. Qed.

Lemma api_bind_ret {A B} (a : A) (k : A -> Api.T B) : Api.bind (Api.ret a) k = k a.
Proof. unfold Api.bind, Api.ret; cbn. now destruct (k a). Qed.

Lemma api_bind_throws {A B} (t : list Api.Step) (e : exn) (k : A -> Api.T B) :
  Api.bind (t, Throws e) k = (t, Throws e).
Proof. reflexivity. Qed.

Lemma api_bind_returns {A B} (t : list Api.Step) (a : A) (k : A -> Api.T B) :
  Api.bind (t, Returns a) k = (t ++ fst (k a), snd (k a)).
Proof. reflexivity. Qed.

Lemma withClicks_ok m rt u :
  (exists c, Api.getClickCountByUrlId m (id u) = Returns c) ->
  (forall ms, exists iso, Api.toISOString rt ms = Returns iso) ->
  exists row,
    Api.withClicks m rt u = ([Api.Called (Api.GetClickCountByUrlId (id u))], Returns row) /\
    Api.w_id row = id u /\
    Api.getClickCountByUrlId m (id u) = Returns (Api.w_clicks row) /\
    Api.w_short_code row = short_code u /\
    Api.w_short_url row = Api.shortUrlOf rt (short_code u) /\
    Api.w_original_url row = original_url u.
Proof.
  intros [c Hc] Hiso. unfold Api.withClicks, Api.bind; cbn [Api.emit Api.await fst snd app].
  rewrite Hc; cbn [fst snd app].
  destruct (Hiso (created_at u)) as [created Hcreated].
  destruct (expiry_date u) as [e|].
  - destruct (Hiso e) as [iso He]. cbn [Api.await Api.ret fst snd app]. rewrite He.
    cbn [fst snd app]. rewrite Hcreated. cbn. eexists. split; [reflexivity|].
    repeat split; try exact Hc.
  - cbn [Api.await Api.ret fst snd app]. rewrite Hcreated. cbn. eexists.
    split; [reflexivity|]. repeat split; try exact Hc.
Qed.

Lemma promise_all_started {A} race (ps : list (Api.T A)) :
  fst (Api.promise_all race ps) = flat_map fst ps.
Proof. reflexivity. Qed.

Lemma promise_all_cons_ok {A} race (t : list Api.Step) (a : A) (ps : list (Api.T A)) rest :
  Api.promise_all race ps = (flat_map fst ps, Returns rest) ->
  Api.promise_all race ((t, Returns a) :: ps) = (t ++ flat_map fst ps, Returns (a :: rest)).
Proof.
  unfold Api.promise_all. cbn [flat_map fst snd Api.rejections Api.values app].
  fold (Api.rejections ps). fold (Api.values ps).
  destruct (Api.rejections ps); [|discriminate].
  now intros [= <-].
Qed.

Lemma rows_of_links m rt urls :
  (forall u, In u urls -> exists c, Api.getClickCountByUrlId m (id u) = Returns c) ->
  (forall ms, exists iso, Api.toISOString rt ms = Returns iso) ->
  exists rows,
    Api.promise_all (Api.race rt) (map (Api.withClicks m rt) urls)
      = (map (fun u => Api.Called (Api.GetClickCountByUrlId (id u))) urls, Returns rows) /\
    Forall2 (fun u row =>
               Api.w_id row = id u /\
               Api.getClickCountByUrlId m (id u) = Returns (Api.w_clicks row) /\
               Api.w_short_code row = short_code u /\
               Api.w_short_url row = Api.shortUrlOf rt (short_code u) /\
               Api.w_original_url row = original_url u) urls rows.
Proof.
  intros Hcounts Hiso. induction urls as [|u urls IH].
  - exists []. split; [reflexivity | constructor].
  - destruct IH as (rows & Hall & Hrows); [intros u' Hu'; apply Hcounts; now right|].
    destruct (withClicks_ok m rt u (Hcounts u (or_introl eq_refl)) Hiso) as (row & Hrun & Hrow).
    exists (row :: rows). split; [|now constructor].
    cbn [map]. rewrite Hrun.
    pose proof (f_equal fst Hall) as Hstarted.
    change (flat_map fst (map (Api.withClicks m rt) urls)
            = map (fun u => Api.Called (Api.GetClickCountByUrlId (id u))) urls) in Hstarted.
    rewrite <- Hstarted in Hall |- *.
    exact (promise_all_cons_ok (Api.race rt)
             [Api.Called (Api.GetClickCountByUrlId (id u))] row _ rows Hall).
Qed.

(** X16: for a user with links, when every click count and date is
    delivered, [getAllUrls] asks for the user's links once and for the
    click count of each, and replies 200 with one page of the sorted rows:
    the page [page] of [limit] rows, where a missing, unreadable or zero
    [page] is 1 and such a [limit] is 10; the pagination object gives the
    number of all links and the ceiling of that number over [limit]. *)
Theorem X16_listing_page m rt req urls :
  json_truthy (Api.userId req) = true ->
  Api.getUrlsByUser m (Api.userId req) = Returns (Some urls) ->
  urls <> [] ->
  (forall u, In u urls -> exists c, Api.getClickCountByUrlId m (id u) = Returns c) ->
  (forall ms, exists iso, Api.toISOString rt ms = Returns iso) ->
  exists rows page limit,
    Forall2 (fun u row =>
               Api.w_id row = id u /\
               Api.getClickCountByUrlId m (id u) = Returns (Api.w_clicks row) /\
               Api.w_short_code row = short_code u /\
               Api.w_short_url row = Api.shortUrlOf rt (short_code u) /\
               Api.w_original_url row = original_url u) urls rows /\
    (forall n, Api.parseInt rt (Api.q_page req) = Api.Int n -> n <> 0 -> page = n) /\
    (Api.parseInt rt (Api.q_page req) = Api.NaN \/
     Api.parseInt rt (Api.q_page req) = Api.Int 0 -> page = 1) /\
    (forall n, Api.parseInt rt (Api.q_limit req) = Api.Int n -> n <> 0 -> limit = n) /\
    (Api.parseInt rt (Api.q_limit req) = Api.NaN \/
     Api.parseInt rt (Api.q_limit req) = Api.Int 0 -> limit = 10) /\
    Api.replies (Api.steps (Api.getAllUrls m rt req))
      = [(200, "Successfully retrieved all URLs"%string,
          Api.Urls (Api.pageOf page limit
                      (Api.sort (Api.comparator rt
                                   (Api.or_text (Api.q_sortBy req) "created_at")
                                   (Api.or_text (Api.q_sortOrder req) "desc"))
                                rows)),
          Some {| Api.total := Z.of_nat (length urls);
                  Api.page := page;
                  Api.limit := limit;
                  Api.total_pages := Api.ceil_div (Z.of_nat (length urls)) limit |})] /\
    Api.calls (Api.steps (Api.getAllUrls m rt req))
      = Api.GetUrlsByUser (Api.userId req)
          :: map (fun u => Api.GetClickCountByUrlId (id u)) urls.
Proof.
  intros Huser Hurls Hsome Hcounts Hiso.
  destruct (rows_of_links m rt urls Hcounts Hiso) as (rows & Hall & Hrows).
  exists rows, (Api.or_default (Api.parseInt rt (Api.q_page req)) 1),
         (Api.or_default (Api.parseInt rt (Api.q_limit req)) 10).
  split; [exact Hrows|].
  split; [intros n -> Hn; cbn; now destruct (Z.eqb_spec n 0)|].
  split; [now intros [-> | ->]|].
  split; [intros n -> Hn; cbn; now destruct (Z.eqb_spec n 0)|].
  split; [now intros [-> | ->]|].
  assert (Hlen : length rows = length urls)
    by (symmetry; eapply Forall2_length; exact Hrows).
  destruct urls as [|u0 urls0]; [congruence|].
  unfold Api.getAllUrls. rewrite Huser. cbn [negb]. cbv zeta.
  rewrite api_bind_emit, Hurls, api_bind_await, Hall, api_bind_returns.
  unfold Api.steps, Api.try_catch, Api.log. rewrite api_bind_emit.
  unfold Api.sendResponse, Api.emit. cbn [fst snd app].
  assert (Hcalled : forall l : list UrlEntity,
            Api.calls (map (fun u => Api.Called (Api.GetClickCountByUrlId (id u))) l)
            = map (fun u => Api.GetClickCountByUrlId (id u)) l)
    by (intros l; induction l as [|x l IH]; [reflexivity | cbn; now f_equal]).
  assert (Hquiet : forall l : list UrlEntity,
            Api.replies (map (fun u => Api.Called (Api.GetClickCountByUrlId (id u))) l) = [])
    by (intros l; induction l as [|x l IH]; [reflexivity | exact IH]).
  change (?x :: ?l ++ ?r) with ([x] ++ l ++ r).
  unfold Api.replies, Api.calls in *. rewrite !flat_map_app, Hquiet, Hcalled.
  split.
  - cbn [flat_map app].
    rewrite (Permutation_length (Pages.sort_perm _ rows)), Hlen. reflexivity.
  - cbn [flat_map app]. now rewrite app_nil_r.
Qed.

Lemma X16_listing_page_witness :
  Api.calls (Api.steps (Api.getAllUrls SampleList.models SampleList.runtime
                          (SampleList.list (JNum 9) (JStr "2") (JStr "2") (JStr "clicks"))))
    = [Api.GetUrlsByUser (JNum 9); Api.GetClickCountByUrlId 1;
       Api.GetClickCountByUrlId 2; Api.GetClickCountByUrlId 3].
Proof.
  destruct (X16_listing_page SampleList.models SampleList.runtime
              (SampleList.list (JNum 9) (JStr "2") (JStr "2") (JStr "clicks"))
              SampleList.mine)
    as (rows & page & limit & _ & _ & _ & _ & _ & _ & Hcalls).
  - reflexivity.
  - reflexivity.
  - discriminate.
  - intros u _. now eexists.
  - intros ms. now eexists.
  - exact Hcalls.
Defined.

(** X17: [getAllUrls] without a user id in the token (absent, null, 0 or
    empty) replies 401 "Unauthorized: No user ID" and asks the model
    nothing; for a user who has no links (the model answers with nothing or
    with an empty list) it replies 204 "No URLs are available" with an
    empty list, no pagination, and asks for no click count. *)
Theorem X17_listing_empty m rt req :
  (json_truthy (Api.userId req) = false ->
   Api.getAllUrls m rt req
     = ([Api.Reply 401 "Unauthorized: No user ID" Api.Absent None], Returns tt)) /\
  (json_truthy (Api.userId req) = true ->
   Api.getUrlsByUser m (Api.userId req) = Returns None \/
   Api.getUrlsByUser m (Api.userId req) = Returns (Some []) ->
   Api.getAllUrls m rt req
     = ([Api.Called (Api.GetUrlsByUser (Api.userId req));
         Api.Reply 204 "No URLs are available" (Api.Urls []) None], Returns tt)).
Proof.
  split.
  - intros Huser. unfold Api.getAllUrls. now rewrite Huser.
  - intros Huser Hnone. unfold Api.getAllUrls. rewrite Huser. cbn [negb]. cbv zeta.
    rewrite api_bind_emit. destruct Hnone as [-> | ->]; now rewrite api_bind_await.
Qed.

Lemma X17_listing_empty_witness :
  Api.getAllUrls SampleList.models SampleList.runtime
    (SampleList.list (JNum 4) JUndefined JUndefined JUndefined)
    = ([Api.Called (Api.GetUrlsByUser (JNum 4));
        Api.Reply 204 "No URLs are available" (Api.Urls []) None], Returns tt).
Proof.
  destruct (X17_listing_empty SampleList.models SampleList.runtime
              (SampleList.list (JNum 4) JUndefined JUndefined JUndefined)) as [_ Hempty].
  apply Hempty; [reflexivity | now right].
Defined.

Lemma withClicks_steps m rt u :
  fst (Api.withClicks m rt u) = [Api.Called (Api.GetClickCountByUrlId (id u))].
Proof.
  unfold Api.withClicks, Api.bind; cbn [Api.emit Api.await fst snd app].
  destruct (Api.getClickCountByUrlId m (id u)) as [c|e]; cbn [fst snd app]; [|reflexivity].
  destruct (expiry_date u) as [x|]; cbn [Api.await Api.ret fst snd app].
  - destruct (Api.toISOString rt x); cbn [fst snd app]; [|reflexivity].
    destruct (Api.toISOString rt (created_at u)); reflexivity.
  - destruct (Api.toISOString rt (created_at u)); reflexivity.
Qed.

Lemma withClicks_all_started m rt urls :
  flat_map fst (map (Api.withClicks m rt) urls)
    = map (fun u => Api.Called (Api.GetClickCountByUrlId (id u))) urls.
Proof.
  induction urls as [|u urls IH]; [reflexivity|].
  cbn [map flat_map]. now rewrite withClicks_steps, IH.
Qed.

(** X18: one click count that cannot be read fails the whole listing:
    the reply is a single error, 400 or 500, that carries no link (no data
    or an empty list) and no pagination, although the count of every link
    has been asked for. *)
Theorem X18_listing_all_or_nothing m rt req urls u e :
  json_truthy (Api.userId req) = true ->
  Api.getUrlsByUser m (Api.userId req) = Returns (Some urls) ->
  In u urls ->
  Api.getClickCountByUrlId m (id u) = Throws e ->
  (exists status message data,
     Api.replies (Api.steps (Api.getAllUrls m rt req)) = [(status, message, data, None)] /\
     (status = 400 \/ status = 500) /\
     (data = Api.Absent \/ data = Api.Urls [])) /\
  Api.calls (Api.steps (Api.getAllUrls m rt req))
    = Api.GetUrlsByUser (Api.userId req)
        :: map (fun u => Api.GetClickCountByUrlId (id u)) urls.
Proof.
  intros Huser Hurls Hin Hthrow.
  assert (Hrej : Api.rejections (map (Api.withClicks m rt) urls) <> []).
  { clear Hurls. induction urls as [|u' urls IH]; [destruct Hin|].
    cbn [map Api.rejections flat_map]. destruct Hin as [-> | Hin].
    - unfold Api.withClicks at 1, Api.bind; cbn [Api.emit Api.await fst snd app].
      rewrite Hthrow. discriminate.
    - intros H. apply app_eq_nil in H as [_ H]. now apply IH. }
  assert (Hcalled : forall l : list UrlEntity,
            Api.calls (map (fun u => Api.Called (Api.GetClickCountByUrlId (id u))) l)
            = map (fun u => Api.GetClickCountByUrlId (id u)) l)
    by (intros l; induction l as [|x l IH]; [reflexivity | cbn; now f_equal]).
  assert (Hquiet : forall l : list UrlEntity,
            Api.replies (map (fun u => Api.Called (Api.GetClickCountByUrlId (id u))) l) = [])
    by (intros l; induction l as [|x l IH]; [reflexivity | exact IH]).
  destruct urls as [|u0 urls0]; [destruct Hin|].
  unfold Api.getAllUrls. rewrite Huser. cbn [negb]. cbv zeta.
  rewrite api_bind_emit, Hurls, api_bind_await.
  unfold Api.promise_all. rewrite withClicks_all_started.
  destruct (Api.rejections (map (Api.withClicks m rt) (u0 :: urls0))) as [|e0 es];
    [congruence|].
  rewrite api_bind_throws. unfold Api.steps, Api.try_catch. cbn [fst snd].
  assert (Hreplies : forall s l r,
            Api.replies
              (s :: map (fun u => Api.Called (Api.GetClickCountByUrlId (id u))) l ++ r)
            = Api.replies [s] ++ Api.replies r).
  { intros s l r. change (s :: ?x ++ r) with ([s] ++ x ++ r).
    unfold Api.replies in *. now rewrite !flat_map_app, Hquiet. }
  assert (Hcalls : forall s l r,
            Api.calls
              (s :: map (fun u => Api.Called (Api.GetClickCountByUrlId (id u))) l ++ r)
            = Api.calls [s] ++ map (fun u => Api.GetClickCountByUrlId (id u)) l
                ++ Api.calls r).
  { intros s l r. change (s :: ?x ++ r) with ([s] ++ x ++ r).
    unfold Api.calls in *. now rewrite !flat_map_app, Hcalled. }
  destruct (Api.race rt (e0 :: es)) as [message|message|value];
    cbn [Api.bind Api.log Api.sendResponse Api.emit fst snd app];
    rewrite Hreplies, Hcalls; (split; [|cbn; now rewrite app_nil_r]);
    eexists _, _, _; (split; [reflexivity|]); split; auto.
Qed.

Lemma X18_listing_all_or_nothing_witness :
  exists status message data,
    Api.replies (Api.steps (Api.getAllUrls SampleCounts.models SampleList.runtime
                              (SampleList.list (JNum 9) JUndefined JUndefined JUndefined)))
      = [(status, message, data, None)] /\
    (status = 400 \/ status = 500) /\
    (data = Api.Absent \/ data = Api.Urls []).
Proof.
  destruct (X18_listing_all_or_nothing SampleCounts.models SampleList.runtime
              (SampleList.list (JNum 9) JUndefined JUndefined JUndefined)
              SampleList.mine (Sample.entity 2 "two" "https://two.example/" "302")
              (Error "timeout")) as [Hreply _].
  - reflexivity.
  - reflexivity.
  - right. now left.
  - reflexivity.
  - exact Hreply.
Defined.

(** ** Creating links *)

Lemma get_object (body : json) (k : string) (v : json) :
  get body k = Returns v -> forall k', exists v', get body k' = Returns v'.
Proof. destruct body; try discriminate; intros _ k'; now eexists. Qed.


Lemma isValidUrl_false rt url :
  (exists e, Api.URL_protocol rt url = Throws e) \/
  (exists protocol, Api.URL_protocol rt url = Returns protocol /\
                    protocol <> "http:"%string /\ protocol <> "https:"%string) ->
  exists t, Api.isValidUrl rt url = (t, Returns false) /\
            Api.replies t = [] /\ Api.creations t = [].
Proof.
  unfold Api.isValidUrl. intros [[e ->] | (protocol & -> & Hhttp & Hhttps)].
  - destruct e; now eexists.
  - apply String.eqb_neq in Hhttp, Hhttps. rewrite Hhttp, Hhttps. now eexists.
Qed.

(** X19: neither handler creates a link for a URL the [URL] constructor
    rejects or whose scheme is not http or https: the reply is 400
    "Invalid URL provided" and the service is not called. *)
Theorem X19_invalid_url_not_created m rt body url :
  get body "original_url" = Returns url ->
  (exists e, Api.URL_protocol rt url = Throws e) \/
  (exists protocol, Api.URL_protocol rt url = Returns protocol /\
                    protocol <> "http:"%string /\ protocol <> "https:"%string) ->
  (Api.replies (Api.steps (Api.createAnonymousUrl m rt body))
     = [(400, "Invalid URL provided"%string, Api.Absent, None)] /\
   Api.creations (Api.steps (Api.createAnonymousUrl m rt body)) = []) /\
  (Api.replies (Api.steps (Api.createAuthenticatedUrl m rt body))
     = [(400, "Invalid URL provided"%string, Api.Absent, None)] /\
   Api.creations (Api.steps (Api.createAuthenticatedUrl m rt body)) = []).
Proof.
  intros Hurl Hbad.
  destruct (isValidUrl_false rt url Hbad) as (t & Hvalid & Hreplies & Hcreations).
  destruct (get_object body _ _ Hurl "id") as [user Huser].
  destruct (get_object body _ _ Hurl "custom_code") as [code Hcode].
  destruct (get_object body _ _ Hurl "title") as [title Htitle].
  destruct (get_object body _ _ Hurl "expiry_date") as [expiry Hexpiry].
  destruct (get_object body _ _ Hurl "goal_id") as [goal Hgoal].
  split.
  - unfold Api.createAnonymousUrl.
    rewrite Hurl, api_bind_await, Hcode, api_bind_await, Htitle, api_bind_await,
      Hexpiry, api_bind_await, Hgoal, api_bind_await, Hvalid, api_bind_returns.
    cbn [negb Api.sendResponse Api.emit Api.try_catch Api.steps fst snd].
    unfold Api.replies, Api.creations in *. rewrite !flat_map_app, Hreplies, Hcreations.
    split; reflexivity.
  - unfold Api.createAuthenticatedUrl.
    rewrite Huser, api_bind_await, Hurl, api_bind_await, Hcode, api_bind_await,
      Htitle, api_bind_await, Hexpiry, api_bind_await, Hgoal, api_bind_await,
      Hvalid, api_bind_returns.
    cbn [negb Api.sendResponse Api.emit Api.try_catch Api.steps fst snd].
    unfold Api.replies, Api.creations in *. rewrite !flat_map_app, Hreplies, Hcreations.
    split; reflexivity.
Qed.

Lemma X19_invalid_url_not_created_witness :
  Api.replies (Api.steps (Api.createAnonymousUrl SampleList.models SampleList.runtime
                            (SampleList.body (JStr "ftp://files.example/a") JUndefined)))
    = [(400, "Invalid URL provided"%string, Api.Absent, None)] /\
  Api.creations (Api.steps (Api.createAnonymousUrl SampleList.models SampleList.runtime
                              (SampleList.body (JStr "ftp://files.example/a") JUndefined)))
    = [].
Proof.
  destruct (X19_invalid_url_not_created SampleList.models SampleList.runtime
              (SampleList.body (JStr "ftp://files.example/a") JUndefined)
              (JStr "ftp://files.example/a")) as [Hanonymous _].
  - reflexivity.
  - right. exists "ftp:"%string. repeat split; discriminate.
  - exact Hanonymous.
Defined.







(** X22: a request without a body is answered without calling the
    service, with 400 "Invalid data format" by the anonymous handler and
    with 500 "Internal Server Error" by the authenticated one. *)
Theorem X22_missing_body m rt body :
  body = JNull \/ body = JUndefined ->
  (Api.replies (Api.steps (Api.createAnonymousUrl m rt body))
     = [(400, "Invalid data format"%string, Api.Absent, None)] /\
   Api.creations (Api.steps (Api.createAnonymousUrl m rt body)) = []) /\
  (Api.replies (Api.steps (Api.createAuthenticatedUrl m rt body))
     = [(500, "Internal Server Error"%string, Api.Absent, None)] /\
   Api.creations (Api.steps (Api.createAuthenticatedUrl m rt body)) = []).
Proof. intros [-> | ->]; repeat split. Qed.

Lemma X22_missing_body_witness :
  Api.replies (Api.steps (Api.createAuthenticatedUrl SampleList.models SampleList.runtime
                            JUndefined))
    = [(500, "Internal Server Error"%string, Api.Absent, None)].
Proof.
  exact (proj1 (proj2 (X22_missing_body SampleList.models SampleList.runtime JUndefined
                         (or_intror eq_refl)))).
Defined.

Module Answers.

Lemma replies_app (t1 t2 : list Api.Step) :
  Api.replies (t1 ++ t2) = Api.replies t1 ++ Api.replies t2.
Proof. apply flat_map_app. Qed.

Lemma bind_quiet {A B} (m : Api.T A) (k : A -> Api.T B) :
  Api.quiet m -> (forall a, Api.quiet (k a)) -> Api.quiet (Api.bind m k).
Proof.
  unfold Api.quiet, Api.bind. intros Hm Hk.
  destruct (snd m) as [a|e]; cbn [fst]; [|exact Hm].
  now rewrite replies_app, Hm, Hk.
Qed.

Lemma bind_answers {A B} (m : Api.T A) (k : A -> Api.T B) :
  Api.quiet m -> (forall a, Api.answersOnce (k a)) -> Api.answersOnce (Api.bind m k).
Proof.
  unfold Api.quiet, Api.answersOnce, Api.bind. intros Hm Hk.
  destruct (snd m) as [a|e]; cbn [fst snd]; [|exact Hm].
  rewrite replies_app, Hm. apply Hk.
Qed.

Lemma await_quiet {A} (r : result A) : Api.quiet (Api.await r).
Proof. reflexivity. Qed.

Lemma ret_quiet {A} (a : A) : Api.quiet (Api.ret a).
Proof. reflexivity. Qed.

Lemma log_quiet lvl line : Api.quiet (Api.log lvl line).
Proof. reflexivity. Qed.

Lemma called_quiet c : Api.quiet (Api.emit (Api.Called c)).
Proof. reflexivity. Qed.

Lemma sendResponse_answers status message data pagination :
  Api.answersOnce (Api.sendResponse status message data pagination).
Proof. reflexivity. Qed.

Lemma promise_all_quiet {A} race (ps : list (Api.T A)) :
  Forall Api.quiet ps -> Api.quiet (Api.promise_all race ps).
Proof.
  unfold Api.quiet, Api.promise_all. cbn [fst].
  induction 1 as [|p ps Hp _ IH]; [reflexivity|].
  cbn [flat_map]. now rewrite replies_app, Hp, IH.
Qed.

Lemma withClicks_quiet m rt u : Api.quiet (Api.withClicks m rt u).
Proof. unfold Api.quiet. now rewrite withClicks_steps. Qed.

Lemma isValidUrl_quiet rt url : Api.quiet (Api.isValidUrl rt url).
Proof.
  unfold Api.isValidUrl. destruct (Api.URL_protocol rt url) as [protocol|[]]; reflexivity.
Qed.

(** A handler whose body replies once unless it throws, and whose
    [catch] replies once, replies once. *)
Lemma try_catch_answers (body : Api.T unit) (handler : exn -> Api.T unit) :
  Api.answersOnce body ->
  (forall e, length (Api.replies (fst (handler e))) = 1%nat /\ snd (handler e) = Returns tt) ->
  length (Api.replies (Api.steps (Api.try_catch body handler))) = 1%nat /\
  snd (Api.try_catch body handler) = Returns tt.
Proof.
  unfold Api.answersOnce, Api.try_catch, Api.steps. intros Hbody Hhandler.
  destruct (snd body) as [[]|e]; cbn [fst snd]; [now split|].
  rewrite replies_app, Hbody. apply Hhandler.
Qed.

Lemma creationFailed_once who e :
  length (Api.replies (fst (Api.creationFailed who e))) = 1%nat /\
  snd (Api.creationFailed who e) = Returns tt.
Proof.
  unfold Api.creationFailed.
  destruct e as [message|message|value]; try destruct (String.eqb message _);
    split; reflexivity.
Qed.

Lemma create_once m rt who options goal success :
  Api.answersOnce (Api.create m rt who options goal success).
Proof.
  unfold Api.create.
  match goal with
  | |- Api.answersOnce (Api.try_catch ?body ?handler) =>
      destruct (try_catch_answers body handler) as [Hone Hreturns]
  end.
  - repeat first
      [ apply sendResponse_answers | apply await_quiet | apply ret_quiet | apply log_quiet
      | apply called_quiet
      | apply bind_quiet; [|intros ?]
      | apply bind_answers; [|intros ?]
      | progress cbv zeta
      | match goal with
        | |- Api.quiet (match ?x with _ => _ end) => destruct x
        end ].
  - apply creationFailed_once.
  - unfold Api.answersOnce. unfold Api.steps in Hone. now rewrite Hreturns.
Qed.

End Answers.

(** ** Total clicks *)

Lemma ceil_div_bounds (x y : Z) :
  0 < y -> (Api.ceil_div x y - 1) * y < x <= Api.ceil_div x y * y.
Proof.
  intros Hy. unfold Api.ceil_div.
  pose proof (Z.mul_div_le (- x) y Hy).
  pose proof (Z.mul_succ_div_gt (- x) y Hy). nia.
Qed.

(** What rounding to a double does to an integer below 2^54. *)
Lemma round53_exact (x : Z) : Z.abs x < 2 ^ 53 -> Api.round53 x = x.
Proof.
  intros Hx. unfold Api.round53. cbv zeta.
  destruct (Z.ltb_spec (Z.abs x) (2 ^ 53)); [reflexivity|lia].
Qed.

Lemma round53_even (x : Z) :
  2 ^ 53 <= x < 2 ^ 54 ->
  exists half, Api.round53 x = 2 * half /\ x - 1 <= 2 * half <= x + 1.
Proof.
  intros Hx. unfold Api.round53. cbv zeta.
  rewrite (Z.abs_eq x) by lia.
  destruct (Z.ltb_spec x (2 ^ 53)); [lia|].
  rewrite (Z.log2_unique x 53) by (change (2 ^ Z.succ 53) with (2 ^ 54); lia).
  change (2 ^ (53 - 52)) with 2.
  rewrite (Z.sgn_pos x) by lia.
  pose proof (Z.div_mod x 2 ltac:(lia)) as Hdiv.
  pose proof (Z.mod_pos_bound x 2 ltac:(lia)) as Hmod.
  destruct (Z.ltb_spec (2 * (x mod 2)) 2).
  - exists (x / 2). lia.
  - destruct (Z.ltb_spec 2 (2 * (x mod 2))); [lia|].
    destruct (Z.even (x / 2)); [exists (x / 2) | exists (x / 2 + 1)]; lia.
Qed.

(** X23: the periods the two parsers accept are ordered.  The analysis
    period ends at a valid date, which is the first reading of the clock
    when no end date is given; a start date that was given is valid; and
    a valid start is not after the end.  A custom comparison period has
    valid dates and does not start after it ends; its number of days [n]
    is at least 1, and is the least whose [n - 1] days cover the period
    when the period is shorter than 2^53 milliseconds; for a longer one
    (dates are less than 2^54 milliseconds apart) the difference of the
    dates is rounded, and [n - 1] days may be one millisecond short. *)
Theorem X23_periods_ordered rt cal :
  (forall s e startDate endDate,
      Api.parseAnalyticsDates rt cal s e = Api.DatesOk startDate endDate ->
      exists finish,
        endDate = Api.ValidDate finish /\
        (json_truthy e = false -> finish = Api.now cal) /\
        (json_truthy s = true -> exists start, startDate = Api.ValidDate start) /\
        (forall start, startDate = Api.ValidDate start -> start <= finish)) /\
  (forall comparison startDate cs ce n ps pe,
      Api.is_text comparison "custom" = true ->
      Api.determineComparisonPeriod rt cal comparison startDate cs ce
        = Api.ComparisonOk n ps pe ->
      exists s e,
        ps = Api.ValidDate s /\ pe = Api.ValidDate e /\ s <= e /\ 1 <= n /\
        (e - s < 2 ^ 53 -> (n - 2) * Api.msPerDay < e - s <= (n - 1) * Api.msPerDay) /\
        (e - s < 2 ^ 54 ->
         (n - 2) * Api.msPerDay < e - s <= (n - 1) * Api.msPerDay + 1)).
Proof.
  split.
  - intros s e startDate endDate. unfold Api.parseAnalyticsDates. cbv zeta.
    assert (Hordered : forall a b,
               Api.before (Api.ValidDate b) a = false ->
               forall start, a = Api.ValidDate start -> start <= b).
    { intros a b Hbefore start ->. cbn in Hbefore. lia. }
    destruct (json_truthy s).
    + destruct (Api.newDate rt s) as [|start]; [discriminate|].
      destruct (json_truthy e).
      * destruct (Api.newDate rt e) as [|finish]; [discriminate|].
        destruct (Api.before _ _) eqn:Hbefore; [discriminate|]. intros [= <- <-].
        exists finish. repeat split; try discriminate; eauto.
      * destruct (Api.before _ _) eqn:Hbefore; [discriminate|]. intros [= <- <-].
        exists (Api.now cal). repeat split; eauto.
    + destruct (json_truthy e).
      * destruct (Api.newDate rt e) as [|finish]; [discriminate|].
        destruct (Api.before _ _) eqn:Hbefore; [discriminate|]. intros [= <- <-].
        exists finish. repeat split; try discriminate; eauto.
      * destruct (Api.before _ _) eqn:Hbefore; [discriminate|]. intros [= <- <-].
        exists (Api.now cal). repeat split; try discriminate; eauto.
  - intros comparison startDate cs ce n ps pe Hcustom.
    unfold Api.determineComparisonPeriod. rewrite Hcustom.
    destruct (_ || _); [discriminate|].
    destruct (Api.newDate rt cs) as [|s]; [discriminate|].
    destruct (Api.newDate rt ce) as [|e]; [discriminate|].
    destruct (e <? s) eqn:Horder; [discriminate|]. intros [= <- <- <-].
    exists s, e. apply Z.ltb_ge in Horder. unfold Api.dayCount.
    pose proof (ceil_div_bounds (Api.round53 (e - s)) Api.msPerDay eq_refl) as Hbounds.
    change Api.msPerDay with 86400000 in *.
    assert (Hsmall : e - s < 2 ^ 53 -> Api.round53 (e - s) = e - s)
      by (intros Hlt; apply round53_exact; lia).
    assert (Hrounded : 0 <= Api.round53 (e - s)).
    { destruct (Z.lt_ge_cases (e - s) (2 ^ 53)) as [Hlt|Hge]; [rewrite Hsmall; lia|].
      unfold Api.round53. cbv zeta. rewrite (Z.abs_eq (e - s)) by lia.
      destruct (Z.ltb_spec (e - s) (2 ^ 53)); [lia|].
      rewrite (Z.sgn_pos (e - s)) by lia.
      assert (0 < 2 ^ (Z.log2 (e - s) - 52)) by (apply Z.pow_pos_nonneg; [lia|];
        pose proof (Z.log2_le_mono (2 ^ 53) (e - s) Hge) as Hlog;
        rewrite Z.log2_pow2 in Hlog by lia; lia).
      pose proof (Z.div_pos (e - s) (2 ^ (Z.log2 (e - s) - 52)) ltac:(lia) ltac:(lia)).
      repeat match goal with |- context [if ?c then _ else _] => destruct c end; nia. }
    split; [reflexivity|]. split; [reflexivity|]. split; [exact Horder|].
    split; [lia|]. split.
    + intros Hlt. rewrite (Hsmall Hlt) in Hbounds |- *. lia.
    + intros Hlt. destruct (Z.lt_ge_cases (e - s) (2 ^ 53)) as [Hlow|Hge].
      * rewrite (Hsmall Hlow) in Hbounds |- *. lia.
      * destruct (round53_even (e - s) (conj Hge Hlt)) as (half & Hhalf & Hnear).
        rewrite Hhalf in Hbounds |- *. lia.
Qed.

Lemma X23_periods_ordered_witness :
  (exists finish,
      Api.ValidDate SampleTotals.january31 = Api.ValidDate finish /\
      (json_truthy (JStr "2024-01-31") = false -> finish = Api.now SampleTotals.calendar) /\
      (json_truthy (JStr "2024-01-01") = true ->
       exists start, Api.ValidDate SampleTotals.january1 = Api.ValidDate start) /\
      (forall start, Api.ValidDate SampleTotals.january1 = Api.ValidDate start ->
                     start <= finish)) /\
  (exists s e,
      Api.ValidDate SampleTotals.farPast = Api.ValidDate s /\
      Api.ValidDate SampleTotals.farFuture = Api.ValidDate e /\ s <= e /\
      1 <= 150000001 /\
      (e - s < 2 ^ 53 ->
       (150000001 - 2) * Api.msPerDay < e - s <= (150000001 - 1) * Api.msPerDay) /\
      (e - s < 2 ^ 54 ->
       (150000001 - 2) * Api.msPerDay < e - s <= (150000001 - 1) * Api.msPerDay + 1)).
Proof.
  split.
  - exact (proj1 (X23_periods_ordered SampleTotals.runtime SampleTotals.calendar)
             (JStr "2024-01-01") (JStr "2024-01-31") _ _ eq_refl).
  - exact (proj2 (X23_periods_ordered SampleTotals.epochs SampleTotals.calendar)
             (JStr "custom") (Api.ValidDate SampleTotals.january1)
             (JStr "-203374-12-24T00:00:00.000Z") (JStr "+207313-01-10T00:00:00.001Z")
             150000001 _ _ eq_refl eq_refl).
Defined.

(** X24: for a comparison other than [custom], with days of 24 hours, the
    number of days compared is what [parseInt] reads, or 30 when it reads
    no number or 0; the comparison is accepted exactly when that is 7, 14,
    30 or 90; and the previous period then ends one day before the
    analysis period starts and has that number of days. *)
Theorem X24_standard_comparison rt cal comparison start cs ce :
  Api.is_text comparison "custom" = false ->
  (forall ms n, Api.addDays cal ms n = Api.ValidDate (ms + n * Api.msPerDay)) ->
  let n := match Api.parseInt rt comparison with
           | Api.Int 0 | Api.NaN => 30
           | Api.Int n => n
           end in
  match Api.determineComparisonPeriod rt cal comparison (Api.ValidDate start) cs ce with
  | Api.ComparisonOk periodDays previousStart previousEnd =>
      periodDays = n /\ In n [7; 14; 30; 90] /\
      previousEnd = Api.ValidDate (start - Api.msPerDay) /\
      Api.days previousStart previousEnd = Api.Int n
  | Api.ComparisonError error =>
      ~ In n [7; 14; 30; 90] /\
      error = "comparison must be one of: 7, 14, 30, 90, custom"%string
  end.
Proof.
  intros Hcustom Hdays n.
  assert (Hn : Api.or_default (Api.parseInt rt comparison) 30 = n).
  { subst n. unfold Api.or_default. destruct (Api.parseInt rt comparison) as [|[| |]];
      reflexivity. }
  unfold Api.determineComparisonPeriod. rewrite Hcustom. cbv zeta. rewrite Hn.
  clearbody n. clear Hn.
  destruct (Api.standard n) eqn:Hstandard; cbn [negb].
  - unfold Api.standard in Hstandard. apply existsb_exists in Hstandard as (x & Hin & Hx).
    apply Z.eqb_eq in Hx. subst x.
    unfold Api.shift. rewrite !Hdays.
    repeat split; try assumption.
    unfold Api.days, Api.dayCount. f_equal.
    replace (start + -1 * Api.msPerDay - (start + -1 * Api.msPerDay + - (n - 1) * Api.msPerDay))
      with ((n - 1) * Api.msPerDay) by lia.
    assert (Hn : 7 <= n <= 90) by (cbn in Hin; lia).
    rewrite round53_exact
      by (change Api.msPerDay with 86400000; change (2 ^ 53) with 9007199254740992; lia).
    unfold Api.ceil_div.
    replace (- ((n - 1) * Api.msPerDay)) with ((- (n - 1)) * Api.msPerDay) by lia.
    rewrite Z.div_mul by discriminate. lia.
  - split; [|reflexivity]. intros Hin.
    assert (Api.standard n = true); [|congruence].
    unfold Api.standard. apply existsb_exists. exists n. split; [assumption|apply Z.eqb_refl].
Qed.

Lemma X24_standard_comparison_witness :
  match Api.determineComparisonPeriod SampleTotals.runtime SampleTotals.calendar (JStr "week")
          (Api.ValidDate SampleTotals.january1) JUndefined JUndefined with
  | Api.ComparisonOk periodDays previousStart previousEnd =>
      periodDays = 30 /\ In 30 [7; 14; 30; 90] /\
      previousEnd = Api.ValidDate (SampleTotals.january1 - Api.msPerDay) /\
      Api.days previousStart previousEnd = Api.Int 30
  | Api.ComparisonError error =>
      ~ In 30 [7; 14; 30; 90] /\
      error = "comparison must be one of: 7, 14, 30, 90, custom"%string
  end.
Proof.
  exact (X24_standard_comparison SampleTotals.runtime SampleTotals.calendar (JStr "week")
           SampleTotals.january1 JUndefined JUndefined eq_refl (fun _ _ => eq_refl)).
Defined.


Lemma totalsFailed_run e :
  exists line status message,
    Api.totalsFailed e
      = ([Api.Logged Api.Failure line; Api.Reply status message Api.Absent None], Returns tt) /\
    (status = 400 \/ status = 500).
Proof. destruct e; do 3 eexists; (split; [reflexivity|]); auto. Qed.

(** The run from the queries on: it makes the queries up to the first
    that throws at the call, and replies once unless it throws. *)
Lemma fetchTotals_run m rt cal ar userId groupBy page limit startDate endDate analysisDays
      periodDays previousStart previousEnd :
  Api.calls (fst (Api.fetchTotals m rt cal ar userId groupBy page limit startDate endDate
                    analysisDays periodDays previousStart previousEnd))
    = Api.untilThrown
        (combine
           (Api.queries userId
              {| Api.startDate := startDate; Api.endDate := endDate;
                 Api.groupBy := Some groupBy |}
              {| Api.startDate := previousStart; Api.endDate := previousEnd;
                 Api.groupBy := None |})
           (Api.thrownAtCall m userId
              {| Api.startDate := startDate; Api.endDate := endDate;
                 Api.groupBy := Some groupBy |}
              {| Api.startDate := previousStart; Api.endDate := previousEnd;
                 Api.groupBy := None |})) /\
  Api.answersOnce (Api.fetchTotals m rt cal ar userId groupBy page limit startDate endDate
                     analysisDays periodDays previousStart previousEnd).
Proof.
  unfold Api.fetchTotals, Api.thrownAtCall, Api.queries. cbv zeta.
  destruct (Api.getTotalClicksAnalytics_model m userId _) as [e|r1]; [split; reflexivity|].
  destruct (Api.getTotalClicksSummary m userId _) as [e|r2]; [split; reflexivity|].
  destruct (Api.getTopPerformingDays m userId _) as [e|r3]; [split; reflexivity|].
  destruct (Api.getActiveUrlsCount m userId _) as [e|r4]; [split; reflexivity|].
  destruct (Api.getTotalClicksSummary m userId _) as [e|r5]; [split; reflexivity|].
  destruct (Api.getActiveUrlsCount m userId _) as [e|r6]; [split; reflexivity|].
  cbn [Api.started Api.thrown combine Api.untilThrown].
  rewrite !api_bind_emit, !api_bind_ret. cbn [fst snd].
  destruct r1; [|split; reflexivity]. destruct r2; [|split; reflexivity].
  destruct r3; [|split; reflexivity]. destruct r4; [|split; reflexivity].
  destruct r5; [|split; reflexivity]. destruct r6; [|split; reflexivity].
  destruct (Api.dayOf cal startDate); [rewrite api_bind_await|split; reflexivity].
  destruct (Api.dayOf cal endDate); [rewrite api_bind_await|split; reflexivity].
  destruct (Api.dayOf cal previousStart); [rewrite api_bind_await|split; reflexivity].
  destruct (Api.dayOf cal previousEnd); [rewrite api_bind_await|split; reflexivity].
  split; reflexivity.
Qed.




(** The reply to an answered request. *)
Lemma totals_answered m rt cal ar req options previousPeriodOptions periodDays rows summary
      top active previousSummary previousActive :
  Api.answered m rt cal req options previousPeriodOptions periodDays rows summary top active
    previousSummary previousActive ->
  let page := Api.parseInt rt (Api.a_page req) in
  let limit := Z.min (Api.or_default (Api.parseInt rt (Api.a_limit req)) 30) 90 in
  exists response,
    Api.replies (Api.steps (Api.getTotalClicksAnalytics m rt cal ar req))
      = [(200, "Successfully retrieved total clicks analytics"%string,
          Api.Totals response, None)] /\
    Api.t_data response
      = Api.slice (Api.offsetOf page limit) (Api.plus (Api.offsetOf page limit) limit) rows /\
    Api.t_total_items response = Z.of_nat (length rows) /\
    Api.t_total_pages response = Api.ceil_div (Z.of_nat (length rows)) limit /\
    Api.t_current_page response = page /\
    Api.t_limit response = limit /\
    Api.t_comparison response
      = Api.calculateComparisonMetrics ar summary previousSummary active previousActive /\
    Api.t_total_clicks response = Api.nullish_or (Api.field summary "total_clicks") (JNum 0) /\
    Api.t_days response = Api.days (Api.startDate options) (Api.endDate options) /\
    Api.t_period_days response = periodDays /\
    Api.t_top_performing_days response = top.
Proof.
  destruct options as [startDate endDate groupBy].
  destruct previousPeriodOptions as [previousStart previousEnd previousGroupBy].
  unfold Api.answered, Api.accepted. cbn [Api.startDate Api.endDate Api.groupBy].
  intros ((Huser & Hdates & Hcomparison & -> & ->) & (Hs & He & Hps & Hpe)
          & H1 & H2 & H3 & H4 & H5 & H6).
  destruct startDate as [|s]; [congruence|]. destruct endDate as [|e]; [congruence|].
  destruct previousStart as [|ps]; [congruence|].
  destruct previousEnd as [|pe]; [congruence|].
  unfold Api.getTotalClicksAnalytics. cbv zeta.
  rewrite Huser, Hdates, Hcomparison. cbn [negb].
  unfold Api.fetchTotals. cbv zeta. rewrite H1, H2, H3, H4, H5, H6.
  cbn [Api.dayOf Api.started]. rewrite !api_bind_emit, !api_bind_ret, !api_bind_await.
  unfold Api.log. rewrite api_bind_emit.
  eexists. split; [reflexivity|]. repeat split.
Qed.

Lemma slice_length {A} (start : Api.number) (limit : Z) (l : list A) :
  0 <= limit ->
  (length (Api.slice start (Api.plus start limit) l) <= Z.to_nat limit)%nat.
Proof.
  intros Hlimit. unfold Api.slice. rewrite length_firstn.
  destruct start as [|o]; cbn [Api.plus Api.relative]; [lia|].
  destruct (Z.ltb_spec o 0), (Z.ltb_spec (o + limit) 0); lia.
Qed.

(** X26: the reply to an answered request carries one page of the time
    series: the page size is the [limit] asked, 30 when it reads as no
    number or 0, and never more than 90; the data are the page asked of
    the model's rows cut by that size, which are at most that many when
    the size is not negative; and the pagination gives the number of rows
    and the number of pages of that size. *)
Theorem X26_time_series_page m rt cal ar req options previousPeriodOptions periodDays rows
        summary top active previousSummary previousActive :
  Api.answered m rt cal req options previousPeriodOptions periodDays rows summary top active
    previousSummary previousActive ->
  exists response,
    Api.replies (Api.steps (Api.getTotalClicksAnalytics m rt cal ar req))
      = [(200, "Successfully retrieved total clicks analytics"%string,
          Api.Totals response, None)] /\
    Api.t_limit response
      = Z.min (match Api.parseInt rt (Api.a_limit req) with
               | Api.Int 0 | Api.NaN => 30
               | Api.Int n => n
               end) 90 /\
    Api.t_limit response <= 90 /\
    (0 <= Api.t_limit response ->
     (length (Api.t_data response) <= Z.to_nat (Api.t_limit response))%nat) /\
    (forall p, Api.parseInt rt (Api.a_page req) = Api.Int p ->
               Api.t_current_page response = Api.Int p /\
               Api.t_data response = Api.pageOf p (Api.t_limit response) rows) /\
    Api.t_total_items response = Z.of_nat (length rows) /\
    Api.t_total_pages response
      = Api.ceil_div (Z.of_nat (length rows)) (Api.t_limit response).
Proof.
  intros Hanswered.
  destruct (totals_answered m rt cal ar req _ _ _ _ _ _ _ _ _ Hanswered)
    as (response & Hreply & Hdata & Hitems & Hpages & Hpage & Hlimit & _).
  exists response. rewrite Hdata, Hitems, Hpages, Hpage, Hlimit.
  split; [exact Hreply|]. split; [|split; [|split; [|split; [|split]]]]; try reflexivity.
  - f_equal. unfold Api.or_default.
    destruct (Api.parseInt rt (Api.a_limit req)) as [|[| |]]; reflexivity.
  - lia.
  - apply slice_length.
  - intros p ->. split; reflexivity.
Qed.

Lemma X26_time_series_page_witness :
  exists response,
    Api.replies (Api.steps (SampleTotals.run (JStr "2") (JStr "2")))
      = [(200, "Successfully retrieved total clicks analytics"%string,
          Api.Totals response, None)] /\
    Api.t_limit response = Z.min 2 90 /\
    Api.t_limit response <= 90 /\
    (0 <= Api.t_limit response ->
     (length (Api.t_data response) <= Z.to_nat (Api.t_limit response))%nat) /\
    (forall p, Api.Int 2 = Api.Int p ->
               Api.t_current_page response = Api.Int p /\
               Api.t_data response = Api.pageOf p (Api.t_limit response) SampleTotals.series) /\
    Api.t_total_items response = 5 /\
    Api.t_total_pages response = Api.ceil_div 5 (Api.t_limit response).
Proof.
  apply (X26_time_series_page SampleTotals.model SampleTotals.runtime SampleTotals.calendar
           SampleTotals.arithmetic (SampleTotals.request (JStr "2") (JStr "2"))
           SampleTotals.january SampleTotals.weekBefore 7 SampleTotals.series
           (JObj [("total_clicks", JNum 120); ("total_urls", JNum 3);
                  ("avg_clicks_per_url", JNum 40)])
           (JArr [SampleTotals.point "2024-01-04" 40]) (JNum 3) JNull (JNum 0)).
  repeat split; discriminate.
Defined.

(** X27: when [page] is not given, or does not read as a number, the
    reply to an answered request has no time series data: its current
    page is [NaN] and its data are empty whatever rows the model gave,
    while the pagination still counts those rows. *)
Theorem X27_page_not_given m rt cal ar req options previousPeriodOptions periodDays rows
        summary top active previousSummary previousActive :
  Api.answered m rt cal req options previousPeriodOptions periodDays rows summary top active
    previousSummary previousActive ->
  Api.parseInt rt (Api.a_page req) = Api.NaN ->
  exists response,
    Api.replies (Api.steps (Api.getTotalClicksAnalytics m rt cal ar req))
      = [(200, "Successfully retrieved total clicks analytics"%string,
          Api.Totals response, None)] /\
    Api.t_current_page response = Api.NaN /\
    Api.t_data response = [] /\
    Api.t_total_items response = Z.of_nat (length rows).
Proof.
  intros Hanswered Hpage.
  destruct (totals_answered m rt cal ar req _ _ _ _ _ _ _ _ _ Hanswered)
    as (response & Hreply & Hdata & Hitems & _ & Hcurrent & _).
  exists response. rewrite Hdata, Hitems, Hcurrent, Hpage.
  split; [exact Hreply|]. repeat split.
Qed.

Lemma X27_page_not_given_witness :
  exists response,
    Api.replies (Api.steps (SampleTotals.run JUndefined JUndefined))
      = [(200, "Successfully retrieved total clicks analytics"%string,
          Api.Totals response, None)] /\
    Api.t_current_page response = Api.NaN /\
    Api.t_data response = [] /\
    Api.t_total_items response = 5.
Proof.
  apply (X27_page_not_given SampleTotals.model SampleTotals.runtime SampleTotals.calendar
           SampleTotals.arithmetic (SampleTotals.request JUndefined JUndefined)
           SampleTotals.january SampleTotals.weekBefore 7 SampleTotals.series
           (JObj [("total_clicks", JNum 120); ("total_urls", JNum 3);
                  ("avg_clicks_per_url", JNum 40)])
           (JArr [SampleTotals.point "2024-01-04" 40]) (JNum 3) JNull (JNum 0)).
  - repeat split; discriminate.
  - reflexivity.
Defined.

(** X28: a negative [limit] is not refused, and the bound of 90 rows
    does not hold for it: for the first page and a limit of [- k], the
    reply to an answered request carries all the model's rows but the last
    [k], and a number of pages that is not positive. *)
Theorem X28_negative_limit m rt cal ar req options previousPeriodOptions periodDays rows
        summary top active previousSummary previousActive k :
  Api.answered m rt cal req options previousPeriodOptions periodDays rows summary top active
    previousSummary previousActive ->
  Api.parseInt rt (Api.a_page req) = Api.Int 1 ->
  Api.parseInt rt (Api.a_limit req) = Api.Int (- k) ->
  1 <= k ->
  exists response,
    Api.replies (Api.steps (Api.getTotalClicksAnalytics m rt cal ar req))
      = [(200, "Successfully retrieved total clicks analytics"%string,
          Api.Totals response, None)] /\
    Api.t_limit response = - k /\
    Api.t_data response = firstn (length rows - Z.to_nat k) rows /\
    Api.t_total_pages response <= 0.
Proof.
  intros Hanswered Hpage Hlimit Hk.
  destruct (totals_answered m rt cal ar req _ _ _ _ _ _ _ _ _ Hanswered)
    as (response & Hreply & Hdata & _ & Hpages & _ & Hsize & _).
  assert (Hmin : Z.min (Api.or_default (Api.parseInt rt (Api.a_limit req)) 30) 90 = - k).
  { rewrite Hlimit. unfold Api.or_default.
    destruct (Z.eqb_spec (- k) 0); lia. }
  exists response. rewrite Hdata, Hpages, Hsize, Hpage, Hmin.
  split; [exact Hreply|]. split; [reflexivity|]. split.
  - unfold Api.offsetOf, Api.plus, Api.slice, Api.relative.
    replace ((1 - 1) * - k) with 0 by lia.
    replace (0 + - k <? 0) with true by (symmetry; apply Z.ltb_lt; lia).
    cbn [Z.ltb Z.compare Z.to_nat Nat.min skipn]. f_equal. lia.
  - unfold Api.ceil_div. rewrite Z.div_opp_opp by lia.
    pose proof (Z.div_pos (Z.of_nat (length rows)) k ltac:(lia) ltac:(lia)). lia.
Qed.

Lemma X28_negative_limit_witness :
  exists response,
    Api.replies (Api.steps (SampleTotals.run (JStr "1") (JStr "-1")))
      = [(200, "Successfully retrieved total clicks analytics"%string,
          Api.Totals response, None)] /\
    Api.t_limit response = - 1 /\
    Api.t_data response = firstn (5 - Z.to_nat 1) SampleTotals.series /\
    Api.t_total_pages response <= 0.
Proof.
  apply (X28_negative_limit SampleTotals.model SampleTotals.runtime SampleTotals.calendar
           SampleTotals.arithmetic (SampleTotals.request (JStr "1") (JStr "-1"))
           SampleTotals.january SampleTotals.weekBefore 7 SampleTotals.series
           (JObj [("total_clicks", JNum 120); ("total_urls", JNum 3);
                  ("avg_clicks_per_url", JNum 40)])
           (JArr [SampleTotals.point "2024-01-04" 40]) (JNum 3) JNull (JNum 0) 1).
  - repeat split; discriminate.
  - reflexivity.
  - reflexivity.
  - lia.
Defined.

(** X29: the comparison in the reply to an answered request never
    divides by a previous value of 0: the change percentage of such an
    entry is 0.  With no summary for the previous period, the previous
    total and average are 0, so their change percentages are 0; with no
    link active in the previous period, so is the one of the active
    links. *)
Theorem X29_no_previous_data m rt cal ar req options previousPeriodOptions periodDays rows
        summary top active previousSummary previousActive :
  Api.answered m rt cal req options previousPeriodOptions periodDays rows summary top active
    previousSummary previousActive ->
  exists response,
    Api.replies (Api.steps (Api.getTotalClicksAnalytics m rt cal ar req))
      = [(200, "Successfully retrieved total clicks analytics"%string,
          Api.Totals response, None)] /\
    Api.current (Api.m_total_clicks (Api.t_comparison response))
      = Api.t_total_clicks response /\
    (forall entry,
        In entry [Api.m_total_clicks (Api.t_comparison response);
                  Api.m_avg_clicks_per_url (Api.t_comparison response);
                  Api.m_active_urls (Api.t_comparison response)] ->
        Api.previous entry = JNum 0 -> Api.change_percentage entry = JNum 0) /\
    (previousSummary = JNull \/ previousSummary = JUndefined ->
     Api.previous (Api.m_total_clicks (Api.t_comparison response)) = JNum 0 /\
     Api.previous (Api.m_avg_clicks_per_url (Api.t_comparison response)) = JNum 0) /\
    Api.previous (Api.m_active_urls (Api.t_comparison response)) = previousActive.
Proof.
  intros Hanswered.
  destruct (totals_answered m rt cal ar req _ _ _ _ _ _ _ _ _ Hanswered)
    as (response & Hreply & _ & _ & _ & _ & _ & Hcomparison & Htotal & _).
  exists response. rewrite Hcomparison, Htotal.
  split; [exact Hreply|]. split; [reflexivity|]. split; [|split; [|reflexivity]].
  - intros entry [<- | [<- | [<- | []]]];
      cbn [Api.calculateComparisonMetrics Api.metric Api.m_total_clicks
             Api.m_avg_clicks_per_url Api.m_active_urls Api.previous Api.change_percentage];
      now intros ->.
  - intros [-> | ->]; split; reflexivity.
Qed.

Lemma X29_no_previous_data_witness :
  exists response,
    Api.replies (Api.steps (SampleTotals.run (JStr "1") JUndefined))
      = [(200, "Successfully retrieved total clicks analytics"%string,
          Api.Totals response, None)] /\
    Api.change_percentage (Api.m_total_clicks (Api.t_comparison response)) = JNum 0.
Proof.
  destruct (X29_no_previous_data SampleTotals.model SampleTotals.runtime SampleTotals.calendar
              SampleTotals.arithmetic (SampleTotals.request (JStr "1") JUndefined)
              SampleTotals.january SampleTotals.weekBefore 7 SampleTotals.series
              (JObj [("total_clicks", JNum 120); ("total_urls", JNum 3);
                     ("avg_clicks_per_url", JNum 40)])
              (JArr [SampleTotals.point "2024-01-04" 40]) (JNum 3) JNull (JNum 0))
    as (response & Hreply & _ & Hzero & Hnone & _).
  - repeat split; discriminate.
  - exists response. split; [exact Hreply|].
    apply Hzero; [now left|]. apply Hnone. now left.
Defined.

(** X30: each of [getAllUrls], [createAnonymousUrl],
    [createAuthenticatedUrl] and [getTotalClicksAnalytics] sends exactly
    one reply and returns, for every request and whatever the models and
    the runtime do. *)
Theorem X30_one_answer m rt req body clickModel cal ar totals :
  (length (Api.replies (Api.steps (Api.getAllUrls m rt req))) = 1%nat /\
   snd (Api.getAllUrls m rt req) = Returns tt) /\
  (length (Api.replies (Api.steps (Api.createAnonymousUrl m rt body))) = 1%nat /\
   snd (Api.createAnonymousUrl m rt body) = Returns tt) /\
  (length (Api.replies (Api.steps (Api.createAuthenticatedUrl m rt body))) = 1%nat /\
   snd (Api.createAuthenticatedUrl m rt body) = Returns tt) /\
  (length (Api.replies
             (Api.steps (Api.getTotalClicksAnalytics clickModel rt cal ar totals))) = 1%nat /\
   snd (Api.getTotalClicksAnalytics clickModel rt cal ar totals) = Returns tt).
Proof.
  split; [|split; [|split]].
  - apply Answers.try_catch_answers; [|intros [message|message|value]; split; reflexivity].
    destruct (negb (json_truthy (Api.userId req))); [apply Answers.sendResponse_answers|].
    cbv zeta.
    apply Answers.bind_answers; [apply Answers.called_quiet|]. intros _.
    apply Answers.bind_answers; [apply Answers.await_quiet|]. intros [[|u urls]|];
      try apply Answers.sendResponse_answers.
    apply Answers.bind_answers.
    + apply Answers.promise_all_quiet, Forall_forall. intros p Hp.
      apply in_map_iff in Hp as (x & <- & _). apply Answers.withClicks_quiet.
    + intros rows. apply Answers.bind_answers; [apply Answers.log_quiet|]. intros _.
      apply Answers.sendResponse_answers.
  - apply Answers.try_catch_answers; [|intros [message|message|value]; split; reflexivity].
    repeat (apply Answers.bind_answers; [apply Answers.await_quiet|]; intros ?).
    apply Answers.bind_answers; [apply Answers.isValidUrl_quiet|]. intros [|]; cbn [negb].
    + apply Answers.create_once.
    + apply Answers.sendResponse_answers.
  - apply Answers.try_catch_answers; [|intros e; split; reflexivity].
    repeat (apply Answers.bind_answers; [apply Answers.await_quiet|]; intros ?).
    apply Answers.bind_answers; [apply Answers.isValidUrl_quiet|]. intros [|]; cbn [negb].
    + apply Answers.create_once.
    + apply Answers.sendResponse_answers.
  - apply Answers.try_catch_answers.
    + cbv zeta.
      destruct (negb (json_truthy (Api.a_userId totals))); [apply Answers.sendResponse_answers|].
      destruct (Api.parseAnalyticsDates rt cal _ _) as [error|startDate endDate];
        [apply Answers.sendResponse_answers|].
      destruct (Api.determineComparisonPeriod rt cal _ _ _ _)
        as [error|periodDays previousStart previousEnd]; [apply Answers.sendResponse_answers|].
      apply fetchTotals_run.
    + intros e. destruct (totalsFailed_run e) as (line & status & message & -> & _).
      split; reflexivity.
Qed.
